(** * The daily runner of project-mws: historical store, backfill cursor,
      alpha / correlation analytics and the performance ledger

    A shallow embedding of [src/daily-emailer/DailyEmailRunner.js].

    - JavaScript strings are [string]s (bytes; the ASCII fragment of UTF-16,
      on which code-unit order and byte order agree).
    - JavaScript numbers are IEEE-754 binary64 values, taken from
      [SpecFloat] at precision 53 and maximal exponent 1024.
    - Calendar dates are the [yyyy-MM-dd] strings of the source; a [Date]
      object at local midnight is the number of its civil day.
    - The script properties are a finite map from keys to strings; the
      [map] object of [updateHistDatabase_] is an insertion-ordered
      association list, as property enumeration order is in JavaScript.
    - Drive files are tables of cells (what [Utilities.parseCsv] returns and
      what is joined for [setContent]); the spreadsheet used for
      [GOOGLEFINANCE] and the clock are oracles of the invocation. *)

From Stdlib Require Import ZArith List Bool Ascii String Lia Permutation.
From Stdlib Require Import Sorted OrderedTypeEx.
From Stdlib Require Import SpecFloat QArith Qabs.
From stdpp Require Import gmap strings.

Import ListNotations.
Local Open Scope Z_scope.

(** ** JavaScript string primitives (ASCII fragment) *)

Module JsString.

Definition code (c : ascii) : N := N_of_ascii c.

(** [WhiteSpace] and [LineTerminator] code units below 128. *)
Definition isSpace (c : ascii) : bool :=
  let n := code c in
  ((9 <=? n) && (n <=? 13) || (n =? 32))%N.

Fixpoint trimStart (s : string) : string :=
  match s with
  | String c s' => if isSpace c then trimStart s' else s
  | EmptyString => EmptyString
  end.

(** [trimEnd] keeps a character when it is not a space or when something
    is kept after it. *)
Fixpoint trimEnd (s : string) : string :=
  match s with
  | String c s' =>
      match trimEnd s' with
      | EmptyString => if isSpace c then EmptyString else String c EmptyString
      | r => String c r
      end
  | EmptyString => EmptyString
  end.

Definition trim (s : string) : string := trimEnd (trimStart s).

Definition upperChar (c : ascii) : ascii :=
  let n := code c in
  if ((97 <=? n) && (n <=? 122))%N then ascii_of_N (n - 32) else c.

Definition lowerChar (c : ascii) : ascii :=
  let n := code c in
  if ((65 <=? n) && (n <=? 90))%N then ascii_of_N (n + 32) else c.

Fixpoint mapChars (f : ascii -> ascii) (s : string) : string :=
  match s with
  | String c s' => String (f c) (mapChars f s')
  | EmptyString => EmptyString
  end.

Definition toUpperCase : string -> string := mapChars upperChar.
Definition toLowerCase : string -> string := mapChars lowerChar.

(** [s.split(sep)] for a one-character separator. *)
Fixpoint splitOn (sep : ascii) (s : string) : list string :=
  match s with
  | EmptyString => [EmptyString]
  | String c s' =>
      if Ascii.eqb c sep then EmptyString :: splitOn sep s'
      else match splitOn sep s' with
           | p :: ps => String c p :: ps
           | [] => [String c EmptyString]
           end
  end.

(** [s.includes(sub)] *)
Fixpoint includes (s sub : string) : bool :=
  String.prefix sub s ||
  match s with
  | String _ s' => includes s' sub
  | EmptyString => false
  end.

(** [parts.join(sep)] *)
Fixpoint join (sep : string) (parts : list string) : string :=
  match parts with
  | [] => EmptyString
  | [p] => p
  | p :: ps => p +:+ sep +:+ join sep ps
  end.

(** [a < b], [a >= b] on strings: order of code units. *)
Definition lt (a b : string) : bool := String.ltb a b.
Definition ge (a b : string) : bool := negb (String.ltb a b).
Definition gt (a b : string) : bool := String.ltb b a.

(** A string as a condition: the empty string is falsy. *)
Definition truthy (s : string) : bool :=
  match s with EmptyString => false | _ => true end.

End JsString.

(** ** Calendar dates *)

Module JsDate.

Definition isDigit (c : ascii) : bool :=
  let n := JsString.code c in ((48 <=? n) && (n <=? 57))%N.

Definition digitVal (c : ascii) : Z := Z.of_N (JsString.code c) - 48.

(** The test [/^\d{4}-\d{2}-\d{2}$/]. *)
Definition isYMD (s : string) : bool :=
  match s with
  | String a (String b (String c (String d (String h1
    (String e (String f (String h2 (String g (String h EmptyString))))))))) =>
      isDigit a && isDigit b && isDigit c && isDigit d &&
      Ascii.eqb h1 "-" &&
      isDigit e && isDigit f &&
      Ascii.eqb h2 "-" &&
      isDigit g && isDigit h
  | _ => false
  end.

(** [Number(part)] on a part of a split date.  Only non-empty runs of
    decimal digits are given a value; any other part is reported as
    [None], which stands for a [Date] the model does not follow (for the
    strings that pass [isYMD] every part is a run of digits). *)
Fixpoint digitsAcc (acc : Z) (s : string) : option Z :=
  match s with
  | EmptyString => Some acc
  | String c s' =>
      if isDigit c then digitsAcc (10 * acc + digitVal c) s' else None
  end.

Definition numberOfDigits (s : string) : option Z :=
  match s with
  | EmptyString => None
  | _ => digitsAcc 0 s
  end.

(** The Gregorian calendar repeats every 400 years, 146097 days; the
    computations are done within one such era, which starts on March 1st
    of a year divisible by 400. *)

(** Day within the era of the day [d] of month [m] in the year of the
    era [yoe] (a year starts in March). *)
Definition doeOfCivil (yoe m d : Z) : Z :=
  let mp := if m <=? 2 then m + 9 else m - 3 in
  let doy := (153 * mp + 2) / 5 + d - 1 in
  yoe * 365 + yoe / 4 - yoe / 100 + doy.

(** Number of the civil day [y-m-d] of the proleptic Gregorian calendar,
    day 0 being 1970-01-01; [1 <= m <= 12], any [d]. *)
Definition daysFromCivil (y m d : Z) : Z :=
  let y' := if m <=? 2 then y - 1 else y in
  let era := y' / 400 in
  era * 146097 + doeOfCivil (y' - era * 400) m d - 719468.

(** Year counted from the start of the era, month and day of a day of the
    era. *)
Definition civilOfDoe (doe : Z) : Z * Z * Z :=
  let yoe := (doe - doe / 1460 + doe / 36524 - doe / 146096) / 365 in
  let doy := doe - (365 * yoe + yoe / 4 - yoe / 100) in
  let mp := (5 * doy + 2) / 153 in
  let d := doy - (153 * mp + 2) / 5 + 1 in
  let m := if mp <? 10 then mp + 3 else mp - 9 in
  (yoe + (if m <=? 2 then 1 else 0), m, d).

(** The civil date of a day number. *)
Definition civilFromDays (n : Z) : Z * Z * Z :=
  let z := n + 719468 in
  let era := z / 146097 in
  let '(y0, m, d) := civilOfDoe (z - era * 146097) in
  (y0 + era * 400, m, d).

(** [new Date(year, monthIndex, day)] at local midnight, as a day number:
    years 0..99 mean 1900..1999, and month and day overflow is carried
    (ECMA-262, [MakeDay]). *)
Definition makeDay (year monthIndex day : Z) : Z :=
  let yr := if (0 <=? year) && (year <=? 99) then 1900 + year else year in
  let ym := yr + monthIndex / 12 in
  let mn := monthIndex mod 12 in
  daysFromCivil ym (mn + 1) 1 + day - 1.

(** [ymdToLocalDate_] *)
Definition ymdToLocalDate_ (ymd : string) : option Z :=
  match map numberOfDigits (JsString.splitOn "-" ymd) with
  | Some y :: Some m :: Some d :: _ => Some (makeDay y (m - 1) d)
  | _ => None
  end.

Definition digitChar (n : Z) : ascii := ascii_of_N (Z.to_N (48 + n mod 10)).

Definition pad2 (n : Z) : string :=
  String (digitChar (n / 10)) (String (digitChar n) EmptyString).

Fixpoint decimalDigits (fuel : nat) (n : Z) (acc : string) : string :=
  match fuel with
  | O => acc
  | S fuel' =>
      let acc' := String (digitChar n) acc in
      if n <? 10 then acc' else decimalDigits fuel' (n / 10) acc'
  end.

(** The decimal numeral of a natural number. *)
Definition decimal (n : Z) : string :=
  decimalDigits (S (Z.to_nat (Z.log2 n))) n EmptyString.

(** The field [yyyy]: at least four digits, the year of the era for the
    years before year 1. *)
Definition pad4 (y : Z) : string :=
  let y := if 1 <=? y then y else 1 - y in
  if y <? 1000
  then String (digitChar (y / 1000)) (String (digitChar (y / 100))
         (String (digitChar (y / 10)) (String (digitChar y) EmptyString)))
  else decimal y.

(** [Utilities.formatDate(d, tz, "yyyy-MM-dd")] of the day [n]. *)
Definition formatYMD (n : Z) : string :=
  let '(y, m, d) := civilFromDays n in
  pad4 y +:+ "-" +:+ pad2 m +:+ "-" +:+ pad2 d.

(** [addDaysYMD_]: parse, [setDate(getDate() + deltaDays)], format. *)
Definition addDaysYMD_ (ymd : string) (deltaDays : Z) : option string :=
  match ymdToLocalDate_ ymd with
  | Some n => Some (formatYMD (n + deltaDays))
  | None => None
  end.

End JsDate.

(** ** JavaScript numbers: IEEE-754 binary64 *)

Module JsNum.

Definition num : Type := spec_float.

Definition prec : Z := 53.
Definition emax : Z := 1024.

Definition NaN : num := S754_nan.
Definition Infinity : num := S754_infinity false.
Definition zero : num := S754_zero false.

Definition add : num -> num -> num := SFadd prec emax.
Definition sub : num -> num -> num := SFsub prec emax.
Definition mul : num -> num -> num := SFmul prec emax.
Definition div : num -> num -> num := SFdiv prec emax.
Definition sqrt : num -> num := SFsqrt prec emax.

(** The number nearest to an integer. *)
Definition ofZ (z : Z) : num := binary_normalize prec emax z 0 false.
Definition ofNat (n : nat) : num := ofZ (Z.of_nat n).

Definition one : num := ofZ 1.

Definition isFinite (x : num) : bool :=
  match x with
  | S754_zero _ | S754_finite _ _ _ => true
  | S754_infinity _ | S754_nan => false
  end.

Definition isNaN (x : num) : bool :=
  match x with S754_nan => true | _ => false end.

(** [x === y], [x < y], [x <= y], [x > y], [x >= y] *)
Definition eqb (x y : num) : bool := SFeqb x y.
Definition ltb (x y : num) : bool := SFltb x y.
Definition leb (x y : num) : bool := SFleb x y.
Definition gtb (x y : num) : bool := SFltb y x.
Definition geb (x y : num) : bool := SFleb y x.

(** A number as a condition: zeros and NaN are falsy. *)
Definition truthy (x : num) : bool :=
  match x with
  | S754_zero _ | S754_nan => false
  | _ => true
  end.

(** The exact value of a finite number, in lowest terms. *)
Definition toQ (x : num) : Q :=
  match x with
  | S754_finite s m e =>
      let v := if s then Z.neg m else Z.pos m in
      Qred (if 0 <=? e then inject_Z (v * 2 ^ e)
            else Qmake v (Z.to_pos (2 ^ (- e))))
  | _ => 0%Q
  end.

(** The number nearest to [m * 10^e] for a natural [m] (ties to even),
    signed by [neg]. *)
Definition ofDecimal (neg : bool) (m e : Z) : num :=
  match m with
  | Z.pos p =>
      if 0 <=? e
      then binary_normalize prec emax
             (if neg then - (m * 10 ^ e) else m * 10 ^ e) 0 false
      else SFdiv prec emax (S754_finite neg p 0)
                           (S754_finite false (Z.to_pos (10 ^ (- e))) 0)
  | _ => S754_zero neg
  end.

Fixpoint takeDigits (s : string) : string * string :=
  match s with
  | String c s' =>
      if JsDate.isDigit c
      then let '(ds, r) := takeDigits s' in (String c ds, r)
      else (EmptyString, s)
  | EmptyString => (EmptyString, EmptyString)
  end.

Fixpoint digitsValue (acc : Z) (s : string) : Z :=
  match s with
  | String c s' => digitsValue (10 * acc + JsDate.digitVal c) s'
  | EmptyString => acc
  end.

(** A leading sign: whether it is a minus, and what follows it. *)
Definition takeSign (s : string) : bool * string :=
  match s with
  | String "-" r => (true, r)
  | String "+" r => (false, r)
  | _ => (false, s)
  end.

(** The exponent part [e+ddd] or [e-ddd] when it is complete, else 0. *)
Definition takeExponent (s : string) : Z :=
  match s with
  | String c r =>
      if Ascii.eqb c "e" || Ascii.eqb c "E" then
        let '(neg, r') := takeSign r in
        match takeDigits r' with
        | (EmptyString, _) => 0
        | (ds, _) => if neg then - digitsValue 0 ds else digitsValue 0 ds
        end
      else 0
  | EmptyString => 0
  end.

(** [parseFloat(s)] for a string: leading white space is skipped and the
    longest prefix that is a decimal literal is read. *)
Definition parseFloat (s : string) : num :=
  let '(neg, r) := takeSign (JsString.trimStart s) in
  if String.prefix "Infinity" r then S754_infinity neg
  else
    let '(ip, r1) := takeDigits r in
    let '(fp, r2) :=
      match r1 with
      | String "." r1' => takeDigits r1'
      | _ => (EmptyString, r1)
      end in
    match ip, fp with
    | EmptyString, EmptyString => NaN
    | _, _ =>
        ofDecimal neg (digitsValue 0 (ip +:+ fp))
                  (takeExponent r2 - Z.of_nat (String.length fp))
    end.

Fixpoint zeros (n : nat) : string :=
  match n with O => EmptyString | S n' => String "0" (zeros n') end.

(** Number of decimal digits of a positive integer. *)
Definition digits10 (n : Z) : nat := String.length (JsDate.decimal n).

(** [Number::toString] for the finite numbers of magnitude at least
    [10^21], given as the integer [M] they equal: the shortest digit
    string that reads back as the number, in exponent notation. *)
Fixpoint shortestDigits (fuel k : nat) (x : num) (M : Z) (n0 : nat)
  : Z * nat :=
  let p := 10 ^ Z.of_nat (n0 - k) in
  let lo := M / p in
  let okLo := SFeqb (ofZ (lo * p)) x in
  let okHi := SFeqb (ofZ ((lo + 1) * p)) x in
  let pick :=
    if okLo && okHi then
      match Z.compare (M - lo * p) ((lo + 1) * p - M) with
      | Lt => Some lo
      | Gt => Some (lo + 1)
      | Eq => Some (if Z.even lo then lo else lo + 1)
      end
    else if okLo then Some lo
    else if okHi then Some (lo + 1)
    else None in
  match pick, fuel with
  | Some s, _ => if s =? 10 ^ Z.of_nat k then (1, S n0) else (s, n0)
  | None, S fuel' => shortestDigits fuel' (S k) x M n0
  | None, O => (lo, n0)
  end.

Definition toStringBig (M : Z) (x : num) : string :=
  let '(s, n) := shortestDigits 17 1 x M (digits10 M) in
  match JsDate.decimal s with
  | String d EmptyString => String d EmptyString
  | String d ds => String d (String "." ds)
  | EmptyString => EmptyString
  end +:+ "e+" +:+ JsDate.decimal (Z.of_nat n - 1).

(** [x.toFixed(f)] *)
Definition toFixed (x : num) (f : nat) : string :=
  match x with
  | S754_nan => "NaN"
  | S754_infinity s => if s then "-Infinity" else "Infinity"
  | S754_zero _ =>
      match f with O => "0" | _ => "0." +:+ zeros f end
  | S754_finite s m e =>
      let sign := if s then "-" else EmptyString in
      if (0 <=? e) && (10 ^ 21 <=? Z.pos m * 2 ^ e)
      then sign +:+ toStringBig (Z.pos m * 2 ^ e) (S754_finite false m e)
      else
        let n :=
          if 0 <=? e then Z.pos m * 2 ^ e * 10 ^ Z.of_nat f
          else (2 * (Z.pos m * 10 ^ Z.of_nat f) + 2 ^ (- e)) / (2 * 2 ^ (- e)) in
        let ds := JsDate.decimal n in
        let ds := zeros (S f - String.length ds) +:+ ds in
        let k := (String.length ds - f)%nat in
        sign +:+ String.substring 0 k ds +:+
        match f with
        | O => EmptyString
        | _ => "." +:+ String.substring k f ds
        end
  end.

End JsNum.

(** ** Exceptions, tables, and the host of an invocation *)

Inductive result (A : Type) : Type :=
| Ok (a : A)
| Throw (msg : string).
Arguments Ok {A} a.
Arguments Throw {A} msg.

#[global] Instance result_ret : MRet result := fun _ a => Ok a.
#[global] Instance result_bind : MBind result := fun _ _ f m =>
  match m with
  | Ok a => f a
  | Throw msg => Throw msg
  end.

Definition isOk {A} (r : result A) : bool :=
  match r with Ok _ => true | Throw _ => false end.

(** A date computation on a string the model gives no [Date] for. *)
Definition orInvalidDate {A} (o : option A) : result A :=
  match o with
  | Some a => Ok a
  | None => Throw "Invalid Date"
  end.

Abbreviation row := (list string).
Abbreviation table := (list (list string)).

(** What [getValues] returns for one cell of a sheet. *)
Inductive cell : Type :=
| CDate (day : Z)
| CNum (x : JsNum.num)
| CStr (s : string)
| CBool (b : bool).

(** [v instanceof Date] and the formatted day. *)
Definition cellDate (v : cell) : option Z :=
  match v with CDate day => Some day | _ => None end.

(** [parseFloat(v)] of a cell: the argument is first converted to a string;
    a number reads back as itself (the negative zero as zero), a date or a
    boolean as NaN. *)
Definition parseFloatCell (v : cell) : JsNum.num :=
  match v with
  | CNum (S754_zero _) => JsNum.zero
  | CNum x => x
  | CStr s => JsNum.parseFloat s
  | CDate _ | CBool _ => JsNum.NaN
  end.

(** The services of the host that the runner calls, for one invocation. *)
Record World : Type := {
  (** [Utilities.parseCsv] *)
  parseCsv : string -> table;
  (** [a.localeCompare(b)] *)
  localeCompare : string -> string -> comparison;
  (** [Date.now()], by the number of earlier calls *)
  now : nat -> Z;
  (** the values of the scratch sheet once it holds
      [GOOGLEFINANCE(ticker, "price", start, end)] *)
  googleFinanceRange : string -> string -> string -> list (list cell);
  (** the value of [IFERROR(GOOGLEFINANCE(ticker), 0)] *)
  googleFinanceLive : string -> cell
}.

(** The merged configuration [getC_()]. *)
Record Config : Type := {
  RUNTIME_BUDGET_MS : Z;
  MIN_BACKFILL_DAYS : Z;
  CHUNK_DAYS : Z;
  BASELINES : list string;
  MIN_CORR_RETURNS : nat;
  CORR_ALERT_THRESHOLD : JsNum.num
}.

(** ** Array helpers *)

(** [r[i]] on a row of strings; a missing cell reads as the empty string
    (the source pads the rows to the width of the header before it reads
    them). *)
Definition cellAt (r : row) (i : nat) : string := nth i r EmptyString.

(** [a[i] = v]: writing past the end extends the array. *)
Definition setAt (i : nat) (v : string) (r : row) : row :=
  if (i <? length r)%nat then <[i := v]> r
  else r ++ replicate (i - length r) EmptyString ++ [v].

(** [normalizeRowWidth_] *)
Definition normalizeRowWidth_ (r : row) (width : nat) : row :=
  take width (r ++ replicate (width - length r) EmptyString).

(** [new Array(width)] filled with empty strings *)
Definition blankRow (width : nat) : row := replicate width EmptyString.

(** [a.indexOf(x)], [a.findIndex(p)] *)
Fixpoint findIndex {A} (p : A -> bool) (l : list A) : option nat :=
  match l with
  | [] => None
  | x :: l' => if p x then Some O else S <$> findIndex p l'
  end.

Definition indexOf (x : string) (l : list string) : option nat :=
  findIndex (String.eqb x) l.

Definition memStr (x : string) (l : list string) : bool :=
  existsb (String.eqb x) l.

(** Adding to a [Set]: insertion order, no repetition. *)
Definition setAdd (x : string) (l : list string) : list string :=
  if memStr x l then l else l ++ [x].

Definition setOfList (l : list string) : list string :=
  fold_left (fun acc x => setAdd x acc) l [].

(** [Array.prototype.sort(cmp)]: a stable sort. *)
Fixpoint insertSorted {A} (cmp : A -> A -> comparison) (x : A) (l : list A)
  : list A :=
  match l with
  | [] => [x]
  | y :: l' =>
      match cmp x y with
      | Gt => y :: insertSorted cmp x l'
      | _ => x :: l
      end
  end.

Definition sortBy {A} (cmp : A -> A -> comparison) (l : list A) : list A :=
  fold_right (insertSorted cmp) [] l.

(** [c1 || c2] on the results of two comparisons. *)
Definition orElse (c1 c2 : comparison) : comparison :=
  match c1 with Eq => c2 | _ => c1 end.

(** The object [map = {}] with string keys: assignment keeps the position
    of a key that is already there and appends a new one. *)
Fixpoint objSet {V} (k : string) (v : V) (o : list (string * V))
  : list (string * V) :=
  match o with
  | [] => [(k, v)]
  | (k', v') :: o' =>
      if String.eqb k k' then (k, v) :: o' else (k', v') :: objSet k v o'
  end.

Fixpoint objGet {V} (k : string) (o : list (string * V)) : option V :=
  match o with
  | [] => None
  | (k', v') :: o' => if String.eqb k k' then Some v' else objGet k o'
  end.

Definition objKeys {V} (o : list (string * V)) : list string := map fst o.
Definition objValues {V} (o : list (string * V)) : list V := map snd o.

(** The byte order mark as read in a byte string. *)
Definition bom : string :=
  String (ascii_of_nat 239) (String (ascii_of_nat 187)
    (String (ascii_of_nat 191) EmptyString)).

(** The leading byte order mark is removed and the text trimmed. *)
Definition stripBomTrim (raw : string) : string :=
  JsString.trim
    (if String.prefix bom raw
     then String.substring 3 (String.length raw - 3) raw
     else raw).

(** ** State and exceptions

    The script properties are written at once and stay written when a later
    statement throws, so a computation returns its state in both cases. *)

Definition Eff (S A : Type) : Type := S -> result A * S.

#[global] Instance eff_ret {S} : MRet (Eff S) := fun _ a s => (Ok a, s).
#[global] Instance eff_bind {S} : MBind (Eff S) := fun _ _ f m s =>
  match m s with
  | (Ok a, s') => f a s'
  | (Throw msg, s') => (Throw msg, s')
  end.

Definition getState {S} : Eff S S := fun s => (Ok s, s).
Definition modifyState {S} (f : S -> S) : Eff S unit := fun s => (Ok tt, f s).
Definition throwEff {S A} (msg : string) : Eff S A := fun s => (Throw msg, s).
Definition liftResult {S A} (r : result A) : Eff S A := fun s => (r, s).

(** ** The historical store: purge, backfill, today's quote *)

Module Hist.

Record ColumnMap : Type := {
  date : nat;
  ticker : nat;
  price : nat;
  width : nat
}.

(** An index as a template literal writes it: -1 when nothing was found. *)
Definition indexText (i : option nat) : string :=
  match i with
  | Some n => JsDate.decimal (Z.of_nat n)
  | None => "-1"
  end.

(** [buildColumnMap_]; the caller fills [width] in. *)
Definition buildColumnMap_ (header : row) : result ColumnMap :=
  let h := map (fun v => JsString.toLowerCase (JsString.trim v)) header in
  let dateIdx := indexOf "date" h in
  let tickerIdx := indexOf "ticker" h in
  let priceIdx :=
    match indexOf "adjclose" h with
    | Some i => Some i
    | None =>
        match indexOf "close" h with
        | Some i => Some i
        | None =>
            findIndex (fun x => JsString.includes x "adjclose"
                                || JsString.includes x "close"
                                || JsString.includes x "price") h
        end
    end in
  match dateIdx, tickerIdx, priceIdx with
  | Some d, Some t, Some p =>
      Ok {| date := d; ticker := t; price := p; width := 0 |}
  | _, _, _ =>
      Throw ("HIST header missing required columns. date="
             +:+ indexText dateIdx +:+ ", ticker=" +:+ indexText tickerIdx
             +:+ ", price=" +:+ indexText priceIdx)
  end.

Definition withWidth (col : ColumnMap) (w : nat) : ColumnMap :=
  {| date := date col; ticker := ticker col; price := price col;
     width := w |}.

(** [String(x).trim().toUpperCase()] *)
Definition normTicker (s : string) : string :=
  JsString.toUpperCase (JsString.trim s).

Definition cursorKey (t : string) : string := "CURSOR_" +:+ t.
Definition mapKey (d t : string) : string := d +:+ "|" +:+ t.

(** The row written for a fetched or live price. *)
Definition priceRow (col : ColumnMap) (d t : string) (px : JsNum.num) : row :=
  setAt (price col) (JsNum.toFixed px 2)
    (setAt (ticker col) t
      (setAt (date col) d (blankRow (width col)))).

(** The dedupe map of the loaded rows. *)
Definition loadMap (col : ColumnMap) (rows : table) : list (string * row) :=
  fold_left
    (fun m r =>
       let d := JsString.trim (cellAt r (date col)) in
       let t := normTicker (cellAt r (ticker col)) in
       if negb (JsString.truthy d) || negb (JsString.truthy t) then m
       else objSet (mapKey d t) r m)
    rows [].

Record Bounds : Type := { bmin : option string; bmax : option string }.

Definition widen (d : string) (b : Bounds) : Bounds :=
  {| bmin := match bmin b with
             | Some m =>
                 if negb (JsString.truthy m) || JsString.lt d m
                 then Some d else Some m
             | None => Some d
             end;
     bmax := match bmax b with
             | Some m =>
                 if negb (JsString.truthy m) || JsString.gt d m
                 then Some d else Some m
             | None => Some d
             end |}.

(** The bounds per required ticker, from the keys of the map. *)
Definition computeBounds (requiredTickers : list string)
  (keys : list string) : gmap string Bounds :=
  fold_left
    (fun (bounds : gmap string Bounds) k =>
       match JsString.splitOn "|" k with
       | d :: t :: _ =>
           match bounds !! t with
           | Some b => <[t := widen d b]> bounds
           | None => bounds
           end
       | _ => bounds
       end)
    keys
    (fold_left
       (fun (bounds : gmap string Bounds) t =>
          <[t := {| bmin := None; bmax := None |}]> bounds)
       requiredTickers ∅).

(** [ingestBackfillChunk_]: the rows of the sheet after its header, merged
    into the map; the number of rows merged. *)
Definition ingestRow (col : ColumnMap) (t requiredStart today : string)
  (acc : list (string * row) * nat) (v : list cell)
  : list (string * row) * nat :=
  match cellDate (nth 0 v (CStr EmptyString)) with
  | None => acc
  | Some day =>
      let dStr := JsDate.formatYMD day in
      if JsString.lt dStr requiredStart || JsString.ge dStr today then acc
      else
        let px := parseFloatCell (nth 1 v (CStr EmptyString)) in
        if negb (JsNum.isFinite px) then acc
        else (objSet (mapKey dStr t) (priceRow col dStr t px) (fst acc),
              S (snd acc))
  end.

Definition ingestBackfillChunk_ (W : World) (t chunkStart chunkEnd
  requiredStart today : string) (m : list (string * row)) (col : ColumnMap)
  : list (string * row) * nat :=
  let values := googleFinanceRange W t chunkStart chunkEnd in
  if (length values <? 2)%nat then (m, O)
  else fold_left (ingestRow col t requiredStart today) (tl values) (m, O).

(** The state of the backfill loop: the script properties, the map, the
    set of unfinished tickers, and the ranges requested so far. *)
Record Loop : Type := {
  props : gmap string string;
  store : list (string * row);
  unfinished : list string;
  requests : list (string * string * string)
}.

Definition setProps (f : gmap string string -> gmap string string)
  (st : Loop) : Loop :=
  {| props := f (props st); store := store st;
     unfinished := unfinished st; requests := requests st |}.

(** [minHave] and [needsYear] *)
Definition minHaveOf (bounds : gmap string Bounds) (t : string)
  : option string :=
  bounds !! t ≫= bmin.

Definition needsYearOf (minHave : option string) (requiredStart : string)
  : bool :=
  match minHave with
  | Some m => negb (JsString.truthy m) || JsString.gt m requiredStart
  | None => true
  end.

(** The end of the chunk: the cursor, else the day before the coverage,
    else yesterday. *)
Definition chunkEndOf (cursor minHave : option string) (today : string)
  : option string :=
  match cursor with
  | Some c =>
      if JsString.truthy c && JsDate.isYMD c then Some c
      else
        match minHave with
        | Some m =>
            if JsString.truthy m && JsDate.isYMD m
            then JsDate.addDaysYMD_ m (-1)
            else JsDate.addDaysYMD_ today (-1)
        | None => JsDate.addDaysYMD_ today (-1)
        end
  | None =>
      match minHave with
      | Some m =>
          if JsString.truthy m && JsDate.isYMD m
          then JsDate.addDaysYMD_ m (-1)
          else JsDate.addDaysYMD_ today (-1)
      | None => JsDate.addDaysYMD_ today (-1)
      end
  end.

(** One iteration of [for (const t of requiredTickers)], the [i]-th. *)
Definition backfillStep (C : Config) (W : World) (today requiredStart : string)
  (startTime : Z) (col : ColumnMap) (bounds : gmap string Bounds)
  (i : nat) (t : string) : Eff Loop unit :=
  if now W i - startTime >? RUNTIME_BUDGET_MS C then
    modifyState (fun st =>
      {| props := props st; store := store st;
         unfinished := setAdd t (unfinished st);
         requests := requests st |})
  else
    let minHave := minHaveOf bounds t in
    if negb (needsYearOf minHave requiredStart) then mret tt
    else
      st ← getState;
      chunkEnd ← liftResult (orInvalidDate
        (chunkEndOf (props st !! cursorKey t) minHave today));
      if JsString.lt chunkEnd requiredStart then
        modifyState (setProps (delete (cursorKey t)))
      else
        tentativeStart ← liftResult (orInvalidDate
          (JsDate.addDaysYMD_ chunkEnd (- (CHUNK_DAYS C - 1))));
        let chunkStart :=
          if JsString.lt tentativeStart requiredStart
          then requiredStart else tentativeStart in
        let '(m', _) :=
          ingestBackfillChunk_ W t chunkStart chunkEnd requiredStart today
            (store st) col in
        modifyState (fun st =>
          {| props := props st; store := m';
             unfinished := unfinished st;
             requests := requests st ++ [(t, chunkStart, chunkEnd)] |});;
        nextEnd ← liftResult (orInvalidDate
          (JsDate.addDaysYMD_ chunkStart (-1)));
        if JsString.ge nextEnd requiredStart
        then modifyState (setProps <[cursorKey t := nextEnd]>)
        else modifyState (setProps (delete (cursorKey t))).

Fixpoint backfillLoop (step : nat -> string -> Eff Loop unit)
  (i : nat) (ts : list string) : Eff Loop unit :=
  match ts with
  | [] => mret tt
  | t :: ts' => step i t;; backfillLoop step (S i) ts'
  end.

(** The persistent state the runner works on. *)
Record Store : Type := {
  scriptProps : gmap string string;
  histCsv : string;
  perfLogCsv : string
}.

Definition withProps (p : gmap string string) (s : Store) : Store :=
  {| scriptProps := p; histCsv := histCsv s; perfLogCsv := perfLogCsv s |}.

Definition withHist (text : string) (s : Store) : Store :=
  {| scriptProps := scriptProps s; histCsv := text;
     perfLogCsv := perfLogCsv s |}.

(** The loop runs on the script properties of the store. *)
Definition runLoop (m : Eff Loop unit) (map0 : list (string * row))
  : Eff Store Loop :=
  fun s =>
    match m {| props := scriptProps s; store := map0;
               unfinished := []; requests := [] |} with
    | (Ok _, st) => (Ok st, withProps (props st) s)
    | (Throw msg, st) => (Throw msg, withProps (props st) s)
    end.

(** [getBatchPricesScratch_]: one line per ticker, the ticker read back
    from column A as it was written and the quote from column B.  A range
    of no rows is refused by the sheet. *)
Definition getBatchPricesScratch_ (W : World) (tickers : list string)
  : result (list (string * JsNum.num)) :=
  match tickers with
  | [] => Throw "The number of rows in the range must be at least 1."
  | _ =>
      Ok (fold_left
            (fun out t =>
               let k := normTicker t in
               let v := parseFloatCell (googleFinanceLive W t) in
               if JsString.truthy k
               then objSet k (if JsNum.isFinite v then v else JsNum.zero) out
               else out)
            tickers [])
  end.

(** The live quote of each required ticker, merged under today's date. *)
Definition mergeLive (col : ColumnMap) (today : string)
  (livePrices : list (string * JsNum.num)) (requiredTickers : list string)
  (m : list (string * row)) : list (string * row) :=
  fold_left
    (fun m t =>
       let p := match objGet t livePrices with
                | Some v => if JsNum.truthy v then v else JsNum.zero
                | None => JsNum.zero
                end in
       if JsNum.gtb p JsNum.zero
       then objSet (mapKey today t) (priceRow col today t p) m
       else m)
    requiredTickers m.

(** The comparison of the final sort: date, then ticker in upper case. *)
Definition compareRows (W : World) (col : ColumnMap) (a b : row)
  : comparison :=
  orElse (localeCompare W (cellAt a (date col)) (cellAt b (date col)))
         (localeCompare W (JsString.toUpperCase (cellAt a (ticker col)))
                          (JsString.toUpperCase (cellAt b (ticker col)))).

Definition newline : string := String (ascii_of_nat 10) EmptyString.

(** The text given to [setContent] for a table. *)
Definition csvText (w : nat) (t : table) : string :=
  JsString.join newline
    (map (fun r => JsString.join "," (normalizeRowWidth_ r w)) t).

(** What [updateHistDatabase_] returns; [emitted] are the price rows that
    follow the header in the text it wrote and [fetched] the ranges it
    asked the price feed for, in order. *)
Record Sync : Type := {
  purgedTickers : list string;
  unfinishedTickers : list string;
  emitted : table;
  fetched : list (string * string * string)
}.

Definition purgedOf (requiredTickers : list string) (col : ColumnMap)
  (rows : table) : list string :=
  List.filter (fun t => negb (memStr t requiredTickers))
    (setOfList
       (List.filter JsString.truthy
          (map (fun r => normTicker (cellAt r (ticker col))) rows))).

Definition deleteCursors (purged : list string) (p : gmap string string)
  : gmap string string :=
  fold_left (fun p t => delete (cursorKey t) p) purged p.

(** The table as loaded: its header and columns, the tickers to purge and
    the rows that are kept, padded to the width of the header. *)
Record Loaded : Type := {
  header : row;
  columns : ColumnMap;
  purged : list string;
  kept : table
}.

Definition loadHist (W : World) (requiredTickers : list string)
  (text : string) : result Loaded :=
  match parseCsv W (stripBomTrim text) with
  | header :: ((_ :: _) as body) =>
      col0 ← buildColumnMap_ header;
      let col := withWidth col0 (length header) in
      let rows := map (fun r => normalizeRowWidth_ r (width col)) body in
      let purged := purgedOf requiredTickers col rows in
      Ok {| header := header; columns := col; purged := purged;
            kept :=
              match purged with
              | [] => rows
              | _ => List.filter
                       (fun r => memStr (normTicker (cellAt r (ticker col)))
                                   requiredTickers) rows
              end |}
  | _ => Throw "HIST CSV empty or malformed."
  end.

(** The rows written back: the values of the map, sorted. *)
Definition finalRowsOf (W : World) (col : ColumnMap)
  (m : list (string * row)) : table :=
  sortBy (compareRows W col) (objValues m).

(** [updateHistDatabase_] *)
Definition updateHistDatabase_ (C : Config) (W : World) (today : string)
  (requiredTickers policyRequiredSet : list string) (startTime : Z)
  : Eff Store Sync :=
  s0 ← getState;
  L ← liftResult (loadHist W requiredTickers (histCsv s0));
  let col := columns L in
  modifyState (fun s => withProps (deleteCursors (purged L) (scriptProps s)) s);;
  let map0 := loadMap col (kept L) in
  let bounds := computeBounds requiredTickers (objKeys map0) in
  requiredStart ← liftResult (orInvalidDate
    (JsDate.addDaysYMD_ today (- MIN_BACKFILL_DAYS C)));
  st ← runLoop
    (backfillLoop
       (backfillStep C W today requiredStart startTime col bounds)
       0 requiredTickers) map0;
  livePrices ← liftResult (getBatchPricesScratch_ W requiredTickers);
  let finalRows :=
    finalRowsOf W col
      (mergeLive col today livePrices requiredTickers (store st)) in
  modifyState (withHist (csvText (width col) (header L :: finalRows)));;
  mret {| purgedTickers := purged L;
          unfinishedTickers := unfinished st;
          emitted := finalRows;
          fetched := requests st |}.

End Hist.

(** ** Alpha and correlation of an activated ticker against a baseline *)

Module Analytics.

(** [String(r[i])] on a row that was not padded: a missing cell reads as
    the text of [undefined]. *)
Definition cellText (r : row) (i : nat) : string := nth i r "undefined".

(** The two [Map]s from date to price, for the ticker and the baseline. *)
Definition buildSeries (col : Hist.ColumnMap) (T B startStr : string)
  (rows : table)
  : list (string * JsNum.num) * list (string * JsNum.num) :=
  fold_left
    (fun '(tMap, bMap) r =>
       let d := cellText r (Hist.date col) in
       if JsString.lt d startStr then (tMap, bMap)
       else
         let sym := Hist.normTicker (cellText r (Hist.ticker col)) in
         let px := JsNum.parseFloat (cellText r (Hist.price col)) in
         if negb (JsNum.isFinite px) then (tMap, bMap)
         else
           (if String.eqb sym T then objSet d px tMap else tMap,
            if String.eqb sym B then objSet d px bMap else bMap))
    rows ([], []).

(** [intersectSortedKeys_]; the default sort orders strings by code
    units. *)
Definition intersectSortedKeys_ {V} (m1 m2 : list (string * V))
  : list string :=
  sortBy String.compare
    (List.filter (fun k => bool_decide (is_Some (objGet k m2))) (objKeys m1)).

(** [m.get(k)]; a missing key reads as NaN in arithmetic. *)
Definition mapGet (m : list (string * JsNum.num)) (k : string) : JsNum.num :=
  match objGet k m with Some v => v | None => JsNum.NaN end.

(** Total return of a series between two dates: [last / first - 1]. *)
Definition totalReturn (m : list (string * JsNum.num)) (d0 dN : string)
  : JsNum.num :=
  JsNum.sub (JsNum.div (mapGet m dN) (mapGet m d0)) JsNum.one.

(** [alpha = trT - trB] *)
Definition alphaOf (tMap bMap : list (string * JsNum.num)) (d0 dN : string)
  : JsNum.num :=
  JsNum.sub (totalReturn tMap d0 dN) (totalReturn bMap d0 dN).

(** The day-over-day returns over consecutive aligned dates. *)
Fixpoint pairedReturns (tMap bMap : list (string * JsNum.num))
  (prev : string) (rest : list string)
  : list JsNum.num * list JsNum.num :=
  match rest with
  | [] => ([], [])
  | cur :: rest' =>
      let '(x, y) := pairedReturns tMap bMap cur rest' in
      let tp := mapGet tMap prev in
      let tc := mapGet tMap cur in
      let bp := mapGet bMap prev in
      let bc := mapGet bMap cur in
      if JsNum.isFinite tp && JsNum.isFinite tc
         && JsNum.isFinite bp && JsNum.isFinite bc
      then (JsNum.sub (JsNum.div tc tp) JsNum.one :: x,
            JsNum.sub (JsNum.div bc bp) JsNum.one :: y)
      else (x, y)
  end.

(** The five running sums of [pearson_] over the first [n] pairs. *)
Record Sums : Type := {
  sumX : JsNum.num; sumY : JsNum.num; sumXY : JsNum.num;
  sumX2 : JsNum.num; sumY2 : JsNum.num
}.

Definition sumsOf (xy : list (JsNum.num * JsNum.num)) : Sums :=
  fold_left
    (fun s '(a, b) =>
       {| sumX := JsNum.add (sumX s) a;
          sumY := JsNum.add (sumY s) b;
          sumXY := JsNum.add (sumXY s) (JsNum.mul a b);
          sumX2 := JsNum.add (sumX2 s) (JsNum.mul a a);
          sumY2 := JsNum.add (sumY2 s) (JsNum.mul b b) |})
    xy
    {| sumX := JsNum.zero; sumY := JsNum.zero; sumXY := JsNum.zero;
       sumX2 := JsNum.zero; sumY2 := JsNum.zero |}.

(** [(n * sumX2) - (sumX * sumX)] and the same for [y]. *)
Definition varTermX (n : JsNum.num) (s : Sums) : JsNum.num :=
  JsNum.sub (JsNum.mul n (sumX2 s)) (JsNum.mul (sumX s) (sumX s)).
Definition varTermY (n : JsNum.num) (s : Sums) : JsNum.num :=
  JsNum.sub (JsNum.mul n (sumY2 s)) (JsNum.mul (sumY s) (sumY s)).

Definition pearsonNum (n : JsNum.num) (s : Sums) : JsNum.num :=
  JsNum.sub (JsNum.mul n (sumXY s)) (JsNum.mul (sumX s) (sumY s)).
Definition pearsonDen (n : JsNum.num) (s : Sums) : JsNum.num :=
  JsNum.sqrt (JsNum.mul (varTermX n s) (varTermY n s)).

(** [pearson_] *)
Definition pearson_ (x y : list JsNum.num) : JsNum.num :=
  let n := Nat.min (length x) (length y) in
  if (n <? 2)%nat then JsNum.NaN
  else
    let s := sumsOf (combine x y) in
    let num := pearsonNum (JsNum.ofNat n) s in
    let den := pearsonDen (JsNum.ofNat n) s in
    if JsNum.eqb den JsNum.zero then JsNum.NaN else JsNum.div num den.

(** The green and the red disc, as their UTF-8 bytes. *)
Definition green : string :=
  String (ascii_of_nat 240) (String (ascii_of_nat 159)
    (String (ascii_of_nat 159) (String (ascii_of_nat 162) EmptyString))).
Definition red : string :=
  String (ascii_of_nat 240) (String (ascii_of_nat 159)
    (String (ascii_of_nat 148) (String (ascii_of_nat 180) EmptyString))).

Definition alphaText (alpha : JsNum.num) : string :=
  (if JsNum.geb alpha JsNum.zero then green else red) +:+ " " +:+
  JsNum.toFixed (JsNum.mul alpha (JsNum.ofZ 100)) 1 +:+ "%".

Definition corrText (C : Config) (corrNum : JsNum.num) : string :=
  if JsNum.isFinite corrNum
  then (if JsNum.leb corrNum (CORR_ALERT_THRESHOLD C) then green else red)
       +:+ " " +:+ JsNum.toFixed corrNum 2
  else "N/A".

(** [corrNum]: computed only with enough return pairs. *)
Definition corrOf (C : Config) (x y : list JsNum.num) : JsNum.num :=
  let minReturns :=
    match MIN_CORR_RETURNS C with O => 6%nat | n => n end in
  if (minReturns <=? length x)%nat then pearson_ x y else JsNum.NaN.

Inductive AlphaCorr : Type :=
| Failed (err bench policyStart : string)
| Computed (bench policyStart windowStart windowEnd alpha corr : string).

(** [calculateAlphaAndCorrVsBenchmark_] *)
Definition calculateAlphaAndCorrVsBenchmark_ (C : Config) (rows : table)
  (col : Hist.ColumnMap) (ticker bench startStr : string) : AlphaCorr :=
  let T := Hist.normTicker ticker in
  let B := Hist.normTicker bench in
  if negb (JsString.truthy startStr) || negb (JsDate.isYMD startStr)
  then Failed "BAD_DATE" B
         (if JsString.truthy startStr then startStr else "N/A")
  else
    let '(tMap, bMap) := buildSeries col T B startStr rows in
    if (length tMap <? 2)%nat || (length bMap <? 2)%nat
    then Failed "NO_DATA" B startStr
    else
      match intersectSortedKeys_ tMap bMap with
      | d0 :: ((_ :: _) as rest) =>
          let dN := List.last rest d0 in
          let alpha := alphaOf tMap bMap d0 dN in
          let '(x, y) := pairedReturns tMap bMap d0 rest in
          Computed B startStr d0 dN (alphaText alpha)
                   (corrText C (corrOf C x y))
      | _ => Failed "GAP" B startStr
      end.

End Analytics.

(** ** The performance ledger *)

Module Ledger.

(** [buildPerfLogHeader_] *)
Definition buildPerfLogHeader_ (benches : list string) : row :=
  ["Date"; "PortfolioValue"]
    ++ map (fun b => "Price_" +:+ b) benches
    ++ ["PortfolioPct"]
    ++ map (fun b => "Pct_" +:+ b) benches
    ++ map (fun b => "Diff_" +:+ b) benches.

Definition portPctCol (n : nat) : nat := (2 + n)%nat.
Definition pctStartCol (n : nat) : nat := (portPctCol n + 1)%nat.
Definition diffStartCol (n : nat) : nat := (pctStartCol n + n)%nat.

(** The row of today: date, portfolio value, the price of each baseline. *)
Definition newRowOf (w : nat) (dateStr : string) (portfolioVal : JsNum.num)
  (benches : list string) (benchPrices : list JsNum.num) : row :=
  fold_left
    (fun r i =>
       setAt (2 + i) (JsNum.toFixed (nth i benchPrices JsNum.NaN) 2) r)
    (seq 0 (length benches))
    (setAt 1 (JsNum.toFixed portfolioVal 2)
       (setAt 0 dateStr (blankRow w))).

(** The rows of the ledger after the upsert of today's row, sorted. *)
Definition upsertRows (W : World) (rows : table) (dateStr : string)
  (portfolioVal : JsNum.num) (benches : list string)
  (benchPrices : list JsNum.num) : table :=
  let w := length (buildPerfLogHeader_ benches) in
  let data :=
    if (2 <=? length rows)%nat
    then List.filter (fun r => JsDate.isYMD (cellAt r 0))
           (map (fun r => normalizeRowWidth_ r w) (tl rows))
    else [] in
  let data := List.filter (fun r => negb (String.eqb (cellAt r 0) dateStr)) data in
  sortBy (fun a b => localeCompare W (cellAt a 0) (cellAt b 0))
    (data ++ [newRowOf w dateStr portfolioVal benches benchPrices]).

(** [baseIndex]: the first row of the chart start date, else row 0. *)
Definition baseIndexOf (chartStart : string) (data : table) : nat :=
  if JsDate.isYMD chartStart
  then match findIndex (fun r => String.eqb (cellAt r 0) chartStart) data with
       | Some i => i
       | None => O
       end
  else O.

(** [data[baseIndex]] *)
Definition baseRowOf (chartStart : string) (data : table) : row :=
  nth (baseIndexOf chartStart data) data [].

(** Valid as a denominator: finite and positive. *)
Definition validBase (x : JsNum.num) : bool :=
  JsNum.isFinite x && negb (JsNum.leb x JsNum.zero).

(** Not numeric, or not positive: [!isFinite(x) || x <= 0]. *)
Definition invalidDenominator (x : JsNum.num) : Prop :=
  JsNum.isFinite x = false \/ JsNum.leb x JsNum.zero = true.

(** [(isFinite(v) && v > 0) ? ((v / base) - 1) : NaN] *)
Definition pctOf (v base : JsNum.num) : JsNum.num :=
  if JsNum.isFinite v && JsNum.gtb v JsNum.zero
  then JsNum.sub (JsNum.div v base) JsNum.one
  else JsNum.NaN.

(** The text of a percentage cell at or after the base row. *)
Definition pctCell (p : JsNum.num) : string :=
  if JsNum.isFinite p then JsNum.toFixed p 4 else "N/A".

(** The cell [Pct_<baseline i>] of a row. *)
Definition pctText (ri baseIndex : nat) (baseB : list JsNum.num)
  (row : row) (i : nat) : string :=
  let pB := pctOf (JsNum.parseFloat (cellAt row (2 + i)))
                  (nth i baseB JsNum.NaN) in
  if (ri <? baseIndex)%nat then "N/A" else pctCell pB.

(** The cell [Diff_<baseline i>] of a row, from the portfolio percentage
    and the text already written in [Pct_<baseline i>]. *)
Definition diffText (n ri baseIndex : nat) (pPort : JsNum.num)
  (row : row) (i : nat) : string :=
  if (ri <? baseIndex)%nat then "N/A"
  else
    let pB := JsNum.parseFloat (cellAt row (pctStartCol n + i)) in
    if negb (JsNum.isFinite pPort) || negb (JsNum.isFinite pB)
    then "N/A"
    else JsNum.toFixed (JsNum.sub pPort pB) 4.

(** The body of [data.map((r, ri) => ...)]. *)
Definition recomputeRow (w n : nat) (baseIndex : nat) (basePV : JsNum.num)
  (baseB : list JsNum.num) (ri : nat) (r : row) : row :=
  let row0 := normalizeRowWidth_ r w in
  let pPort := pctOf (JsNum.parseFloat (cellAt row0 1)) basePV in
  let row1 :=
    setAt (portPctCol n)
      (if (ri <? baseIndex)%nat then "N/A" else pctCell pPort) row0 in
  let row2 :=
    fold_left
      (fun row i =>
         setAt (pctStartCol n + i) (pctText ri baseIndex baseB row i) row)
      (seq 0 n) row1 in
  let row3 :=
    fold_left
      (fun row i =>
         setAt (diffStartCol n + i) (diffText n ri baseIndex pPort row i) row)
      (seq 0 n) row2 in
  normalizeRowWidth_ row3 w.

Fixpoint mapi {A B} (f : nat -> A -> B) (i : nat) (l : list A) : list B :=
  match l with
  | [] => []
  | a :: l' => f i a :: mapi f (S i) l'
  end.

(** The recomputed ledger: its header, its rows and the index of the base
    row; or the error that aborts the update. *)
Record Recomputed : Type := {
  header : row;
  baseIndex : nat;
  out : table
}.

Definition recompute (W : World) (rows : table) (dateStr : string)
  (portfolioVal : JsNum.num) (benches : list string)
  (benchPrices : list JsNum.num) (chartStart : string)
  : result Recomputed :=
  let hd := buildPerfLogHeader_ benches in
  let data := upsertRows W rows dateStr portfolioVal benches benchPrices in
  let bi := baseIndexOf chartStart data in
  match data with
  | [] => Throw "Perf log has no rows after upsert."
  | _ =>
      let base := baseRowOf chartStart data in
      let basePV := JsNum.parseFloat (cellAt base 1) in
      if negb (validBase basePV)
      then Throw "Perf log base portfolio value invalid."
      else
        let baseB :=
          map (fun i => JsNum.parseFloat (cellAt base (2 + i)))
              (seq 0 (length benches)) in
        if existsb (fun x => negb (validBase x)) baseB
        then Throw "Perf log base benchmark price invalid."
        else
          Ok {| header := hd; baseIndex := bi;
                out := mapi (recomputeRow (length hd) (length benches)
                               bi basePV baseB) 0 data |}
  end.

(** The parsed ledger file; an empty file has no rows. *)
Definition storedRows (W : World) (s : Hist.Store) : table :=
  let raw := stripBomTrim (Hist.perfLogCsv s) in
  if JsString.truthy raw then parseCsv W raw else [].

(** [upsertAndRecomputePerformanceLog_]; [chartStartDate] is the
    [chart_start_date] of the policy, empty when the policy has none. *)
Definition upsertAndRecomputePerformanceLog_ (W : World) (dateStr : string)
  (portfolioVal : JsNum.num) (benches : list string)
  (benchPrices : list JsNum.num) (chartStartDate : string)
  : Eff Hist.Store Recomputed :=
  s ← getState;
  r ← liftResult (recompute W (storedRows W s) dateStr portfolioVal benches
                    benchPrices (JsString.trim chartStartDate));
  modifyState (fun s =>
    {| Hist.scriptProps := Hist.scriptProps s;
       Hist.histCsv := Hist.histCsv s;
       Hist.perfLogCsv :=
         Hist.csvText (length (header r)) (header r :: out r) |});;
  mret r.

End Ledger.

(** * Definitions used by the statements *)

(** ** Days and date texts *)

(** [P] holds of the [n] integers from [lo] on. *)
Fixpoint allFrom (P : Z -> bool) (lo : Z) (n : nat) : bool :=
  match n with
  | O => true
  | S n' => P lo && allFrom P (lo + 1) n'
  end.

(** The date of a day of the era as one number, the year counted from the
    March that starts the era. *)
Definition key0 (doe : Z) : Z :=
  let '(y0, m, d) := JsDate.civilOfDoe doe in y0 * 10000 + m * 100 + d.

(** The first day of a year of the era. *)
Definition yearStart (yoe : Z) : Z := 365 * yoe + yoe / 4 - yoe / 100.

(** The date of a day of the year as one number, January and February
    counted in the next year. *)
Definition keyOfDoy (doy : Z) : Z :=
  let mp := (5 * doy + 2) / 153 in
  let d := doy - (153 * mp + 2) / 5 + 1 in
  let m := if mp <? 10 then mp + 3 else mp - 9 in
  (if m <=? 2 then 10000 else 0) + m * 100 + d.

(** The date as one number [yyyymmdd]. *)
Definition dateKey (n : Z) : Z :=
  let '(y, m, d) := JsDate.civilFromDays n in y * 10000 + m * 100 + d.

(** Every character of the text satisfies [p]. *)
Fixpoint allChars (p : ascii -> bool) (s : string) : bool :=
  match s with
  | EmptyString => true
  | String c s' => p c && allChars p s'
  end.

(** Classes of characters of a date text. *)
Definition notSpace (c : ascii) : bool := negb (JsString.isSpace c).
Definition notDash (c : ascii) : bool := negb (Ascii.eqb c "-").
Definition dateChar (c : ascii) : bool := JsDate.isDigit c || Ascii.eqb c "-".

(** A date text made of three numerals. *)
Definition dashed (a b c : string) : string :=
  a +:+ "-" +:+ b +:+ "-" +:+ c.

(** A text that [ymdToLocalDate_] reads. *)
Definition parseable (s : string) : Prop :=
  exists n, JsDate.ymdToLocalDate_ s = Some n.

(** The days 0100-01-01 and 9999-12-31. *)
Definition dayLo : Z := Eval vm_compute in JsDate.daysFromCivil 100 1 1.
Definition dayHi : Z := Eval vm_compute in JsDate.daysFromCivil 9999 12 31.

(** The days whose text [addDaysYMD_] writes and [ymdToLocalDate_] reads
    back: the years 100 to 9999. *)
Definition inRange (n : Z) : Prop := dayLo <= n <= dayHi.

(** The four digits of a year. *)
Definition four (y : Z) : string :=
  String (JsDate.digitChar (y / 1000)) (String (JsDate.digitChar (y / 100))
    (String (JsDate.digitChar (y / 10)) (String (JsDate.digitChar y) EmptyString))).

(** Lexicographic composition of comparisons. *)
Definition thenCmp (c1 c2 : comparison) : comparison :=
  match c1 with Eq => c2 | _ => c1 end.

(** The day 0001-01-01. *)
Definition dayMin : Z := Eval vm_compute in JsDate.daysFromCivil 1 1 1.

(** The days of the years 1 to 9999. *)
Definition inEra (n : Z) : Prop := dayMin <= n <= dayHi.

(** ** Rows and windows *)

(** The row after the cells [c .. c + n - 1] were written in turn, the cell
    [c + i] from the row as it is then. *)
Definition writeCells (c : nat) (g : row -> nat -> string) (row0 : row)
    (n : nat) : row :=
  fold_left (fun row i => setAt (c + i) (g row i) row) (seq 0 n) row0.

(** The order of date texts: [a <= b] as strings. *)
Definition dateLe (a b : string) : Prop := String.compare a b <> Gt.

(** The scenario of alpha: three days of prices of a ticker and of its
    baseline. *)
Definition scCol : Hist.ColumnMap :=
  {| Hist.date := 0; Hist.ticker := 1; Hist.price := 2; Hist.width := 3 |}.
Definition scRows : table :=
  [ ["2025-01-01"; "NEWT"; "100"]; ["2025-01-01"; "VTI"; "50"];
    ["2025-01-02"; "NEWT"; "110"]; ["2025-01-02"; "VTI"; "55"];
    ["2025-01-03"; "NEWT"; "121"]; ["2025-01-03"; "VTI"; "55"] ].
Definition scCfg : Config :=
  {| RUNTIME_BUDGET_MS := 300000; MIN_BACKFILL_DAYS := 366; CHUNK_DAYS := 180;
     BASELINES := ["VTI"; "QQQ"]; MIN_CORR_RETURNS := 6;
     CORR_ALERT_THRESHOLD := JsNum.parseFloat "0.85" |}.

(** ** The historical store *)

(** A header that names a price column. *)
Definition priceLike (x : string) : bool :=
  JsString.includes x "adjclose" || JsString.includes x "close"
  || JsString.includes x "price".

Section StepModel.
Variables (C : Config) (W : World) (today requiredStart : string)
  (startTime : Z) (col : Hist.ColumnMap) (bounds : gmap string Hist.Bounds).

(** The start of the chunk that ends at [chunkEnd]. *)
Definition chunkStartOf (tentativeStart : string) : string :=
  if JsString.lt tentativeStart requiredStart
  then requiredStart else tentativeStart.

(** The state after the chunk [chunkStart .. chunkEnd] of [t] was fetched
    and the cursor set from [nextEnd]. *)
Definition afterFetch (st : Hist.Loop) (t chunkStart chunkEnd : string)
  (cursor : gmap string string -> gmap string string) : Hist.Loop :=
  {| Hist.props := cursor (Hist.props st);
     Hist.store := fst (Hist.ingestBackfillChunk_ W t chunkStart chunkEnd
                          requiredStart today (Hist.store st) col);
     Hist.unfinished := Hist.unfinished st;
     Hist.requests := Hist.requests st ++ [(t, chunkStart, chunkEnd)] |}.

Definition nextCursor (t nextEnd : string)
  : gmap string string -> gmap string string :=
  if JsString.ge nextEnd requiredStart
  then <[Hist.cursorKey t := nextEnd]>
  else delete (Hist.cursorKey t).

Inductive StepResult (i : nat) (t : string) (st : Hist.Loop)
  : result unit -> Hist.Loop -> Prop :=
| step_unfinished :
    RUNTIME_BUDGET_MS C < now W i - startTime ->
    StepResult i t st (Ok tt)
      {| Hist.props := Hist.props st; Hist.store := Hist.store st;
         Hist.unfinished := setAdd t (Hist.unfinished st);
         Hist.requests := Hist.requests st |}
| step_covered :
    now W i - startTime <= RUNTIME_BUDGET_MS C ->
    Hist.needsYearOf (Hist.minHaveOf bounds t) requiredStart = false ->
    StepResult i t st (Ok tt) st
| step_no_end :
    now W i - startTime <= RUNTIME_BUDGET_MS C ->
    Hist.needsYearOf (Hist.minHaveOf bounds t) requiredStart = true ->
    Hist.chunkEndOf (Hist.props st !! Hist.cursorKey t)
      (Hist.minHaveOf bounds t) today = None ->
    StepResult i t st (Throw "Invalid Date") st
| step_complete chunkEnd :
    now W i - startTime <= RUNTIME_BUDGET_MS C ->
    Hist.needsYearOf (Hist.minHaveOf bounds t) requiredStart = true ->
    Hist.chunkEndOf (Hist.props st !! Hist.cursorKey t)
      (Hist.minHaveOf bounds t) today = Some chunkEnd ->
    JsString.lt chunkEnd requiredStart = true ->
    StepResult i t st (Ok tt)
      (Hist.setProps (delete (Hist.cursorKey t)) st)
| step_no_start chunkEnd :
    now W i - startTime <= RUNTIME_BUDGET_MS C ->
    Hist.needsYearOf (Hist.minHaveOf bounds t) requiredStart = true ->
    Hist.chunkEndOf (Hist.props st !! Hist.cursorKey t)
      (Hist.minHaveOf bounds t) today = Some chunkEnd ->
    JsString.lt chunkEnd requiredStart = false ->
    JsDate.addDaysYMD_ chunkEnd (- (CHUNK_DAYS C - 1)) = None ->
    StepResult i t st (Throw "Invalid Date") st
| step_fetch chunkEnd tentativeStart nextEnd :
    now W i - startTime <= RUNTIME_BUDGET_MS C ->
    Hist.needsYearOf (Hist.minHaveOf bounds t) requiredStart = true ->
    Hist.chunkEndOf (Hist.props st !! Hist.cursorKey t)
      (Hist.minHaveOf bounds t) today = Some chunkEnd ->
    JsString.lt chunkEnd requiredStart = false ->
    JsDate.addDaysYMD_ chunkEnd (- (CHUNK_DAYS C - 1)) = Some tentativeStart ->
    JsDate.addDaysYMD_ (chunkStartOf tentativeStart) (-1) = Some nextEnd ->
    StepResult i t st (Ok tt)
      (afterFetch st t (chunkStartOf tentativeStart) chunkEnd
         (nextCursor t nextEnd))
| step_no_next chunkEnd tentativeStart :
    now W i - startTime <= RUNTIME_BUDGET_MS C ->
    Hist.needsYearOf (Hist.minHaveOf bounds t) requiredStart = true ->
    Hist.chunkEndOf (Hist.props st !! Hist.cursorKey t)
      (Hist.minHaveOf bounds t) today = Some chunkEnd ->
    JsString.lt chunkEnd requiredStart = false ->
    JsDate.addDaysYMD_ chunkEnd (- (CHUNK_DAYS C - 1)) = Some tentativeStart ->
    JsDate.addDaysYMD_ (chunkStartOf tentativeStart) (-1) = None ->
    StepResult i t st (Throw "Invalid Date")
      (afterFetch st t (chunkStartOf tentativeStart) chunkEnd id).
End StepModel.

(** The loop of an invocation, from what was loaded. *)
Definition loopOf (C : Config) (W : World) (today requiredStart : string)
    (requiredTickers : list string) (startTime : Z) (L : Hist.Loaded)
    (p : gmap string string) : result unit * Hist.Loop :=
  let map0 := Hist.loadMap (Hist.columns L) (Hist.kept L) in
  Hist.backfillLoop
    (Hist.backfillStep C W today requiredStart startTime (Hist.columns L)
       (Hist.computeBounds requiredTickers (objKeys map0)))
    0 requiredTickers
    {| Hist.props := Hist.deleteCursors (Hist.purged L) p;
       Hist.store := map0; Hist.unfinished := []; Hist.requests := [] |}.

(** The date and the ticker a row stands for, as the source reads them. *)
Definition dateOf (col : Hist.ColumnMap) (r : row) : string :=
  JsString.trim (cellAt r (Hist.date col)).
Definition tickerOf (col : Hist.ColumnMap) (r : row) : string :=
  Hist.normTicker (cellAt r (Hist.ticker col)).

(** The entries written by the runner itself, for a ticker, under a date
    that satisfies [D]. *)
Definition ownEntry (col : Hist.ColumnMap) (D : string -> Prop) (t : string)
    (e : string * row) : Prop :=
  exists d px, D d /\ e = (Hist.mapKey d t, Hist.priceRow col d t px).

(** ** Scenarios *)

(** A CSV reader for texts without quotes. *)
Definition simpleCsv (text : string) : table :=
  map (JsString.splitOn ",") (JsString.splitOn (ascii_of_nat 10) text).

(** The text of a file, from its lines. *)
Definition lines (l : list string) : string := JsString.join Hist.newline l.

(** A host whose range feed answers nothing and whose live quote is 13. *)
Definition quietWorld : World :=
  {| parseCsv := simpleCsv;
     localeCompare := String.compare;
     now := fun _ => 0;
     googleFinanceRange := fun _ _ _ => [];
     googleFinanceLive := fun _ => CNum (JsNum.ofZ 13) |}.

(** A window of nine days, fetched in chunks of five. *)
Definition shortCfg : Config :=
  {| RUNTIME_BUDGET_MS := 300000; MIN_BACKFILL_DAYS := 9; CHUNK_DAYS := 5;
     BASELINES := ["VTI"; "QQQ"]; MIN_CORR_RETURNS := 6;
     CORR_ALERT_THRESHOLD := JsNum.parseFloat "0.85" |}.

(** A store with rows of A, B and C and cursors of B and Q. *)
Definition abcStore : Hist.Store :=
  {| Hist.scriptProps :=
       <["CURSOR_B" := "2024-12-20"]> (<["CURSOR_Q" := "2024-12-25"]> ∅);
     Hist.histCsv :=
       lines ["date,ticker,price"; "2025-01-01,A,10.00"; "2025-01-01,B,20.00";
              "2025-01-01,C,30.00"; "2025-01-02,B,21.00"];
     Hist.perfLogCsv := EmptyString |}.

(** ** Rows by date and ticker *)

(** An entry of the map is filed under the date and ticker of its row. *)
Definition keyed (col : Hist.ColumnMap) (e : string * row) : Prop :=
  e.1 = Hist.mapKey (dateOf col e.2) (tickerOf col e.2).

(** ** The chunk in the words of the specification, and the daily scenario *)


(** The later of two dates. *)
Definition maxDate (a b : string) : string := if JsString.lt b a then a else b.

(** A feed with a closing price for every day of the range asked for. *)
Definition dailyFeed (px : Z) (t chunkStart chunkEnd : string)
  : list (list cell) :=
  [CStr "Date"; CStr "Close"] ::
  match JsDate.ymdToLocalDate_ chunkStart, JsDate.ymdToLocalDate_ chunkEnd with
  | Some a, Some b =>
      map (fun k => [CDate (a + Z.of_nat k); CNum (JsNum.ofZ px)])
          (seq 0 (Z.to_nat (b - a + 1)))
  | _, _ => []
  end.

(** A host whose range feed has the price 12 for every day asked for. *)
Definition dailyWorld : World :=
  {| parseCsv := simpleCsv;
     localeCompare := String.compare;
     now := fun _ => 0;
     googleFinanceRange := dailyFeed 12;
     googleFinanceLive := fun _ => CNum (JsNum.ofZ 13) |}.

(** A store with no row and no cursor for the ticker A. *)
Definition freshStore : Hist.Store :=
  {| Hist.scriptProps := ∅;
     Hist.histCsv := lines ["date,ticker,price"; "2024-12-31,OLD,1.00"];
     Hist.perfLogCsv := EmptyString |}.

(** ** Fetches with nothing to ingest *)

(** A row of the sheet that [ingestBackfillChunk_] takes: a date within
    [requiredStart, today) with a finite price. *)
Definition usableRow (requiredStart today : string) (v : list cell) : bool :=
  match cellDate (nth 0 v (CStr EmptyString)) with
  | None => false
  | Some day =>
      negb (JsString.lt (JsDate.formatYMD day) requiredStart
            || JsString.ge (JsDate.formatYMD day) today)
      && JsNum.isFinite (parseFloatCell (nth 1 v (CStr EmptyString)))
  end.

(** The range fetch gave nothing to ingest: an empty or failed sheet (fewer
    than two lines), or no usable row after the header. *)
Definition noUsableRows (W : World) (t chunkStart chunkEnd requiredStart
    today : string) : Prop :=
  (length (googleFinanceRange W t chunkStart chunkEnd) < 2)%nat \/
  List.Forall (fun v => usableRow requiredStart today v = false)
    (tl (googleFinanceRange W t chunkStart chunkEnd)).

(** ** Invocations of the scenarios *)

(** The value of a computation that did not throw. *)
Definition okOr {A} (d : A) (r : result A) : A :=
  match r with Ok a => a | Throw _ => d end.

(** Defaults for [okOr]. *)
Definition noSync : Hist.Sync :=
  {| Hist.purgedTickers := []; Hist.unfinishedTickers := [];
     Hist.emitted := []; Hist.fetched := [] |}.


(** The first invocation of the daily scenario. *)
Definition firstRun : result Hist.Sync * Hist.Store :=
  Hist.updateHistDatabase_ shortCfg dailyWorld "2025-01-10" ["A"] [] 0
    freshStore.

(** Default for [okOr]. *)
Definition noRecomputed : Ledger.Recomputed :=
  {| Ledger.header := []; Ledger.baseIndex := O; Ledger.out := [] |}.

(** The first invocation against a feed that answers nothing. *)
Definition quietRun : result Hist.Sync * Hist.Store :=
  Hist.updateHistDatabase_ shortCfg quietWorld "2025-01-10" ["A"] [] 0
    freshStore.

(** The second invocation of the daily scenario: the cursor of A is at
    2025-01-04 when it starts. *)
Definition secondRun : result Hist.Sync * Hist.Store :=
  Hist.updateHistDatabase_ shortCfg dailyWorld
    (JsDate.formatYMD 20098) ["A"] [] 0 (snd firstRun).

(** A ledger whose base row has a portfolio value of zero. *)
Definition zeroBaseStore : Hist.Store :=
  {| Hist.scriptProps := ∅;
     Hist.histCsv := EmptyString;
     Hist.perfLogCsv :=
       lines ["Date,PortfolioValue,Price_VTI,PortfolioPct,Pct_VTI,Diff_VTI";
              "2025-01-01,0.00,50.00,,,"] |}.

(** A ledger with a row before the chart start date and one on it. *)
Definition ledgerStore : Hist.Store :=
  {| Hist.scriptProps := ∅;
     Hist.histCsv := EmptyString;
     Hist.perfLogCsv :=
       lines ["Date,PortfolioValue,Price_VTI,PortfolioPct,Pct_VTI,Diff_VTI";
              "2024-12-31,900.00,48.00,,,";
              "2025-01-01,1000.00,50.00,,,"] |}.

(** Today 2025-01-02 is added and the ledger rebased on 2025-01-01. *)
Definition ledgerRun : result Ledger.Recomputed * Hist.Store :=
  Ledger.upsertAndRecomputePerformanceLog_ quietWorld "2025-01-02"
    (JsNum.ofZ 1100) ["VTI"] [JsNum.ofZ 55] "2025-01-01" ledgerStore.

(** A store that holds the row of 2025-01-01 for A twice. *)
Definition twiceStore : Hist.Store :=
  {| Hist.scriptProps := ∅;
     Hist.histCsv :=
       lines ["date,ticker,price"; "2025-01-01,A,10.00"; "2025-01-01,A,11.00";
              "2025-01-02,A,12.00"];
     Hist.perfLogCsv := EmptyString |}.

(** The update of the store that holds a row twice. *)
Definition twiceRun : result Hist.Sync * Hist.Store :=
  Hist.updateHistDatabase_ shortCfg quietWorld "2025-01-10" ["A"] [] 0
    twiceStore.

(** A clock that passes the budget after the first ticker. *)
Definition slowWorld : World :=
  {| parseCsv := simpleCsv;
     localeCompare := String.compare;
     now := fun i => match i with O => 0 | S _ => 400000 end;
     googleFinanceRange := fun _ _ _ => [];
     googleFinanceLive := fun _ => CNum (JsNum.ofZ 13) |}.

(** The update of the store of A, B and C under the slow clock. *)
Definition slowRun : result Hist.Sync * Hist.Store :=
  Hist.updateHistDatabase_ shortCfg slowWorld "2025-01-10" ["A"; "C"] [] 0
    abcStore.

(** The update of the store of A, B and C with A and C required. *)
Definition purgeRun : result Hist.Sync * Hist.Store :=
  Hist.updateHistDatabase_ shortCfg quietWorld "2025-01-10" ["A"; "C"] [] 0
    abcStore.

(** ** A baseline with the same return every day *)

(** Seven days of NEWT, and of a VTI that gains 80% a day. *)
Definition steadyRows : table :=
  [ ["2025-01-01"; "NEWT"; "100"]; ["2025-01-01"; "VTI"; "1000000"];
    ["2025-01-02"; "NEWT"; "101"]; ["2025-01-02"; "VTI"; "1800000"];
    ["2025-01-03"; "NEWT"; "103"]; ["2025-01-03"; "VTI"; "3240000"];
    ["2025-01-04"; "NEWT"; "102"]; ["2025-01-04"; "VTI"; "5832000"];
    ["2025-01-05"; "NEWT"; "105"]; ["2025-01-05"; "VTI"; "10497600"];
    ["2025-01-06"; "NEWT"; "107"]; ["2025-01-06"; "VTI"; "18895680"];
    ["2025-01-07"; "NEWT"; "110"]; ["2025-01-07"; "VTI"; "34012224"] ].

(** The returns of NEWT and of VTI that
    [calculateAlphaAndCorrVsBenchmark_] hands to [pearson_] for these
    rows. *)
Definition steadyReturns : list JsNum.num * list JsNum.num :=
  let '(tMap, bMap) :=
    Analytics.buildSeries scCol "NEWT" "VTI" "2025-01-01" steadyRows in
  match Analytics.intersectSortedKeys_ tMap bMap with
  | d0 :: rest => Analytics.pairedReturns tMap bMap d0 rest
  | [] => ([], [])
  end.

(** ** The text of the e-mail *)

Module Html.

(** [s.replace(/c/g, by)] for a pattern of one character. *)
Fixpoint replaceAll (c : ascii) (by_ : string) (s : string) : string :=
match s with
| EmptyString => EmptyString
| String a s' =>
    if Ascii.eqb a c then by_ +:+ replaceAll c by_ s'
    else String a (replaceAll c by_ s')
end.

(** The double quote. *)
Definition dquote : ascii := "034"%char.

(** [escapeHtml_]: five replacements, the ampersand first. *)
Definition escapeHtml_ (s : string) : string :=
replaceAll "'" "&#039;"
  (replaceAll dquote "&quot;"
    (replaceAll ">" "&gt;"
      (replaceAll "<" "&lt;"
        (replaceAll "&" "&amp;" s)))).

(** [fmtMDY_] of a string: a date is rearranged, any other text is
  returned as it is. *)
Definition fmtMDY_ (ymd : string) : string :=
if JsDate.isYMD ymd
then String.substring 5 2 ymd +:+ "/" +:+ String.substring 8 2 ymd
     +:+ "/" +:+ String.substring 0 4 ymd
else ymd.

(** A row of the table of activated tickers. *)
Record Ghost : Type := {
ticker : string;
policyStart : string;
asOfDate : string;
status : string;
baselines : list (string * Analytics.AlphaCorr)
}.

(** [getMinPolicyStart_]: the earliest policy start that is a date, [null]
  when there is none. *)
Definition getMinPolicyStart_ (ghosts : list Ghost) : option string :=
fold_left
  (fun min g =>
     let s := JsString.trim (policyStart g) in
     if negb (JsDate.isYMD s) then min
     else match min with
          | None => Some s
          | Some m =>
              if negb (JsString.truthy m) || JsString.lt s m
              then Some s else Some m
          end)
  ghosts None.

End Html.

(** The entity written for a character, or the character itself. *)
Definition entityOf (c : ascii) : string :=
  if Ascii.eqb c "&" then "&amp;"
  else if Ascii.eqb c "<" then "&lt;"
  else if Ascii.eqb c ">" then "&gt;"
  else if Ascii.eqb c Html.dquote then "&quot;"
  else if Ascii.eqb c "'" then "&#039;"
  else String c EmptyString.

(** The text escaped in one pass, character by character. *)
Fixpoint escapeChars (s : string) : string :=
  match s with
  | EmptyString => EmptyString
  | String c s' => entityOf c +:+ escapeChars s'
  end.

(** A character that closes or opens markup or an attribute value. *)
Definition markupChar (c : ascii) : bool :=
  Ascii.eqb c "<" || Ascii.eqb c ">" || Ascii.eqb c Html.dquote
  || Ascii.eqb c "'".

(** The ghosts whose trimmed policy start is a date. *)
Definition datedStart (g : Html.Ghost) : bool :=
  JsDate.isYMD (JsString.trim (Html.policyStart g)).

(** ** Columns and series *)

(** The header cells as [buildColumnMap_] compares them. *)
Definition headerNames (header : row) : list string :=
  map (fun v => JsString.toLowerCase (JsString.trim v)) header.

(** A table with an adjusted close after a close. *)
Definition closeHeader : row := ["Date"; " Ticker "; "Close"; "AdjClose"].

(** The sums of [pearson_] with the two series exchanged. *)
Definition swapSums (s : Analytics.Sums) : Analytics.Sums :=
  {| Analytics.sumX := Analytics.sumY s; Analytics.sumY := Analytics.sumX s;
     Analytics.sumXY := Analytics.sumXY s;
     Analytics.sumX2 := Analytics.sumY2 s;
     Analytics.sumY2 := Analytics.sumX2 s |}.

(** Two series that share two of their dates. *)
Definition seriesT : list (string * JsNum.num) :=
  objSet "2025-01-03" (JsNum.ofZ 3)
    (objSet "2025-01-01" (JsNum.ofZ 1) (objSet "2025-01-02" (JsNum.ofZ 2) [])).
Definition seriesB : list (string * JsNum.num) :=
  objSet "2025-01-01" (JsNum.ofZ 5) (objSet "2025-01-03" (JsNum.ofZ 7) []).

(** ** Requests of a run *)

(** The ticker of a request. *)
Definition requestTicker (q : string * string * string) : string := q.1.1.

(** A clock that passes the budget at the second ticker only. *)
Definition hiccupWorld : World :=
  {| parseCsv := simpleCsv;
     localeCompare := String.compare;
     now := fun i => match i with 1%nat => 400000 | _ => 0 end;
     googleFinanceRange := fun _ _ _ => [];
     googleFinanceLive := fun _ => CNum (JsNum.ofZ 13) |}.

Definition hiccupRun : result Hist.Sync * Hist.Store :=
  Hist.updateHistDatabase_ shortCfg hiccupWorld "2025-01-10" ["A"; "C"; "D"]
    [] 0 abcStore.

(** A file with a header and no row, and one whose header has no price. *)
Definition bareStore : Hist.Store :=
  {| Hist.scriptProps := <["CURSOR_B" := "2024-12-20"]> ∅;
     Hist.histCsv := lines ["date,ticker,price"];
     Hist.perfLogCsv := EmptyString |}.

(** ** Origin and order of the rows *)




(** The quote of a ticker as [getBatchPricesScratch_] keeps it. *)
Definition liveQuote (W : World) (t : string) : JsNum.num :=
  let v := parseFloatCell (googleFinanceLive W t) in
  if JsNum.isFinite v then v else JsNum.zero.

(** The host orders strings by a collation key. *)
Definition collatedBy (W : World) (key : string -> string) : Prop :=
  forall a b, localeCompare W a b = String.compare (key a) (key b).

(** The order of the emitted rows under a collation key: by date, then by
    ticker in upper case. *)
Definition rowLe (key : string -> string) (col : Hist.ColumnMap)
    (a b : row) : Prop :=
  dateLe (key (cellAt a (Hist.date col))) (key (cellAt b (Hist.date col))) /\
  (key (cellAt a (Hist.date col)) = key (cellAt b (Hist.date col)) ->
   dateLe (key (JsString.toUpperCase (cellAt a (Hist.ticker col))))
          (key (JsString.toUpperCase (cellAt b (Hist.ticker col))))).

(** The update of the store of A, B and C against the daily feed. *)
Definition abcDailyRun : result Hist.Sync * Hist.Store :=
  Hist.updateHistDatabase_ shortCfg dailyWorld "2025-01-10" ["A"; "C"] [] 0
    abcStore.

(** ** Cells of the ledger *)

(** The cells of a ledger row that are given, not computed: the date, the
    portfolio value and the price of each baseline. *)
Definition inputCells (n : nat) (r : row) : row := take (2 + n) r.

(** The stored rows that an upsert for [dateStr] keeps: those after the
    header whose first cell is a date other than [dateStr], at the width
    of the header. *)
Definition ledgerOthers (W : World) (s : Hist.Store) (dateStr : string)
    (n : nat) : table :=
  let rows := Ledger.storedRows W s in
  if (2 <=? length rows)%nat
  then List.filter
         (fun r => JsDate.isYMD (cellAt r 0)
                   && negb (String.eqb (cellAt r 0) dateStr))
         (map (fun r => normalizeRowWidth_ r (3 + 3 * n)) (tl rows))
  else [].

(** The given cells of the row of today. *)
Definition todayCells (dateStr : string) (portfolioVal : JsNum.num)
    (n : nat) (benchPrices : list JsNum.num) : row :=
  [dateStr; JsNum.toFixed portfolioVal 2]
  ++ map (fun i => JsNum.toFixed (nth i benchPrices JsNum.NaN) 2) (seq 0 n).

(** ** The universe of tickers of a run *)

Module Universe.

(** An item of the inventory of the tracker state: a string, or anything
  else with the text of its [ticker] property when it has one. *)
Inductive Item : Type :=
| ItemStr (s : string)
| ItemObj (ticker : option string).

(** The tracker state: its [inventory] and its [tickers], when present. *)
Record State : Type := {
inventory : option (list Item);
tickers : option (list Item)
}.

(** The lifecycle of a ticker constraint; an absent [benchmark_proxy] or
  [entered_stage_date] is the empty string, which the source treats
  alike. *)
Record Lifecycle : Type := {
stage : string;
entered_stage_date : string;
benchmark_proxy : string
}.

(** [governance.reporting_baselines]; an absent field is the empty list or
  the empty string, which the source treats alike. *)
Record Baselines : Type := {
active_benchmarks : list string;
corr_anchor_ticker : string;
chart_start_date : string
}.

(** The parts of the policy that the runner reads; [ticker_constraints] in
  the order of [Object.keys], each with its lifecycle when it has
  one. *)
Record Policy : Type := {
reporting_baselines : option Baselines;
fixed_asset_prices : list (string * JsNum.num);
ticker_constraints : list (string * option Lifecycle)
}.

(** What the mapping function of [normalizeInventory_] returns for an
  item: the ticker trimmed and in upper case, or [null]. *)
Definition itemTicker (item : Item) : option string :=
let t := match item with
         | ItemStr s => Some s
         | ItemObj t => t
         end in
match t with
| Some s => if JsString.truthy s then Some (Hist.normTicker s) else None
| None => None
end.

(** [filter(Boolean)] on strings and nulls. *)
Definition truthyStrings (l : list (option string)) : list string :=
flat_map (fun o => match o with
                   | Some s => if JsString.truthy s then [s] else []
                   | None => []
                   end) l.

(** [normalizeInventory_] *)
Definition normalizeInventory_ (state : State) : list string :=
let raw := match inventory state with
           | Some l => l
           | None => match tickers state with
                     | Some l => l
                     | None => []
                     end
           end in
sortBy String.compare (setOfList (truthyStrings (map itemTicker raw))).

(** The baselines of a policy, empty when it has none. *)
Definition baselinesOf (policy : Policy) : Baselines :=
match reporting_baselines policy with
| Some b => b
| None => {| active_benchmarks := []; corr_anchor_ticker := EmptyString;
             chart_start_date := EmptyString |}
end.

(** What one ticker constraint adds to the set: the ticker and its proxy,
  when its stage is activated. *)
Definition constraintTickers (set : list string)
  (c : string * option Lifecycle) : list string :=
match c.2 with
| Some lc =>
    if String.eqb (stage lc) "activated"
    then
      let set := setAdd (Hist.normTicker c.1) set in
      if JsString.truthy (benchmark_proxy lc)
      then setAdd (Hist.normTicker (benchmark_proxy lc)) set
      else set
    else set
| None => set
end.

(** [getPolicyRequiredTickers_]: the set, in the order of insertion. *)
Definition getPolicyRequiredTickers_ (policy : Policy) : list string :=
let baselines := baselinesOf policy in
let set :=
  fold_left (fun set t => setAdd (Hist.normTicker t) set)
    (active_benchmarks baselines) [] in
let set :=
  if JsString.truthy (corr_anchor_ticker baselines)
  then setAdd (Hist.normTicker (corr_anchor_ticker baselines)) set
  else set in
let set := fold_left constraintTickers (ticker_constraints policy) set in
List.filter JsString.truthy set.

(** [policyRequired] of [runDailyRoutine], once the baselines of the
  configuration are added. *)
Definition policyRequiredOfRun (C : Config) (policy : Policy) : list string :=
fold_left (fun set b => setAdd (Hist.normTicker b) set) (BASELINES C)
  (getPolicyRequiredTickers_ policy).

(** [requiredTickers] of [runDailyRoutine]. *)
Definition requiredTickersOfRun (C : Config) (state : State) (policy : Policy)
: list string :=
sortBy String.compare
  (setOfList (normalizeInventory_ state ++ policyRequiredOfRun C policy)).

(** [missingFromTracker] of [runDailyRoutine]. *)
Definition missingFromTracker (C : Config) (state : State) (policy : Policy)
: list string :=
List.filter (fun t => negb (memStr t (normalizeInventory_ state)))
  (policyRequiredOfRun C policy).

End Universe.

(** A tracker and a policy: one ticker is in both, in different cases. *)
Definition demoState : Universe.State :=
  {| Universe.inventory :=
       Some [Universe.ItemStr " vti "; Universe.ItemObj (Some "newt");
             Universe.ItemObj None; Universe.ItemStr "VTI"];
     Universe.tickers := None |}.

Definition demoPolicy : Universe.Policy :=
  {| Universe.reporting_baselines :=
       Some {| Universe.active_benchmarks := ["vti"; "qqq"];
               Universe.corr_anchor_ticker := "spy";
               Universe.chart_start_date := "2025-01-01" |};
     Universe.fixed_asset_prices := [];
     Universe.ticker_constraints :=
       [("newt", Some {| Universe.stage := "activated";
                         Universe.entered_stage_date := "2025-01-01";
                         Universe.benchmark_proxy := "iwm" |});
        ("old", Some {| Universe.stage := "retired";
                        Universe.entered_stage_date := "2024-01-01";
                        Universe.benchmark_proxy := EmptyString |})] |}.

(** What the policy requires, in the words of the source: an active
    benchmark, the correlation anchor, an activated ticker or the
    benchmark proxy of one. *)
Definition policyNames (policy : Universe.Policy) (s : string) : Prop :=
  In s (Universe.active_benchmarks (Universe.baselinesOf policy)) \/
  (JsString.truthy (Universe.corr_anchor_ticker (Universe.baselinesOf policy))
     = true /\
   s = Universe.corr_anchor_ticker (Universe.baselinesOf policy)) \/
  exists k lc,
    In (k, Some lc) (Universe.ticker_constraints policy) /\
    Universe.stage lc = "activated" /\
    (s = k \/
     JsString.truthy (Universe.benchmark_proxy lc) = true /\
     s = Universe.benchmark_proxy lc).

(** The update of the store as [runDailyRoutine] calls it: today is the
    text of the current day, and the required tickers are those of the
    tracker, the policy and the configuration. *)
Definition syncOfRun (C : Config) (W : World) (nToday : Z)
    (state : Universe.State) (policy : Universe.Policy) (startTime : Z)
  : Eff Hist.Store Hist.Sync :=
  Hist.updateHistDatabase_ C W (JsDate.formatYMD nToday)
    (Universe.requiredTickersOfRun C state policy)
    (Universe.policyRequiredOfRun C policy) startTime.

Definition demoRun : result Hist.Sync * Hist.Store :=
  syncOfRun shortCfg dailyWorld 20098 demoState demoPolicy 0 abcStore.

(** ** The snapshot of a run *)

Module Snapshot.

(** [diffDaysYMD_]; [getTime] gives the milliseconds of the [Date] that
  [ymdToLocalDate_] makes for a day, local midnight in the time zone of
  the script.  A text that passes the test has numeric parts, so both
  dates are read. *)
Definition diffDaysYMD_ (getTime : Z -> Z) (laterYMD earlierYMD : string)
: option Z :=
if negb (JsDate.isYMD laterYMD) then None
else if negb (JsDate.isYMD earlierYMD) then None
else
  match JsDate.ymdToLocalDate_ earlierYMD,
        JsDate.ymdToLocalDate_ laterYMD with
  | Some a, Some b => Some ((getTime b - getTime a) / 86400000)
  | _, _ => None
  end.

(** The warning sign, the sign NEW and the hourglass, as their UTF-8
  bytes. *)
Definition warning : string :=
String (ascii_of_nat 226) (String (ascii_of_nat 154)
  (String (ascii_of_nat 160) (String (ascii_of_nat 239)
    (String (ascii_of_nat 184) (String (ascii_of_nat 143) EmptyString))))).
Definition signNew : string :=
String (ascii_of_nat 240) (String (ascii_of_nat 159)
  (String (ascii_of_nat 134) (String (ascii_of_nat 149) EmptyString))).
Definition hourglass : string :=
String (ascii_of_nat 226) (String (ascii_of_nat 143)
  (String (ascii_of_nat 179) EmptyString)).

(** The status of an activated ticker, from the days since its policy
  start; [reviewDays] is [C.REVIEW_DAYS], a whole number of days. *)
Definition statusOf (reviewDays : Z) (daysActive : option Z) : string :=
match daysActive with
| None => warning +:+ " BAD POLICY DATE"
| Some d =>
    if d <? 14 then signNew +:+ " ONBOARDING"
    else
      let daysLeft := reviewDays - d in
      if daysLeft <? 0 then warning +:+ " REVIEW DUE"
      else hourglass +:+ " REVIEW IN " +:+ JsDate.decimal daysLeft +:+ "d"
end.

(** What [processSnapshot_] returns. *)
Record Snap : Type := {
asOfDate : string;
totalVal : JsNum.num;
ghosts : list Html.Ghost
}.

(** The files, and the alerts collected so far in the run. *)
Record Run : Type := {
files : Hist.Store;
alerts : list string
}.

(** [allDates] and its last entry: the distinct date cells that are dates,
  sorted. *)
Definition allDatesOf (col : Hist.ColumnMap) (rows : table) : list string :=
sortBy String.compare
  (List.filter JsDate.isYMD
     (setOfList (map (fun r => Analytics.cellText r (Hist.date col)) rows))).

Definition latestDate (col : Hist.ColumnMap) (rows : table) : option string :=
match allDatesOf col rows with
| [] => None
| d :: rest => Some (List.last rest d)
end.

(** [priceByKey] *)
Definition priceByKey (col : Hist.ColumnMap) (rows : table)
: list (string * JsNum.num) :=
fold_left
  (fun m r =>
     let d := Analytics.cellText r (Hist.date col) in
     let t := Hist.normTicker (Analytics.cellText r (Hist.ticker col)) in
     let px := JsNum.parseFloat (Analytics.cellText r (Hist.price col)) in
     if negb (JsString.truthy d) || negb (JsString.truthy t)
        || negb (JsNum.isFinite px)
     then m else objSet (Hist.mapKey d t) px m)
  rows [].

(** [priceByKey[k] || 0] *)
Definition priceOr0 (prices : list (string * JsNum.num)) (k : string)
: JsNum.num :=
match objGet k prices with
| Some v => if JsNum.truthy v then v else JsNum.zero
| None => JsNum.zero
end.

(** One line of the holdings added to the total: quantity times the fixed
  price of the policy, else the price of the as-of date, else 0. *)
Definition addHolding (policy : Universe.Policy)
  (prices : list (string * JsNum.num)) (asOf : string)
  (total : JsNum.num) (r : row) : JsNum.num :=
let t := Hist.normTicker (cellAt r 0) in
let q := JsNum.parseFloat (Analytics.cellText r 1) in
let qty := if JsNum.truthy q then q else JsNum.zero in
let px := match objGet t (Universe.fixed_asset_prices policy) with
          | Some fixed => fixed
          | None => priceOr0 prices (Hist.mapKey asOf t)
          end in
JsNum.add total (JsNum.mul qty px).

(** The ghost of a ticker constraint whose stage is activated. *)
Definition ghostOf (C : Config) (getTime : Z -> Z) (reviewDays : Z)
  (rows : table) (col : Hist.ColumnMap) (asOf : string)
  (c : string * option Universe.Lifecycle) : list Html.Ghost :=
match c.2 with
| Some lc =>
    if String.eqb (Universe.stage lc) "activated"
    then
      let T := Hist.normTicker c.1 in
      let startStr := JsString.trim (Universe.entered_stage_date lc) in
      [ {| Html.ticker := T;
           Html.policyStart :=
             if JsString.truthy startStr then startStr else "N/A";
           Html.asOfDate := asOf;
           Html.status :=
             statusOf reviewDays (diffDaysYMD_ getTime asOf startStr);
           Html.baselines :=
             fold_left
               (fun o b =>
                  objSet b
                    (Analytics.calculateAlphaAndCorrVsBenchmark_ C rows col
                       T b startStr) o)
               (BASELINES C) [] |} ]
    else []
| None => []
end.

Definition pushAlert (a : string) : Eff Run unit :=
modifyState (fun run => {| files := files run; alerts := alerts run ++ [a] |}).

(** The update of the performance log within its [try]: an error becomes
  an alert. *)
Definition updateLedger (W : World) (policy : Universe.Policy)
  (prices : list (string * JsNum.num)) (asOf : string)
  (total : JsNum.num) : Eff Run unit :=
let bl := Universe.baselinesOf policy in
let benches := map Hist.normTicker (Universe.active_benchmarks bl) in
match benches with
| [] =>
    pushAlert "LOG: No active_benchmarks in policy; skipped perf-log update."
| _ =>
    let benchPrices :=
      map (fun b => priceOr0 prices (Hist.mapKey asOf b)) benches in
    if forallb (fun p => JsNum.gtb p JsNum.zero) benchPrices
    then
      fun run =>
        match Ledger.upsertAndRecomputePerformanceLog_ W asOf total benches
                benchPrices (Universe.chart_start_date bl) (files run) with
        | (Ok _, s') => (Ok tt, {| files := s'; alerts := alerts run |})
        | (Throw msg, s') =>
            (Ok tt, {| files := s';
                       alerts := alerts run ++ ["LOG: " +:+ msg] |})
        end
    else
      pushAlert ("LOG: Skipped perf-log update (missing benchmark price(s) on "
                 +:+ asOf +:+ ").")
end.

(** [processSnapshot_]; [holdingsCsv] is the text of the holdings file.
  With no line in the HIST file the header is [undefined] and
  [buildColumnMap_] fails on it. *)
Definition processSnapshot_ (C : Config) (W : World) (getTime : Z -> Z)
  (reviewDays : Z) (policy : Universe.Policy) (holdingsCsv : string)
: Eff Run Snap :=
run ← getState;
let hist := parseCsv W (stripBomTrim (Hist.histCsv (files run))) in
col ← liftResult
  (match hist with
   | [] => Throw "Cannot read properties of undefined (reading 'map')"
   | header :: _ => Hist.buildColumnMap_ header
   end);
let rows := tl hist in
asOf ← liftResult
  (match latestDate col rows with
   | None => Throw "HIST has no valid date rows."
   | Some d => Ok d
   end);
let prices := priceByKey col rows in
let holdings := tl (parseCsv W holdingsCsv) in
let total := fold_left (addHolding policy prices asOf) holdings JsNum.zero in
let ghosts :=
  flat_map (ghostOf C getTime reviewDays rows col asOf)
    (Universe.ticker_constraints policy) in
updateLedger W policy prices asOf total;;
mret {| asOfDate := asOf; totalVal := total; ghosts := ghosts |}.

End Snapshot.

(** A time zone with no change of offset: every local day has 24 hours. *)
Definition steadyZone (c : Z) (n : Z) : Z := c + 86400000 * n.

(** The store after the first invocation of the daily scenario, with a
    ledger whose base row has a portfolio value of zero. *)
Definition snapStore : Hist.Store :=
  {| Hist.scriptProps := ∅;
     Hist.histCsv :=
       lines ["date,ticker,price"; "2025-01-08,NEWT,110.00";
              "2025-01-08,VTI,55.00"; "2025-01-09,NEWT,121.00";
              "2025-01-09,VTI,55.00"];
     Hist.perfLogCsv :=
       lines ["Date,PortfolioValue,Price_VTI,PortfolioPct,Pct_VTI,Diff_VTI";
              "2025-01-01,0.00,50.00,,,"] |}.

Definition snapPolicy : Universe.Policy :=
  {| Universe.reporting_baselines :=
       Some {| Universe.active_benchmarks := ["vti"];
               Universe.corr_anchor_ticker := EmptyString;
               Universe.chart_start_date := "2025-01-01" |};
     Universe.fixed_asset_prices := [("CASH", JsNum.ofZ 1)];
     Universe.ticker_constraints :=
       [("newt", Some {| Universe.stage := "activated";
                         Universe.entered_stage_date := "2025-01-01";
                         Universe.benchmark_proxy := EmptyString |})] |}.

Definition snapHoldings : string :=
  lines ["ticker,qty"; "NEWT,10"; "cash,250"].

Definition snapRun : result Snapshot.Snap * Snapshot.Run :=
  Snapshot.processSnapshot_ shortCfg quietWorld (steadyZone 0) 30 snapPolicy
    snapHoldings {| Snapshot.files := snapStore; Snapshot.alerts := ["first"] |}.

(** A zone that goes from five to four hours behind UTC on 2025-03-09. *)
Definition springZone (n : Z) : Z :=
  86400000 * n + (if n <? 20156 then 18000000 else 14400000).

(** * Tactics *)

Ltac digit_cases n :=
  unfold JsDate.digitChar;
  let H := fresh in
  pose proof (Z.mod_pos_bound n 10 ltac:(lia)) as H;
  generalize dependent (n mod 10); intros r H;
  assert (r = 0 \/ r = 1 \/ r = 2 \/ r = 3 \/ r = 4 \/ r = 5 \/ r = 6
          \/ r = 7 \/ r = 8 \/ r = 9) as Hr by lia;
  repeat (destruct Hr as [-> | Hr]); try subst r.

Ltac eff_unfold :=
  unfold mbind, eff_bind, mret, eff_ret, getState, modifyState, liftResult,
    throwEff.
Ltac eff_unfold_in H :=
  unfold mbind, eff_bind, mret, eff_ret, getState, modifyState, liftResult,
    throwEff in H.

(** * Properties *)

(** *** The calendar *)

Lemma allFrom_spec (P : Z -> bool) (n : nat) (lo i : Z) :
  allFrom P lo n = true -> lo <= i < lo + Z.of_nat n -> P i = true.
Proof.
  revert lo. induction n as [| n IH]; intros lo Hall Hi; [lia | ].
  simpl in Hall. apply andb_true_iff in Hall as [Hlo Hall].
  destruct (Z.eq_dec i lo) as [-> | Hne]; [done | ].
  apply (IH (lo + 1)); [done | lia].
Qed.

Lemma yoe_bounds (doe : Z) :
  0 <= doe < 146097 ->
  let yoe := (doe - doe / 1460 + doe / 36524 - doe / 146096) / 365 in
  0 <= yoe <= 399 /\ 0 <= doe - yearStart yoe <= 365.
Proof.
  intros H. unfold yearStart. cbv zeta. Z.div_mod_to_equations. lia.
Qed.

Lemma doy_bounds (doy : Z) :
  0 <= doy <= 365 ->
  let mp := (5 * doy + 2) / 153 in
  0 <= mp <= 11 /\ 1 <= doy - (153 * mp + 2) / 5 + 1 <= 31.
Proof.
  intros H. cbv zeta. Z.div_mod_to_equations. lia.
Qed.

Lemma civilOfDoe_facts (doe y0 m d : Z) :
  0 <= doe < 146097 ->
  JsDate.civilOfDoe doe = (y0, m, d) ->
  (1 <= m <= 12 /\ 1 <= d <= 31) /\
  0 <= y0 - (if m <=? 2 then 1 else 0) <= 399 /\
  JsDate.doeOfCivil (y0 - (if m <=? 2 then 1 else 0)) m d = doe.
Proof.
  intros Hdoe. unfold JsDate.civilOfDoe, JsDate.doeOfCivil.
  pose proof (yoe_bounds doe Hdoe) as Hy. cbv zeta in Hy.
  unfold yearStart in Hy.
  set (yoe := (doe - doe / 1460 + doe / 36524 - doe / 146096) / 365) in *.
  destruct Hy as [Hyoe Hdoy].
  pose proof (doy_bounds _ Hdoy) as Hmp. cbv zeta in Hmp.
  set (doy := doe - (365 * yoe + yoe / 4 - yoe / 100)) in *.
  set (mp := (5 * doy + 2) / 153) in *.
  set (k := (153 * mp + 2) / 5) in *.
  intros [= <- <- <-].
  destruct (Z.ltb_spec mp 10).
  - destruct (Z.leb_spec (mp + 3) 2); [lia | ].
    replace (mp + 3 - 3) with mp by lia. fold k.
    replace (yoe + 0 - 0) with yoe by lia. unfold doy. lia.
  - destruct (Z.leb_spec (mp - 9) 2); [ | lia].
    replace (mp - 9 + 9) with mp by lia. fold k.
    replace (yoe + 1 - 1) with yoe by lia. unfold doy. lia.
Qed.

Lemma key0_doy (doe : Z) :
  let yoe := (doe - doe / 1460 + doe / 36524 - doe / 146096) / 365 in
  key0 doe = yoe * 10000 + keyOfDoy (doe - yearStart yoe).
Proof.
  unfold key0, JsDate.civilOfDoe, keyOfDoy, yearStart. cbv zeta.
  destruct (_ <=? 2); lia.
Qed.

Lemma keyOfDoy_step (doy : Z) :
  0 <= doy < 365 -> keyOfDoy doy < keyOfDoy (doy + 1).
Proof.
  intros H. unfold keyOfDoy.
  pose proof (doy_bounds doy ltac:(lia)) as H1.
  pose proof (doy_bounds (doy + 1) ltac:(lia)) as H2. cbv zeta in H1, H2.
  set (mp := (5 * doy + 2) / 153) in *.
  set (mp' := (5 * (doy + 1) + 2) / 153) in *.
  assert (Hmp : mp' = mp \/ mp' = mp + 1 /\
                  (153 * mp' + 2) / 5 = doy + 1).
  { subst mp mp'. Z.div_mod_to_equations. lia. }
  destruct Hmp as [-> | [-> Hk]].
  - destruct (mp <? 10), (_ <=? 2); lia.
  - rewrite Hk.
    destruct (Z.ltb_spec mp 10), (Z.ltb_spec (mp + 1) 10);
      destruct (Z.leb_spec (mp + 3) 2), (Z.leb_spec (mp + 1 + 3) 2),
        (Z.leb_spec (mp - 9) 2), (Z.leb_spec (mp + 1 - 9) 2); lia.
Qed.

Lemma keyOfDoy_bounds (doy : Z) :
  0 <= doy <= 365 -> 301 <= keyOfDoy doy <= 10229.
Proof.
  intros H. unfold keyOfDoy.
  pose proof (doy_bounds doy H) as H1. cbv zeta in H1.
  set (mp := (5 * doy + 2) / 153) in *.
  assert (Hd : mp = 11 -> doy - (153 * mp + 2) / 5 + 1 <= 29).
  { subst mp. Z.div_mod_to_equations. lia. }
  destruct (Z.ltb_spec mp 10).
  - destruct (Z.leb_spec (mp + 3) 2); lia.
  - destruct (Z.leb_spec (mp - 9) 2); lia.
Qed.

Lemma yearStart_mono (y y' : Z) :
  0 <= y -> y < y' -> yearStart y + 365 <= yearStart y'.
Proof.
  intros H0 H. unfold yearStart. Z.div_mod_to_equations. lia.
Qed.

Lemma key0_step (doe : Z) : 0 <= doe < 146096 -> key0 doe < key0 (doe + 1).
Proof.
  intros Hdoe. rewrite !key0_doy.
  pose proof (yoe_bounds doe ltac:(lia)) as H1.
  pose proof (yoe_bounds (doe + 1) ltac:(lia)) as H2. cbv zeta in H1, H2.
  set (y := (doe - doe / 1460 + doe / 36524 - doe / 146096) / 365) in *.
  set (y' := (doe + 1 - (doe + 1) / 1460 + (doe + 1) / 36524
              - (doe + 1) / 146096) / 365) in *.
  cbv zeta. fold y y'.
  destruct H1 as [Hy Hd], H2 as [Hy' Hd'].
  pose proof (keyOfDoy_bounds _ Hd). pose proof (keyOfDoy_bounds _ Hd').
  destruct (Z.lt_trichotomy y y') as [Hlt | [Heq | Hgt]].
  - lia.
  - rewrite <- Heq in *.
    replace (doe + 1 - yearStart y) with (doe - yearStart y + 1) by lia.
    pose proof (keyOfDoy_step (doe - yearStart y) ltac:(lia)). lia.
  - pose proof (yearStart_mono y' y ltac:(lia) Hgt). lia.
Qed.

Lemma key0_mono (a b : Z) : 0 <= a -> a < b -> b < 146097 -> key0 a < key0 b.
Proof.
  intros Ha Hab Hb.
  assert (H : forall k : nat, a + 1 + Z.of_nat k < 146097 ->
                key0 a < key0 (a + 1 + Z.of_nat k)).
  { induction k as [| k IH]; intros Hk.
    - rewrite Z.add_0_r. apply key0_step. lia.
    - etransitivity; [apply IH; lia | ].
      replace (a + 1 + Z.of_nat (S k)) with (a + 1 + Z.of_nat k + 1) by lia.
      apply key0_step. lia. }
  specialize (H (Z.to_nat (b - a - 1))).
  replace (a + 1 + Z.of_nat (Z.to_nat (b - a - 1))) with b in H by lia.
  apply H. lia.
Qed.

Lemma era_split (n : Z) :
  let z := n + 719468 in
  0 <= z - z / 146097 * 146097 < 146097.
Proof.
  cbv zeta. pose proof (Z.mod_pos_bound (n + 719468) 146097 ltac:(lia)).
  rewrite Z.mod_eq in H by lia. lia.
Qed.

Lemma dateKey_era (n : Z) :
  dateKey n = key0 (n + 719468 - (n + 719468) / 146097 * 146097)
              + 4000000 * ((n + 719468) / 146097).
Proof.
  unfold dateKey, JsDate.civilFromDays, key0.
  destruct (JsDate.civilOfDoe _) as [[y0 m] d]. lia.
Qed.

Lemma key0_bounds (doe : Z) : 0 <= doe < 146097 -> 301 <= key0 doe <= 4000229.
Proof.
  intros Hdoe.
  assert (H0 : key0 0 = 301) by (vm_compute; reflexivity).
  assert (H1 : key0 146096 = 4000229) by (vm_compute; reflexivity).
  destruct (Z.eq_dec doe 0) as [-> | ?]; [lia | ].
  destruct (Z.eq_dec doe 146096) as [-> | ?]; [lia | ].
  pose proof (key0_mono 0 doe ltac:(lia) ltac:(lia) ltac:(lia)).
  pose proof (key0_mono doe 146096 ltac:(lia) ltac:(lia) ltac:(lia)). lia.
Qed.

Lemma dateKey_mono (n n' : Z) : n < n' -> dateKey n < dateKey n'.
Proof.
  intros Hlt. rewrite !dateKey_era.
  pose proof (era_split n) as Hn. pose proof (era_split n') as Hn'.
  cbv zeta in Hn, Hn'.
  set (e := (n + 719468) / 146097) in *.
  set (e' := (n' + 719468) / 146097) in *.
  assert (He : e <= e').
  { subst e e'. apply Z.div_le_mono; lia. }
  destruct (Z.eq_dec e e') as [Heq | Hne].
  - rewrite <- Heq in *.
    pose proof (key0_mono (n + 719468 - e * 146097) (n' + 719468 - e * 146097)
                  ltac:(lia) ltac:(lia) ltac:(lia)). lia.
  - pose proof (key0_bounds _ Hn). pose proof (key0_bounds _ Hn'). lia.
Qed.

Lemma dateKey_lt_iff (n n' : Z) : dateKey n < dateKey n' <-> n < n'.
Proof.
  split; [ | apply dateKey_mono].
  intros Hk. destruct (Z.lt_ge_cases n n') as [? | Hge]; [done | ].
  destruct (Z.eq_dec n n') as [-> | ?]; [lia | ].
  pose proof (dateKey_mono n' n ltac:(lia)). lia.
Qed.

Lemma civil_valid (n y m d : Z) :
  JsDate.civilFromDays n = (y, m, d) -> 1 <= m <= 12 /\ 1 <= d <= 31.
Proof.
  unfold JsDate.civilFromDays.
  destruct (JsDate.civilOfDoe _) as [[y0 m0] d0] eqn:Hciv.
  intros [= <- <- <-].
  by destruct (civilOfDoe_facts _ _ _ _ (era_split n) Hciv) as [? _].
Qed.

Lemma days_civil_roundtrip (n y m d : Z) :
  JsDate.civilFromDays n = (y, m, d) -> JsDate.daysFromCivil y m d = n.
Proof.
  unfold JsDate.civilFromDays.
  destruct (JsDate.civilOfDoe _) as [[y0 m0] d0] eqn:Hciv.
  intros [= <- <- <-].
  destruct (civilOfDoe_facts _ _ _ _ (era_split n) Hciv) as (_ & Hy & Hdoe).
  unfold JsDate.daysFromCivil.
  set (e := (n + 719468) / 146097) in *.
  set (c := if m0 <=? 2 then 1 else 0) in *.
  replace (if m0 <=? 2 then y0 + e * 400 - 1 else y0 + e * 400)
    with ((y0 - c) + e * 400) by (subst c; destruct (m0 <=? 2); lia).
  rewrite Z.div_add by lia.
  rewrite (Z.div_small (y0 - c) 400) by lia.
  replace (y0 - c + e * 400 - (0 + e) * 400) with (y0 - c) by lia.
  rewrite Hdoe. lia.
Qed.

(** *** Digits and numerals *)

Lemma allChars_app (p : ascii -> bool) (s1 s2 : string) :
  allChars p (s1 +:+ s2) = allChars p s1 && allChars p s2.
Proof.
  induction s1 as [| c s1 IH]; simpl; [done | ].
  by rewrite IH, andb_assoc.
Qed.

Lemma allChars_impl (p q : ascii -> bool) (s : string) :
  (forall c, p c = true -> q c = true) ->
  allChars p s = true -> allChars q s = true.
Proof.
  intros Hpq. induction s as [| c s IH]; simpl; [done | ].
  intros [Hc Hs]%andb_true_iff. by rewrite (Hpq c Hc), IH.
Qed.

Lemma isDigit_digitChar (n : Z) : JsDate.isDigit (JsDate.digitChar n) = true.
Proof. digit_cases n; reflexivity. Qed.

Lemma digitVal_digitChar (n : Z) :
  JsDate.digitVal (JsDate.digitChar n) = n mod 10.
Proof. digit_cases n; reflexivity. Qed.

Lemma compare_digitChar (a b : Z) :
  Ascii.compare (JsDate.digitChar a) (JsDate.digitChar b)
  = Z.compare (a mod 10) (b mod 10).
Proof. digit_cases a; digit_cases b; reflexivity. Qed.

Lemma isDigit_cases (c : ascii) :
  JsDate.isDigit c = true -> exists n, c = JsDate.digitChar n.
Proof.
  intros H. exists (JsDate.digitVal c).
  destruct c as [[] [] [] [] [] [] [] []]; try discriminate H; reflexivity.
Qed.

Lemma isDigit_notDash (c : ascii) : JsDate.isDigit c = true -> notDash c = true.
Proof. intros [n ->]%isDigit_cases. digit_cases n; reflexivity. Qed.

Lemma dateChar_notSpace (c : ascii) : dateChar c = true -> notSpace c = true.
Proof.
  unfold dateChar. intros [H | H]%orb_true_iff.
  - apply isDigit_cases in H as [n ->]. digit_cases n; reflexivity.
  - apply Ascii.eqb_eq in H as ->. reflexivity.
Qed.

Lemma isDigit_dateChar (c : ascii) : JsDate.isDigit c = true -> dateChar c = true.
Proof. unfold dateChar. by intros ->. Qed.

(** *** Trimming *)

Lemma trimEnd_notSpace (s : string) :
  allChars notSpace s = true -> JsString.trimEnd s = s.
Proof.
  induction s as [| c s IH]; simpl; [done | ].
  intros [Hc Hs]%andb_true_iff. rewrite (IH Hs).
  destruct s; [ | done].
  unfold notSpace in Hc. by destruct (JsString.isSpace c).
Qed.

Lemma trim_notSpace (s : string) :
  allChars notSpace s = true -> JsString.trim s = s.
Proof.
  intros H. unfold JsString.trim.
  assert (Hs : JsString.trimStart s = s).
  { destruct s as [| c s]; simpl in *; [done | ].
    apply andb_true_iff in H as [Hc _]. unfold notSpace in Hc.
    by destruct (JsString.isSpace c). }
  rewrite Hs. by apply trimEnd_notSpace.
Qed.

Lemma trim_dateChars (s : string) :
  allChars dateChar s = true -> JsString.trim s = s.
Proof.
  intros H. apply trim_notSpace.
  by apply (allChars_impl dateChar notSpace), H; apply dateChar_notSpace.
Qed.

(** *** Splitting a date *)

Lemma splitOn_digits (ds : string) :
  allChars JsDate.isDigit ds = true -> JsString.splitOn "-" ds = [ds].
Proof.
  induction ds as [| c ds IH]; simpl; [done | ].
  intros [Hc Hs]%andb_true_iff. rewrite (IH Hs).
  apply isDigit_notDash in Hc. unfold notDash in Hc.
  by destruct (Ascii.eqb c "-").
Qed.

Lemma splitOn_digits_dash (ds rest : string) :
  allChars JsDate.isDigit ds = true ->
  JsString.splitOn "-" (ds +:+ String "-" rest)
  = ds :: JsString.splitOn "-" rest.
Proof.
  induction ds as [| c ds IH]; simpl; [done | ].
  intros [Hc Hs]%andb_true_iff. rewrite (IH Hs).
  apply isDigit_notDash in Hc. unfold notDash in Hc.
  by destruct (Ascii.eqb c "-").
Qed.

Lemma digitsAcc_value (s : string) (acc : Z) :
  allChars JsDate.isDigit s = true ->
  JsDate.digitsAcc acc s = Some (JsNum.digitsValue acc s).
Proof.
  revert acc. induction s as [| c s IH]; intros acc; simpl; [done | ].
  intros [-> Hs]%andb_true_iff. by apply IH.
Qed.

Lemma numberOfDigits_value (s : string) :
  allChars JsDate.isDigit s = true -> s <> EmptyString ->
  JsDate.numberOfDigits s = Some (JsNum.digitsValue 0 s).
Proof.
  intros Hs Hne. destruct s; [done | ]. by apply digitsAcc_value.
Qed.

Lemma ymdToLocalDate_dashed (a b c : string) :
  allChars JsDate.isDigit a = true -> a <> EmptyString ->
  allChars JsDate.isDigit b = true -> b <> EmptyString ->
  allChars JsDate.isDigit c = true -> c <> EmptyString ->
  JsDate.ymdToLocalDate_ (dashed a b c)
  = Some (JsDate.makeDay (JsNum.digitsValue 0 a)
            (JsNum.digitsValue 0 b - 1) (JsNum.digitsValue 0 c)).
Proof.
  intros Ha Ha' Hb Hb' Hc Hc'. unfold JsDate.ymdToLocalDate_, dashed.
  change ("-" +:+ b +:+ "-" +:+ c) with (String "-" (b +:+ String "-" c)).
  rewrite splitOn_digits_dash, splitOn_digits_dash, splitOn_digits by done.
  simpl map. by rewrite !numberOfDigits_value.
Qed.

Lemma isYMD_dashed (s : string) :
  JsDate.isYMD s = true ->
  exists a b c, s = dashed a b c /\
    (allChars JsDate.isDigit a = true /\ a <> EmptyString) /\
    (allChars JsDate.isDigit b = true /\ b <> EmptyString) /\
    (allChars JsDate.isDigit c = true /\ c <> EmptyString).
Proof.
  intros H.
  do 10 (destruct s as [| ? s]; [discriminate H | ]).
  destruct s; [ | discriminate H]. cbn [JsDate.isYMD] in H.
  rewrite !andb_true_iff in H.
  destruct H as (((((((((H1 & H2) & H3) & H4) & E1) & H5) & H6) & E2) & H7) & H8).
  apply Ascii.eqb_eq in E1, E2. subst.
  eexists (String _ (String _ (String _ (String _ EmptyString)))),
          (String _ (String _ EmptyString)),
          (String _ (String _ EmptyString)).
  split; [reflexivity | ]. simpl.
  repeat match goal with E : JsDate.isDigit _ = true |- _ => rewrite E; clear E end.
  repeat split; done.
Qed.

Lemma dashed_dateChars (a b c : string) :
  allChars JsDate.isDigit a = true ->
  allChars JsDate.isDigit b = true ->
  allChars JsDate.isDigit c = true ->
  allChars dateChar (dashed a b c) = true.
Proof.
  intros Ha Hb Hc. unfold dashed.
  rewrite !allChars_app.
  rewrite (allChars_impl _ _ a isDigit_dateChar Ha).
  rewrite (allChars_impl _ _ b isDigit_dateChar Hb).
  by rewrite (allChars_impl _ _ c isDigit_dateChar Hc).
Qed.


Lemma isYMD_trim (s : string) : JsDate.isYMD s = true -> JsString.trim s = s.
Proof.
  intros (a & b & c & -> & [Ha Ha'] & [Hb Hb'] & [Hc Hc'])%isYMD_dashed.
  by apply trim_dateChars, dashed_dateChars.
Qed.

(** *** The text of a date *)

Lemma decimalDigits_digits (fuel : nat) (n : Z) (acc : string) :
  allChars JsDate.isDigit acc = true ->
  allChars JsDate.isDigit (JsDate.decimalDigits fuel n acc) = true.
Proof.
  revert n acc. induction fuel as [| fuel IH]; intros n acc Hacc; simpl; [done | ].
  destruct (n <? 10).
  - simpl. by rewrite isDigit_digitChar.
  - apply IH. simpl. by rewrite isDigit_digitChar.
Qed.

Lemma decimalDigits_nonempty (fuel : nat) (n : Z) (acc : string) :
  acc <> EmptyString -> JsDate.decimalDigits fuel n acc <> EmptyString.
Proof.
  revert n acc. induction fuel as [| fuel IH]; intros n acc Hacc; simpl; [done | ].
  destruct (n <? 10); [done | ]. by apply IH.
Qed.

Lemma decimal_digits (n : Z) :
  allChars JsDate.isDigit (JsDate.decimal n) = true /\
  JsDate.decimal n <> EmptyString.
Proof.
  unfold JsDate.decimal. split.
  - by apply decimalDigits_digits.
  - simpl. destruct (n <? 10); [done | ]. by apply decimalDigits_nonempty.
Qed.

Lemma pad4_digits (y : Z) :
  allChars JsDate.isDigit (JsDate.pad4 y) = true /\
  JsDate.pad4 y <> EmptyString.
Proof.
  unfold JsDate.pad4. destruct (_ <? 1000).
  - simpl. by rewrite !isDigit_digitChar.
  - apply decimal_digits.
Qed.

Lemma pad2_digits (m : Z) :
  allChars JsDate.isDigit (JsDate.pad2 m) = true /\
  JsDate.pad2 m <> EmptyString.
Proof. unfold JsDate.pad2. simpl. by rewrite !isDigit_digitChar. Qed.

Lemma formatYMD_dashed (n y m d : Z) :
  JsDate.civilFromDays n = (y, m, d) ->
  JsDate.formatYMD n = dashed (JsDate.pad4 y) (JsDate.pad2 m) (JsDate.pad2 d).
Proof. unfold JsDate.formatYMD. by intros ->. Qed.

Lemma formatYMD_parse (n : Z) :
  exists y m d, JsDate.civilFromDays n = (y, m, d) /\
    JsDate.ymdToLocalDate_ (JsDate.formatYMD n)
    = Some (JsDate.makeDay (JsNum.digitsValue 0 (JsDate.pad4 y))
              (JsNum.digitsValue 0 (JsDate.pad2 m) - 1)
              (JsNum.digitsValue 0 (JsDate.pad2 d))).
Proof.
  destruct (JsDate.civilFromDays n) as [[y m] d] eqn:Hciv.
  exists y, m, d. split; [done | ].
  rewrite (formatYMD_dashed n y m d Hciv).
  destruct (pad4_digits y), (pad2_digits m), (pad2_digits d).
  by apply ymdToLocalDate_dashed.
Qed.

Lemma formatYMD_parseable (n : Z) : parseable (JsDate.formatYMD n).
Proof. destruct (formatYMD_parse n) as (y & m & d & _ & H). by eexists. Qed.

Lemma formatYMD_trim (n : Z) : JsString.trim (JsDate.formatYMD n) = JsDate.formatYMD n.
Proof.
  destruct (JsDate.civilFromDays n) as [[y m] d] eqn:Hciv.
  rewrite (formatYMD_dashed n y m d Hciv).
  destruct (pad4_digits y), (pad2_digits m), (pad2_digits d).
  by apply trim_dateChars, dashed_dateChars.
Qed.

Lemma addDaysYMD_Some (s : string) (delta : Z) :
  parseable s -> exists r, JsDate.addDaysYMD_ s delta = Some r.
Proof. intros [n Hn]. unfold JsDate.addDaysYMD_. rewrite Hn. eauto. Qed.

Lemma addDaysYMD_inv (s r : string) (delta : Z) :
  JsDate.addDaysYMD_ s delta = Some r ->
  exists n, JsDate.ymdToLocalDate_ s = Some n /\ r = JsDate.formatYMD (n + delta).
Proof.
  unfold JsDate.addDaysYMD_.
  destruct (JsDate.ymdToLocalDate_ s) as [n |]; [ | discriminate].
  intros [= <-]. eauto.
Qed.


Lemma addDaysYMD_trim (s r : string) (delta : Z) :
  JsDate.addDaysYMD_ s delta = Some r -> JsString.trim r = r.
Proof. intros (n & _ & ->)%addDaysYMD_inv. apply formatYMD_trim. Qed.

(** *** Dates of the years 100 to 9999 *)

Lemma inRange_year (n y m d : Z) :
  inRange n -> JsDate.civilFromDays n = (y, m, d) ->
  100 <= y <= 9999 /\ 1 <= m <= 12 /\ 1 <= d <= 31.
Proof.
  intros [Hlo Hhi] Hciv.
  destruct (civil_valid n y m d Hciv) as [Hm Hd].
  assert (Hk : dateKey n = y * 10000 + m * 100 + d).
  { unfold dateKey. by rewrite Hciv. }
  assert (Klo : dateKey dayLo = 1000101) by (vm_compute; reflexivity).
  assert (Khi : dateKey dayHi = 99991231) by (vm_compute; reflexivity).
  assert (1000101 <= dateKey n).
  { destruct (Z.eq_dec n dayLo) as [-> | ?]; [lia | ].
    pose proof (dateKey_mono dayLo n ltac:(lia)). lia. }
  assert (dateKey n <= 99991231).
  { destruct (Z.eq_dec n dayHi) as [-> | ?]; [lia | ].
    pose proof (dateKey_mono n dayHi ltac:(lia)). lia. }
  lia.
Qed.

Lemma pad4_checked :
  allFrom (fun y => String.eqb (JsDate.pad4 y) (four y)) 1 (Z.to_nat 9999) = true.
Proof. vm_compute. reflexivity. Qed.

Lemma pad4_four (y : Z) : 1 <= y <= 9999 -> JsDate.pad4 y = four y.
Proof.
  intros Hy. apply String.eqb_eq.
  apply (allFrom_spec _ (Z.to_nat 9999) 1 y pad4_checked). lia.
Qed.

Lemma value_four (y : Z) : 0 <= y <= 9999 -> JsNum.digitsValue 0 (four y) = y.
Proof.
  intros Hy. unfold four. cbn [JsNum.digitsValue]. rewrite !digitVal_digitChar.
  Z.div_mod_to_equations. lia.
Qed.

Lemma value_pad2 (m : Z) : 0 <= m <= 99 -> JsNum.digitsValue 0 (JsDate.pad2 m) = m.
Proof.
  intros Hm. unfold JsDate.pad2. cbn [JsNum.digitsValue]. rewrite !digitVal_digitChar.
  Z.div_mod_to_equations. lia.
Qed.

Lemma makeDay_civil (y m d : Z) :
  100 <= y -> 1 <= m <= 12 ->
  JsDate.makeDay y (m - 1) d = JsDate.daysFromCivil y m d.
Proof.
  intros Hy Hm. unfold JsDate.makeDay.
  destruct (Z.leb_spec 0 y), (Z.leb_spec y 99); try lia. simpl andb. cbv iota.
  rewrite (Z.div_small (m - 1) 12), (Z.mod_small (m - 1) 12) by lia.
  replace (m - 1 + 1) with m by lia. rewrite Z.add_0_r.
  unfold JsDate.daysFromCivil, JsDate.doeOfCivil. lia.
Qed.

Lemma formatYMD_roundtrip (n : Z) :
  inRange n -> JsDate.ymdToLocalDate_ (JsDate.formatYMD n) = Some n.
Proof.
  intros Hn. destruct (formatYMD_parse n) as (y & m & d & Hciv & ->).
  destruct (inRange_year n y m d Hn Hciv) as (Hy & Hm & Hd).
  rewrite pad4_four, value_four, !value_pad2 by lia.
  rewrite makeDay_civil by lia.
  f_equal. by apply days_civil_roundtrip.
Qed.

Lemma addDaysYMD_format (n delta : Z) :
  inRange n ->
  JsDate.addDaysYMD_ (JsDate.formatYMD n) delta = Some (JsDate.formatYMD (n + delta)).
Proof.
  intros Hn. unfold JsDate.addDaysYMD_. by rewrite formatYMD_roundtrip.
Qed.

(** *** The order of date texts *)

Lemma compare_app (a a' b b' : string) :
  String.length a = String.length a' ->
  String.compare (a +:+ b) (a' +:+ b')
  = thenCmp (String.compare a a') (String.compare b b').
Proof.
  revert a'. induction a as [| c a IH]; intros [| c' a'] Hlen;
    simpl in Hlen; try discriminate; [done | ].
  simpl. destruct (Ascii.compare c c'); try done.
  apply IH. congruence.
Qed.

Lemma compare_pad2 (m m' : Z) :
  0 <= m <= 99 -> 0 <= m' <= 99 ->
  String.compare (JsDate.pad2 m) (JsDate.pad2 m') = Z.compare m m'.
Proof.
  intros Hm Hm'. unfold JsDate.pad2. cbn [String.compare].
  rewrite !compare_digitChar.
  destruct (Z.compare_spec ((m / 10) mod 10) ((m' / 10) mod 10));
    destruct (Z.compare_spec (m mod 10) (m' mod 10)); symmetry;
    first [ apply Z.compare_eq_iff | apply Z.compare_lt_iff
          | apply Z.compare_gt_iff ];
    Z.div_mod_to_equations; lia.
Qed.

Lemma compare_four (y y' : Z) :
  0 <= y <= 9999 -> 0 <= y' <= 9999 ->
  String.compare (four y) (four y') = Z.compare y y'.
Proof.
  intros Hy Hy'. unfold four. cbn [String.compare].
  rewrite !compare_digitChar.
  destruct (Z.compare_spec ((y / 1000) mod 10) ((y' / 1000) mod 10));
    [ destruct (Z.compare_spec ((y / 100) mod 10) ((y' / 100) mod 10));
      [ destruct (Z.compare_spec ((y / 10) mod 10) ((y' / 10) mod 10));
        [ destruct (Z.compare_spec (y mod 10) (y' mod 10)) | | ] | | ] | | ];
    symmetry;
    first [ apply Z.compare_eq_iff | apply Z.compare_lt_iff
          | apply Z.compare_gt_iff ];
    Z.div_mod_to_equations; lia.
Qed.

Lemma inRange_inEra (n : Z) : inRange n -> inEra n.
Proof. unfold inRange, inEra, dayLo, dayMin. lia. Qed.

Lemma inEra_year (n y m d : Z) :
  inEra n -> JsDate.civilFromDays n = (y, m, d) ->
  1 <= y <= 9999 /\ 1 <= m <= 12 /\ 1 <= d <= 31.
Proof.
  intros [Hlo Hhi] Hciv.
  destruct (civil_valid n y m d Hciv) as [Hm Hd].
  assert (Hk : dateKey n = y * 10000 + m * 100 + d).
  { unfold dateKey. by rewrite Hciv. }
  assert (Klo : dateKey dayMin = 10101) by (vm_compute; reflexivity).
  assert (Khi : dateKey dayHi = 99991231) by (vm_compute; reflexivity).
  assert (10101 <= dateKey n).
  { destruct (Z.eq_dec n dayMin) as [-> | ?]; [lia | ].
    pose proof (dateKey_mono dayMin n ltac:(lia)). lia. }
  assert (dateKey n <= 99991231).
  { destruct (Z.eq_dec n dayHi) as [-> | ?]; [lia | ].
    pose proof (dateKey_mono n dayHi ltac:(lia)). lia. }
  lia.
Qed.

Lemma formatYMD_compare (n n' : Z) :
  inEra n -> inEra n' ->
  String.compare (JsDate.formatYMD n) (JsDate.formatYMD n') = Z.compare n n'.
Proof.
  intros Hn Hn'.
  destruct (JsDate.civilFromDays n) as [[y m] d] eqn:Hciv.
  destruct (JsDate.civilFromDays n') as [[y' m'] d'] eqn:Hciv'.
  destruct (inEra_year n y m d Hn Hciv) as (Hy & Hm & Hd).
  destruct (inEra_year n' y' m' d' Hn' Hciv') as (Hy' & Hm' & Hd').
  rewrite (formatYMD_dashed n y m d Hciv), (formatYMD_dashed n' y' m' d' Hciv').
  rewrite !pad4_four by lia. unfold dashed.
  rewrite compare_app by done.
  change (String.compare ("-" +:+ ?a) ("-" +:+ ?b)) with (String.compare a b).
  rewrite compare_app by done.
  change (String.compare ("-" +:+ ?a) ("-" +:+ ?b)) with (String.compare a b).
  rewrite compare_four, !compare_pad2 by lia.
  assert (Hk : dateKey n = y * 10000 + m * 100 + d).
  { unfold dateKey. by rewrite Hciv. }
  assert (Hk' : dateKey n' = y' * 10000 + m' * 100 + d').
  { unfold dateKey. by rewrite Hciv'. }
  pose proof (dateKey_lt_iff n n') as Hlt.
  pose proof (dateKey_lt_iff n' n) as Hgt.
  destruct (Z.compare_spec y y'); simpl;
    [ destruct (Z.compare_spec m m'); simpl;
      [ destruct (Z.compare_spec d d') | | ] | | ];
    symmetry;
    first [ apply Z.compare_eq_iff | apply Z.compare_lt_iff
          | apply Z.compare_gt_iff ]; lia.
Qed.

Lemma formatYMD_lt (n n' : Z) :
  inEra n -> inEra n' ->
  JsString.lt (JsDate.formatYMD n) (JsDate.formatYMD n') = (n <? n').
Proof.
  intros Hn Hn'. unfold JsString.lt, String.ltb.
  rewrite formatYMD_compare by done.
  unfold Z.ltb. by destruct (n ?= n').
Qed.

Lemma formatYMD_ge (n n' : Z) :
  inEra n -> inEra n' ->
  JsString.ge (JsDate.formatYMD n) (JsDate.formatYMD n') = (n' <=? n).
Proof.
  intros Hn Hn'. unfold JsString.ge. fold (JsString.lt (JsDate.formatYMD n) (JsDate.formatYMD n')).
  rewrite formatYMD_lt by done. lia.
Qed.

Lemma cellAt_lookup (r : row) (i : nat) :
  cellAt r i = default EmptyString (r !! i).
Proof. unfold cellAt. apply nth_lookup. Qed.

Lemma cellAt_setAt_eq (r : row) (i : nat) (v : string) :
  cellAt (setAt i v r) i = v.
Proof.
  rewrite cellAt_lookup. unfold setAt.
  destruct (Nat.ltb_spec i (length r)) as [Hlt | Hge].
  - by rewrite list_lookup_insert_eq.
  - rewrite lookup_app_r by lia.
    rewrite lookup_app_r by (rewrite length_replicate; lia).
    rewrite length_replicate.
    replace (i - length r - (i - length r))%nat with O by lia. done.
Qed.

Lemma cellAt_setAt_ne (r : row) (i j : nat) (v : string) :
  i <> j -> cellAt (setAt i v r) j = cellAt r j.
Proof.
  intros Hne. rewrite !cellAt_lookup. unfold setAt.
  destruct (Nat.ltb_spec i (length r)) as [Hlt | Hge].
  - by rewrite list_lookup_insert_ne.
  - destruct (Nat.lt_ge_cases j (length r)) as [Hj | Hj].
    + by rewrite lookup_app_l.
    + rewrite (lookup_ge_None_2 r j) by lia.
      rewrite lookup_app_r by lia.
      destruct (Nat.lt_ge_cases j i) as [Hji | Hji].
      * rewrite lookup_app_l by (rewrite length_replicate; lia).
        rewrite lookup_replicate_2 by lia. done.
      * rewrite lookup_app_r by (rewrite length_replicate; lia).
        rewrite length_replicate.
        rewrite lookup_ge_None_2; [done | simpl; lia].
Qed.

Lemma length_setAt_lt (r : row) (i : nat) (v : string) :
  (i < length r)%nat -> length (setAt i v r) = length r.
Proof.
  intros Hlt. unfold setAt.
  destruct (Nat.ltb_spec i (length r)); [ | lia].
  apply length_insert.
Qed.

Lemma length_normalizeRowWidth_ (r : row) (w : nat) :
  length (normalizeRowWidth_ r w) = w.
Proof.
  unfold normalizeRowWidth_. rewrite length_take, length_app, length_replicate. lia.
Qed.

Lemma cellAt_normalizeRowWidth_ (r : row) (w i : nat) :
  (i < w)%nat -> cellAt (normalizeRowWidth_ r w) i = cellAt r i.
Proof.
  intros Hi. rewrite !cellAt_lookup. unfold normalizeRowWidth_.
  rewrite lookup_take_lt by done.
  destruct (Nat.lt_ge_cases i (length r)) as [Hlt | Hge].
  - by rewrite lookup_app_l.
  - rewrite lookup_app_r by done.
    rewrite (lookup_ge_None_2 r i) by done.
    rewrite lookup_replicate_2 by lia. done.
Qed.

Lemma normalizeRowWidth_id (r : row) :
  normalizeRowWidth_ r (length r) = r.
Proof.
  unfold normalizeRowWidth_. rewrite Nat.sub_diag. simpl.
  rewrite app_nil_r. apply firstn_all.
Qed.

(** *** Numbers *)

Lemma validBase_finite_pos (x : JsNum.num) :
  Ledger.validBase x = true -> exists m e, x = S754_finite false m e.
Proof.
  intros H.
  destruct x as [s | s | | [|] m e]; try (vm_compute in H; discriminate).
  eauto.
Qed.

Lemma div_eucl_mult (n : positive) (k : Z) :
  Z.div_eucl (Z.pos n * k) (Z.pos n) = (k, 0).
Proof.
  pose proof (Z_div_mod (Z.pos n * k) (Z.pos n) eq_refl) as H.
  destruct (Z.div_eucl (Z.pos n * k) (Z.pos n)) as [q r].
  destruct H as [Heq Hr].
  assert (Hk : k = q) by nia.
  subst q. f_equal. lia.
Qed.

Lemma div_self (m : positive) (e : Z) :
  JsNum.div (S754_finite false m e) (S754_finite false m e) = JsNum.one.
Proof.
  unfold JsNum.div, SFdiv, SFdiv_core_binary.
  replace (Zdigits2 (Z.pos m) + e - (Zdigits2 (Z.pos m) + e)) with 0 by lia.
  rewrite Z.sub_diag.
  change (Z.min (fexp JsNum.prec JsNum.emax 0) 0) with (-53).
  change (0 - -53) with 53.
  cbv beta iota zeta.
  rewrite Z.shiftl_mul_pow2 by lia.
  rewrite div_eucl_mult.
  assert (Hloc : new_location (Z.pos m) 0 = loc_Exact).
  { unfold new_location, new_location_even, new_location_odd.
    destruct (Z.even (Z.pos m)); reflexivity. }
  rewrite Hloc. vm_compute. reflexivity.
Qed.

Lemma pctOf_base (x : JsNum.num) :
  Ledger.validBase x = true -> Ledger.pctCell (Ledger.pctOf x x) = "0.0000".
Proof.
  intros H. destruct (validBase_finite_pos x H) as (m & e & ->).
  unfold Ledger.pctOf.
  change (JsNum.isFinite (S754_finite false m e)) with true.
  change (JsNum.gtb (S754_finite false m e) JsNum.zero) with true.
  cbv beta iota. simpl andb. cbv iota.
  rewrite div_self. vm_compute. reflexivity.
Qed.

Lemma invalidDenominator_spec (x : JsNum.num) :
  Ledger.invalidDenominator x <-> Ledger.validBase x = false.
Proof.
  unfold Ledger.invalidDenominator, Ledger.validBase.
  destruct (JsNum.isFinite x), (JsNum.leb x JsNum.zero); simpl; intuition.
Qed.

(** *** Sorting *)

Lemma insertSorted_Permutation {A} (cmp : A -> A -> comparison) (x : A) (l : list A) :
  Permutation (insertSorted cmp x l) (x :: l).
Proof.
  induction l as [| y l IH]; simpl; [reflexivity | ].
  destruct (cmp x y); try reflexivity.
  rewrite IH. apply perm_swap.
Qed.

Lemma sortBy_Permutation {A} (cmp : A -> A -> comparison) (l : list A) :
  Permutation (sortBy cmp l) l.
Proof.
  induction l as [| x l IH]; simpl; [reflexivity | ].
  rewrite insertSorted_Permutation. by constructor.
Qed.

Lemma length_sortBy {A} (cmp : A -> A -> comparison) (l : list A) :
  length (sortBy cmp l) = length l.
Proof. apply Permutation_length, sortBy_Permutation. Qed.

(** *** Folds that write one cell per index *)

Section FoldSetAt.
Variables (c : nat) (g : row -> nat -> string) (row0 : row).

Local Abbreviation cells := (writeCells c g row0).

Lemma writeCells_S (n : nat) :
  cells (S n) = setAt (c + n) (g (cells n) n) (cells n).
Proof. unfold writeCells. by rewrite seq_S, fold_left_app. Qed.

Lemma writeCells_outside (n j : nat) :
  (j < c \/ c + n <= j)%nat -> cellAt (cells n) j = cellAt row0 j.
Proof.
  induction n as [| n IH]; intros Hj; [reflexivity | ].
  rewrite writeCells_S, cellAt_setAt_ne by lia. apply IH. lia.
Qed.

Lemma writeCells_inside (g' : nat -> string) (n i : nat) :
  (forall row k, (k < n)%nat ->
     (forall j, (j < c)%nat -> cellAt row j = cellAt row0 j) ->
     g row k = g' k) ->
  (i < n)%nat -> cellAt (cells n) (c + i) = g' i.
Proof.
  induction n as [| n IH]; intros Hg Hi; [lia | ].
  rewrite writeCells_S.
  destruct (decide (i = n)) as [-> | Hne].
  - rewrite cellAt_setAt_eq. apply Hg; [lia | ].
    intros j Hj. apply writeCells_outside. lia.
  - rewrite cellAt_setAt_ne by lia. apply IH; [ | lia].
    intros row k Hk. apply Hg. lia.
Qed.

End FoldSetAt.

Lemma nth_mapi {A B} (f : nat -> A -> B) (l : list A) (i k : nat) (d : A) (d' : B) :
  (k < length l)%nat -> nth k (Ledger.mapi f i l) d' = f (i + k)%nat (nth k l d).
Proof.
  revert i k. induction l as [| a l IH]; intros i k Hk; simpl in *; [lia | ].
  destruct k as [| k]; simpl.
  - f_equal. lia.
  - rewrite IH by lia. f_equal. lia.
Qed.

Lemma length_mapi {A B} (f : nat -> A -> B) (l : list A) (i : nat) :
  length (Ledger.mapi f i l) = length l.
Proof. revert i. induction l; intros; simpl; auto. Qed.

Lemma findIndex_lt {A} (p : A -> bool) (l : list A) (i : nat) :
  findIndex p l = Some i -> (i < length l)%nat.
Proof.
  revert i. induction l as [| x l IH]; intros i; simpl; [discriminate | ].
  destruct (p x).
  - intros [= <-]. lia.
  - destruct (findIndex p l) as [k |]; simpl; [ | discriminate].
    intros [= <-]. specialize (IH k eq_refl). lia.
Qed.

(** *** The ledger *)

Lemma length_buildPerfLogHeader_ (benches : list string) :
  length (Ledger.buildPerfLogHeader_ benches) = (3 + 3 * length benches)%nat.
Proof.
  unfold Ledger.buildPerfLogHeader_.
  rewrite !length_app, !length_map. simpl. lia.
Qed.

Lemma upsertRows_nonempty W rows dateStr pv benches prices :
  (0 < length (Ledger.upsertRows W rows dateStr pv benches prices))%nat.
Proof.
  unfold Ledger.upsertRows. rewrite length_sortBy, length_app. simpl. lia.
Qed.

Lemma baseIndexOf_lt (chartStart : string) (data : table) :
  (0 < length data)%nat -> (Ledger.baseIndexOf chartStart data < length data)%nat.
Proof.
  intros Hlen. unfold Ledger.baseIndexOf.
  destruct (JsDate.isYMD chartStart); [ | done].
  destruct (findIndex _ data) as [i |] eqn:Hfind; [ | done].
  by apply findIndex_lt in Hfind.
Qed.

Lemma nth_map_seq {A} (f : nat -> A) (n i : nat) (d : A) :
  (i < n)%nat -> nth i (map f (seq 0 n)) d = f i.
Proof.
  intros Hi. rewrite nth_lookup, list_lookup_fmap, lookup_seq_lt by done. done.
Qed.

Section RecomputeRow.
Variables (n bi : nat) (basePV : JsNum.num) (baseB : list JsNum.num).
Let w : nat := (3 + 3 * n)%nat.

Lemma recomputeRow_before (ri : nat) (r : row) :
  (ri < bi)%nat ->
  let row := Ledger.recomputeRow w n bi basePV baseB ri r in
  cellAt row (Ledger.portPctCol n) = "N/A" /\
  forall i, (i < n)%nat ->
    cellAt row (Ledger.pctStartCol n + i) = "N/A" /\
    cellAt row (Ledger.diffStartCol n + i) = "N/A".
Proof.
  intros Hri. apply Nat.ltb_lt in Hri. cbv zeta.
  unfold Ledger.recomputeRow, Ledger.diffStartCol, Ledger.pctStartCol,
    Ledger.portPctCol.
  rewrite Hri.
  fold (writeCells (2 + n + 1) (Ledger.pctText ri bi baseB)
          (setAt (2 + n) "N/A" (normalizeRowWidth_ r w)) n).
  set (row2 := writeCells (2 + n + 1) _ _ n).
  set (pPort := Ledger.pctOf _ _).
  fold (writeCells (2 + n + 1 + n) (Ledger.diffText n ri bi pPort) row2 n).
  split.
  - rewrite cellAt_normalizeRowWidth_ by (subst w; lia).
    rewrite writeCells_outside by lia. subst row2.
    rewrite writeCells_outside by lia. apply cellAt_setAt_eq.
  - intros i Hi. split.
    + rewrite cellAt_normalizeRowWidth_ by (subst w; lia).
      rewrite writeCells_outside by lia. subst row2.
      apply (writeCells_inside _ _ _ (fun _ => "N/A")); [ | done].
      intros row k _ _. unfold Ledger.pctText. by rewrite Hri.
    + rewrite cellAt_normalizeRowWidth_ by (subst w; lia).
      apply (writeCells_inside _ _ _ (fun _ => "N/A")); [ | done].
      intros row k _ _. unfold Ledger.diffText. by rewrite Hri.
Qed.

Lemma recomputeRow_base (r : row) :
  Ledger.validBase basePV = true ->
  JsNum.parseFloat (cellAt r 1) = basePV ->
  (forall i, (i < n)%nat ->
     nth i baseB JsNum.NaN = JsNum.parseFloat (cellAt r (2 + i)) /\
     Ledger.validBase (JsNum.parseFloat (cellAt r (2 + i))) = true) ->
  let row := Ledger.recomputeRow w n bi basePV baseB bi r in
  cellAt row (Ledger.portPctCol n) = "0.0000" /\
  forall i, (i < n)%nat -> cellAt row (Ledger.pctStartCol n + i) = "0.0000".
Proof.
  intros Hpv Hr1 HB. cbv zeta.
  unfold Ledger.recomputeRow, Ledger.diffStartCol, Ledger.pctStartCol,
    Ledger.portPctCol.
  rewrite Nat.ltb_irrefl.
  rewrite (cellAt_normalizeRowWidth_ r w 1) by (subst w; lia).
  rewrite Hr1, (pctOf_base basePV Hpv).
  fold (writeCells (2 + n + 1) (Ledger.pctText bi bi baseB)
          (setAt (2 + n) "0.0000" (normalizeRowWidth_ r w)) n).
  set (row2 := writeCells (2 + n + 1) _ _ n).
  fold (writeCells (2 + n + 1 + n)
          (Ledger.diffText n bi bi (Ledger.pctOf basePV basePV)) row2 n).
  split.
  - rewrite cellAt_normalizeRowWidth_ by (subst w; lia).
    rewrite writeCells_outside by lia. subst row2.
    rewrite writeCells_outside by lia. apply cellAt_setAt_eq.
  - intros i Hi.
    rewrite cellAt_normalizeRowWidth_ by (subst w; lia).
    rewrite writeCells_outside by lia. subst row2.
    apply (writeCells_inside _ _ _ (fun _ => "0.0000")); [ | done].
    intros row k Hk Hrow. unfold Ledger.pctText.
    rewrite Nat.ltb_irrefl.
    rewrite Hrow by lia.
    rewrite cellAt_setAt_ne by lia.
    rewrite cellAt_normalizeRowWidth_ by (subst w; lia).
    destruct (HB k Hk) as [-> Hv]. by apply pctOf_base.
Qed.

End RecomputeRow.

Lemma lookup_app_add {A} (l1 l2 : list A) (i : nat) :
  (l1 ++ l2) !! (length l1 + i)%nat = l2 !! i.
Proof. rewrite lookup_app_r by lia. f_equal. lia. Qed.

Lemma lookup_fmap_prefix (p : string) (benches : list string) (i : nat) :
  (i < length benches)%nat ->
  default EmptyString (map (fun b => p +:+ b) benches !! i)
  = p +:+ nth i benches EmptyString.
Proof.
  intros Hi. rewrite list_lookup_fmap, (nth_lookup benches i EmptyString).
  destruct (benches !! i) eqn:E; [done | ].
  apply lookup_ge_None_1 in E. lia.
Qed.

Lemma header_cells (benches : list string) :
  let n := length benches in
  let h := Ledger.buildPerfLogHeader_ benches in
  cellAt h (Ledger.portPctCol n) = "PortfolioPct" /\
  forall i, (i < n)%nat ->
    cellAt h (Ledger.pctStartCol n + i) = "Pct_" +:+ nth i benches EmptyString /\
    cellAt h (Ledger.diffStartCol n + i) = "Diff_" +:+ nth i benches EmptyString.
Proof.
  cbv zeta. unfold Ledger.buildPerfLogHeader_, Ledger.diffStartCol,
    Ledger.pctStartCol, Ledger.portPctCol.
  set (h0 := ["Date"; "PortfolioValue"]).
  set (h1 := map (fun b => "Price_" +:+ b) benches).
  set (h2 := ["PortfolioPct"]).
  set (h3 := map (fun b => "Pct_" +:+ b) benches).
  assert (L1 : length h1 = length benches) by apply length_map.
  assert (L3 : length h3 = length benches) by apply length_map.
  split; [ | intros i Hi; split]; rewrite cellAt_lookup.
  - replace (2 + length benches)%nat with (length h0 + (length h1 + 0))%nat
      by (rewrite L1; simpl; lia).
    by rewrite !lookup_app_add.
  - replace (2 + length benches + 1 + i)%nat
      with (length h0 + (length h1 + (length h2 + i)))%nat
      by (rewrite L1; simpl; lia).
    rewrite !lookup_app_add, lookup_app_l by (rewrite L3; lia).
    by apply lookup_fmap_prefix.
  - replace (2 + length benches + 1 + length benches + i)%nat
      with (length h0 + (length h1 + (length h2 + (length h3 + i))))%nat
      by (rewrite L1, L3; simpl; lia).
    rewrite !lookup_app_add.
    by apply lookup_fmap_prefix.
Qed.

(** C3. When the base row of the performance ledger has a portfolio value
    that is not numeric or not positive, or a baseline price of the base
    row is not numeric or not positive, [upsertAndRecomputePerformanceLog_]
    throws, and the store is the one it started from: the ledger file is
    not written. *)
Theorem ledger_invalid_base_aborts (W : World) (s : Hist.Store)
    (dateStr : string) (portfolioVal : JsNum.num) (benches : list string)
    (benchPrices : list JsNum.num) (chartStartDate : string) :
  let data := Ledger.upsertRows W (Ledger.storedRows W s) dateStr portfolioVal
                benches benchPrices in
  let base := Ledger.baseRowOf (JsString.trim chartStartDate) data in
  (Ledger.invalidDenominator (JsNum.parseFloat (cellAt base 1)) \/
   exists i, (i < length benches)%nat /\
     Ledger.invalidDenominator (JsNum.parseFloat (cellAt base (2 + i)))) ->
  exists msg,
    Ledger.upsertAndRecomputePerformanceLog_ W dateStr portfolioVal benches
      benchPrices chartStartDate s = (Throw msg, s).
Proof.
  intros data base Hbad.
  unfold Ledger.upsertAndRecomputePerformanceLog_. eff_unfold.
  unfold Ledger.recompute. fold data. fold base.
  destruct data as [| r0 data'] eqn:Hdata; [eauto | ].
  rewrite <- Hdata. 
  destruct (Ledger.validBase (JsNum.parseFloat (cellAt base 1))) eqn:Hpv;
    simpl negb; cbv iota; [ | eauto].
  destruct Hbad as [Hbad | (i & Hi & Hbad)].
  - apply invalidDenominator_spec in Hbad. congruence.
  - apply invalidDenominator_spec in Hbad.
    assert (Hex : existsb (fun x => negb (Ledger.validBase x))
              (map (fun i => JsNum.parseFloat (cellAt base (2 + i)))
                 (seq 0 (length benches))) = true).
    { apply existsb_exists.
      exists (JsNum.parseFloat (cellAt base (2 + i))). split.
      - apply in_map_iff. exists i. split; [done | ].
        apply in_seq. lia.
      - by rewrite Hbad. }
    rewrite Hex. eauto.
Qed.

Lemma recompute_Ok (W : World) (rows : table) (dateStr : string)
    (pv : JsNum.num) (benches : list string) (prices : list JsNum.num)
    (chartStart : string) (r : Ledger.Recomputed) :
  Ledger.recompute W rows dateStr pv benches prices chartStart = Ok r ->
  let n := length benches in
  let data := Ledger.upsertRows W rows dateStr pv benches prices in
  let base := Ledger.baseRowOf chartStart data in
  let basePV := JsNum.parseFloat (cellAt base 1) in
  let baseB := map (fun i => JsNum.parseFloat (cellAt base (2 + i))) (seq 0 n) in
  Ledger.header r = Ledger.buildPerfLogHeader_ benches /\
  Ledger.baseIndex r = Ledger.baseIndexOf chartStart data /\
  Ledger.out r = Ledger.mapi
    (Ledger.recomputeRow (length (Ledger.buildPerfLogHeader_ benches)) n
       (Ledger.baseIndex r) basePV baseB) 0 data /\
  Ledger.validBase basePV = true /\
  forall i, (i < n)%nat ->
    Ledger.validBase (JsNum.parseFloat (cellAt base (2 + i))) = true.
Proof.
  intros Hrec. cbv zeta. unfold Ledger.recompute in Hrec.
  destruct (Ledger.upsertRows W rows dateStr pv benches prices)
    as [| r0 data'] eqn:Hdata; [discriminate | ].
  rewrite <- Hdata in *.
  destruct (Ledger.validBase _) eqn:Hpv; simpl negb in Hrec; cbv iota in Hrec;
    [ | discriminate].
  destruct (existsb _ _) eqn:Hex; [discriminate | ].
  injection Hrec as <-. cbn [Ledger.header Ledger.baseIndex Ledger.out].
  repeat split.
  intros i Hi.
  destruct (Ledger.validBase (JsNum.parseFloat (cellAt _ (2 + i)))) eqn:Hv;
    [done | ].
  assert (existsb (fun x => negb (Ledger.validBase x))
            (map (fun i => JsNum.parseFloat
                     (cellAt (Ledger.baseRowOf chartStart
                        (Ledger.upsertRows W rows dateStr pv benches prices))
                        (2 + i)))
               (seq 0 (length benches))) = true); [ | congruence].
  apply existsb_exists. eexists. split.
  - apply in_map_iff. exists i. split; [done | ]. apply in_seq. lia.
  - by rewrite Hv.
Qed.

(** C4. After a recomputation of the ledger that returns, the file holds
    the header and the recomputed rows; in the base row the cell
    PortfolioPct and every cell Pct_<baseline> hold the text 0.0000; in
    every row before the base row the cell PortfolioPct and every cell
    Pct_<baseline> and Diff_<baseline> hold the text N/A. *)
Theorem ledger_rebase_invariant (W : World) (s s' : Hist.Store)
    (dateStr : string) (portfolioVal : JsNum.num) (benches : list string)
    (benchPrices : list JsNum.num) (chartStartDate : string)
    (r : Ledger.Recomputed) :
  Ledger.upsertAndRecomputePerformanceLog_ W dateStr portfolioVal benches
    benchPrices chartStartDate s = (Ok r, s') ->
  let n := length benches in
  let baseRow := nth (Ledger.baseIndex r) (Ledger.out r) [] in
  (Hist.perfLogCsv s' =
     Hist.csvText (length (Ledger.header r)) (Ledger.header r :: Ledger.out r)
   /\ Ledger.header r = Ledger.buildPerfLogHeader_ benches
   /\ (Ledger.baseIndex r < length (Ledger.out r))%nat)
  /\ (cellAt (Ledger.header r) (Ledger.portPctCol n) = "PortfolioPct"
      /\ cellAt baseRow (Ledger.portPctCol n) = "0.0000")
  /\ (forall i, (i < n)%nat ->
        cellAt (Ledger.header r) (Ledger.pctStartCol n + i)
          = "Pct_" +:+ nth i benches EmptyString
        /\ cellAt (Ledger.header r) (Ledger.diffStartCol n + i)
          = "Diff_" +:+ nth i benches EmptyString
        /\ cellAt baseRow (Ledger.pctStartCol n + i) = "0.0000")
  /\ (forall ri, (ri < Ledger.baseIndex r)%nat ->
        let row := nth ri (Ledger.out r) [] in
        cellAt row (Ledger.portPctCol n) = "N/A"
        /\ forall i, (i < n)%nat ->
             cellAt row (Ledger.pctStartCol n + i) = "N/A"
             /\ cellAt row (Ledger.diffStartCol n + i) = "N/A").
Proof.
  intros Hrun. cbv zeta.
  unfold Ledger.upsertAndRecomputePerformanceLog_ in Hrun.
  eff_unfold_in Hrun.
  destruct (Ledger.recompute _ _ _ _ _ _ _) as [r' | msg] eqn:Hrec;
    [ | discriminate].
  injection Hrun as <- <-. simpl Hist.perfLogCsv.
  destruct (recompute_Ok _ _ _ _ _ _ _ _ Hrec) as (Hh & Hbi & Hout & Hpv & HB).
  rewrite length_buildPerfLogHeader_ in Hout.
  set (data := Ledger.upsertRows W (Ledger.storedRows W s) dateStr portfolioVal
                 benches benchPrices) in *.
  assert (Hlen : (Ledger.baseIndex r' < length data)%nat).
  { rewrite Hbi. apply baseIndexOf_lt, upsertRows_nonempty. }
  destruct (header_cells benches) as [Hhp Hhb]. rewrite <- Hh in Hhp, Hhb.
  assert (Hbase : nth (Ledger.baseIndex r') data []
                  = Ledger.baseRowOf (JsString.trim chartStartDate) data).
  { unfold Ledger.baseRowOf. by rewrite Hbi. }
  split; [ | split; [ | split]].
  - repeat split; [done | ]. by rewrite Hout, length_mapi.
  - split; [done | ]. rewrite Hout.
    rewrite (nth_mapi _ _ _ _ []) by done. simpl Nat.add. rewrite Hbase.
    apply recomputeRow_base; [done | done | ].
    intros i Hi. split; [ | by apply HB]. by apply (nth_map_seq (fun j => JsNum.parseFloat (cellAt _ (2 + j)))).
  - intros i Hi. destruct (Hhb i Hi) as [H1 H2]. repeat split; [done | done | ].
    rewrite Hout.
    rewrite (nth_mapi _ _ _ _ []) by done. simpl Nat.add. rewrite Hbase.
    apply recomputeRow_base; [done | done | | done].
    intros k Hk. split; [ | by apply HB]. by apply (nth_map_seq (fun j => JsNum.parseFloat (cellAt _ (2 + j)))).
  - intros ri Hri. rewrite Hout.
    rewrite (nth_mapi _ _ _ _ []) by lia. simpl Nat.add.
    by apply recomputeRow_before.
Qed.

(** *** Correlation *)

Lemma eqb_zero_inv (v : JsNum.num) :
  JsNum.eqb v JsNum.zero = true -> exists s, v = S754_zero s.
Proof.
  destruct v as [s | s | | s m e]; intros H; try (vm_compute in H; discriminate).
  - eauto.
  - destruct s; discriminate.
  - destruct s; discriminate.
Qed.

Lemma sqrt_mul_zero_l (s : bool) (v : JsNum.num) :
  let den := JsNum.sqrt (JsNum.mul (S754_zero s) v) in
  (exists s', den = S754_zero s') \/ den = JsNum.NaN.
Proof. destruct v as [s' | s' | | s' m e]; simpl; eauto. Qed.

Lemma sqrt_mul_zero_r (s : bool) (v : JsNum.num) :
  let den := JsNum.sqrt (JsNum.mul v (S754_zero s)) in
  (exists s', den = S754_zero s') \/ den = JsNum.NaN.
Proof. destruct v as [s' | s' | | s' m e]; simpl; eauto. Qed.

Lemma div_nan_r (v : JsNum.num) : JsNum.div v JsNum.NaN = JsNum.NaN.
Proof. by destruct v. Qed.

(** When the variance term of either series, or the denominator of the
    product-moment formula, is zero as [pearson_] computes it, [pearson_]
    returns NaN, which is not finite, and the correlation is reported as
    N/A. The only division [pearson_] makes is by a denominator that is
    not zero. *)
Theorem pearson_division_safe (C : Config) (x y : list JsNum.num) :
  let n := JsNum.ofNat (Nat.min (length x) (length y)) in
  let s := Analytics.sumsOf (combine x y) in
  JsNum.eqb (Analytics.varTermX n s) JsNum.zero = true \/
  JsNum.eqb (Analytics.varTermY n s) JsNum.zero = true \/
  JsNum.eqb (Analytics.pearsonDen n s) JsNum.zero = true ->
  (Analytics.pearson_ x y = JsNum.NaN \/
   JsNum.eqb (Analytics.pearsonDen n s) JsNum.zero = false /\
   Analytics.pearson_ x y
     = JsNum.div (Analytics.pearsonNum n s) (Analytics.pearsonDen n s)) /\
  Analytics.pearson_ x y = JsNum.NaN /\
  JsNum.isFinite (Analytics.pearson_ x y) = false /\
  Analytics.corrText C (Analytics.corrOf C x y) = "N/A".
Proof.
  intros n s Hzero.
  split.
  { unfold Analytics.pearson_.
    destruct (Nat.min (length x) (length y) <? 2)%nat; [by left | ].
    fold n. fold s.
    destruct (JsNum.eqb (Analytics.pearsonDen n s) JsNum.zero); [by left | ].
    by right. }
  assert (Hp : Analytics.pearson_ x y = JsNum.NaN).
  { unfold Analytics.pearson_.
    destruct (Nat.min (length x) (length y) <? 2)%nat; [done | ].
    fold n. fold s.
    assert (Hden : (exists s', Analytics.pearsonDen n s = S754_zero s')
                   \/ Analytics.pearsonDen n s = JsNum.NaN).
    { destruct Hzero as [Hx | [Hy | Hd]].
      - apply eqb_zero_inv in Hx as [sx Hx].
        unfold Analytics.pearsonDen. rewrite Hx. apply sqrt_mul_zero_l.
      - apply eqb_zero_inv in Hy as [sy Hy].
        unfold Analytics.pearsonDen. rewrite Hy. apply sqrt_mul_zero_r.
      - left. by apply eqb_zero_inv. }
    destruct Hden as [[s' ->] | ->].
    - done.
    - change (JsNum.eqb JsNum.NaN JsNum.zero) with false. cbv iota.
      apply div_nan_r. }
  split; [done | ]. split; [by rewrite Hp | ].
  unfold Analytics.corrOf. rewrite Hp.
  by destruct (_ <=? _)%nat.
Qed.

(** *** Objects with string keys *)

Lemma objKeys_objSet_In {V} (k k' : string) (v : V) (o : list (string * V)) :
  In k' (objKeys (objSet k v o)) <-> k' = k \/ In k' (objKeys o).
Proof.
  induction o as [| [k0 v0] o IH]; simpl; [intuition | ].
  destruct (String.eqb_spec k k0) as [-> | Hne]; simpl; [intuition | ].
  rewrite IH. intuition.
Qed.

Lemma objKeys_objSet_NoDup {V} (k : string) (v : V) (o : list (string * V)) :
  NoDup (objKeys o) -> NoDup (objKeys (objSet k v o)).
Proof.
  induction o as [| [k0 v0] o IH]; simpl; intros Hnd.
  - apply NoDup_singleton.
  - destruct (String.eqb_spec k k0) as [-> | Hne]; simpl; [done | ].
    apply NoDup_cons in Hnd as [Hnotin Hnd].
    apply NoDup_cons. split; [ | by apply IH].
    rewrite list_elem_of_In, objKeys_objSet_In.
    rewrite list_elem_of_In in Hnotin. intros [-> | Hin]; done.
Qed.

Lemma objGet_is_Some {V} (k : string) (o : list (string * V)) :
  is_Some (objGet k o) <-> In k (objKeys o).
Proof.
  induction o as [| [k0 v0] o IH]; simpl.
  - split; [by intros [? ?] | done].
  - destruct (String.eqb_spec k k0) as [-> | Hne].
    + split; [by left | by eexists].
    + rewrite IH. intuition congruence.
Qed.

Lemma length_objKeys {V} (o : list (string * V)) :
  length (objKeys o) = length o.
Proof. apply length_map. Qed.

(** *** Alpha *)

Lemma buildSeries_NoDup (col : Hist.ColumnMap) (T B startStr : string)
    (rows : table) :
  NoDup (objKeys (fst (Analytics.buildSeries col T B startStr rows))) /\
  NoDup (objKeys (snd (Analytics.buildSeries col T B startStr rows))).
Proof.
  unfold Analytics.buildSeries.
  assert (Hgen : forall acc : list (string * JsNum.num) * list (string * JsNum.num),
    NoDup (objKeys (fst acc)) /\ NoDup (objKeys (snd acc)) ->
    let res := fold_left
      (fun '(tMap, bMap) r =>
         let d := Analytics.cellText r (Hist.date col) in
         if JsString.lt d startStr then (tMap, bMap)
         else
           let sym := Hist.normTicker (Analytics.cellText r (Hist.ticker col)) in
           let px := JsNum.parseFloat (Analytics.cellText r (Hist.price col)) in
           if negb (JsNum.isFinite px) then (tMap, bMap)
           else
             (if String.eqb sym T then objSet d px tMap else tMap,
              if String.eqb sym B then objSet d px bMap else bMap))
      rows acc in
    NoDup (objKeys (fst res)) /\ NoDup (objKeys (snd res))).
  { induction rows as [| r rows IH]; intros [tMap bMap] Hacc; [done | ].
    simpl fold_left. apply IH.
    destruct (JsString.lt _ _); [done | ].
    destruct (negb _); [done | ].
    destruct Hacc as [Ht Hb]. simpl in Ht, Hb. simpl.
    split; destruct (String.eqb _ _); auto using objKeys_objSet_NoDup. }
  apply Hgen. simpl. split; constructor.
Qed.

Lemma intersect_elem {V} (m1 m2 : list (string * V)) (k : string) :
  In k (Analytics.intersectSortedKeys_ m1 m2) <->
  In k (objKeys m1) /\ In k (objKeys m2).
Proof.
  unfold Analytics.intersectSortedKeys_.
  rewrite (Permutation_in' (eq_refl k) (sortBy_Permutation _ _)).
  rewrite filter_In, bool_decide_eq_true, objGet_is_Some. done.
Qed.

Lemma intersect_length {V} (m1 m2 : list (string * V)) :
  NoDup (objKeys m1) ->
  (length (Analytics.intersectSortedKeys_ m1 m2) <= length m1)%nat /\
  (length (Analytics.intersectSortedKeys_ m1 m2) <= length m2)%nat.
Proof.
  intros Hnd. unfold Analytics.intersectSortedKeys_.
  rewrite length_sortBy. split.
  - rewrite <- (length_objKeys m1). apply List.filter_length_le.
  - rewrite <- (length_objKeys m2).
    apply List.NoDup_incl_length.
    + apply List.NoDup_filter. by apply NoDup_ListNoDup.
    + intros k Hk. apply filter_In in Hk as [_ Hk].
      by apply bool_decide_eq_true, objGet_is_Some in Hk.
Qed.

Lemma objGet_of_In {V} (k : string) (o : list (string * V)) :
  In k (objKeys o) -> exists v, objGet k o = Some v.
Proof. intros H. by apply objGet_is_Some in H. Qed.

Lemma isYMD_truthy (s : string) : JsDate.isYMD s = true -> JsString.truthy s = true.
Proof. by destruct s. Qed.

(** *** The aligned window is ascending *)

Lemma dateLe_cases (a b : string) :
  dateLe a b <-> a = b \/ String_as_OT.lt a b.
Proof.
  unfold dateLe. destruct (String.compare a b) eqn:Hc.
  - apply String_as_OT.cmp_eq in Hc. intuition congruence.
  - apply String_as_OT.cmp_lt in Hc. intuition congruence.
  - split; [done | ]. intros [-> | Hlt].
    + assert (String.compare b b = Eq) by by apply String_as_OT.cmp_eq.
      congruence.
    + apply String_as_OT.cmp_lt in Hlt. unfold String_as_OT.cmp in Hlt.
      congruence.
Qed.

Lemma dateLe_trans (a b c : string) : dateLe a b -> dateLe b c -> dateLe a c.
Proof.
  rewrite !dateLe_cases. intros [-> | H1] [-> | H2]; auto.
  right. by eapply String_as_OT.lt_trans.
Qed.

Lemma dateLe_total (a b : string) : String.compare a b = Gt -> dateLe b a.
Proof.
  intros Hc. unfold dateLe. rewrite String.compare_antisym, Hc. done.
Qed.

Lemma insertSorted_sorted (x : string) (l : list string) :
  StronglySorted dateLe l ->
  StronglySorted dateLe (insertSorted String.compare x l).
Proof.
  induction 1 as [| y l Hs IH Hall]; simpl.
  - repeat constructor.
  - destruct (String.compare x y) eqn:Hc.
    + constructor; [by constructor | ].
      assert (Hxy : dateLe x y) by (unfold dateLe; congruence).
      constructor; [done | ].
      eapply List.Forall_impl; [ | exact Hall].
      intros z Hz. by eapply dateLe_trans.
    + constructor; [by constructor | ].
      assert (Hxy : dateLe x y) by (unfold dateLe; congruence).
      constructor; [done | ].
      eapply List.Forall_impl; [ | exact Hall].
      intros z Hz. by eapply dateLe_trans.
    + constructor; [done | ].
      apply List.Forall_forall. intros z Hz.
      apply (Permutation_in _ (insertSorted_Permutation _ _ _)) in Hz.
      destruct Hz as [<- | Hz]; [by apply dateLe_total | ].
      by eapply List.Forall_forall in Hall.
Qed.

Lemma sortBy_sorted (l : list string) :
  StronglySorted dateLe (sortBy String.compare l).
Proof.
  induction l as [| x l IH]; simpl; [constructor | ].
  by apply insertSorted_sorted.
Qed.

Lemma last_cons {A} (r : A) (rest : list A) (d : A) :
  List.last (r :: rest) d = List.last rest r.
Proof.
  revert r d. induction rest as [| x rest IH]; intros r d; [done | ].
  change (List.last (r :: x :: rest) d) with (List.last (x :: rest) d).
  by rewrite (IH x d), (IH x r).
Qed.

Lemma sorted_first_last (d0 : string) (rest : list string) (k : string) :
  StronglySorted dateLe (d0 :: rest) -> In k (d0 :: rest) ->
  dateLe d0 k /\ dateLe k (List.last rest d0).
Proof.
  intros Hs Hk. split.
  - apply StronglySorted_inv in Hs as [_ Hall].
    destruct Hk as [<- | Hk].
    + apply dateLe_cases. by left.
    + by eapply List.Forall_forall in Hall.
  - revert d0 k Hs Hk. induction rest as [| r rest IH]; intros d0 k Hs Hk.
    + destruct Hk as [<- | []]. simpl. apply dateLe_cases. by left.
    + apply StronglySorted_inv in Hs as [Hs Hall].
      rewrite last_cons.
      destruct Hk as [<- | Hk]; [ | by apply IH].
      eapply dateLe_trans; [ | apply (IH r r Hs); by left].
      eapply List.Forall_forall in Hall; [exact Hall | by left].
Qed.

Lemma intersect_sorted {V} (m1 m2 : list (string * V)) :
  StronglySorted dateLe (Analytics.intersectSortedKeys_ m1 m2).
Proof. apply sortBy_sorted. Qed.

Lemma buildSeries_from_start (col : Hist.ColumnMap) (T B startStr : string)
    (rows : table) (k : string) :
  In k (objKeys (fst (Analytics.buildSeries col T B startStr rows))) ->
  JsString.lt k startStr = false.
Proof.
  unfold Analytics.buildSeries.
  set (P := fun m : list (string * JsNum.num) =>
              forall k, In k (objKeys m) -> JsString.lt k startStr = false).
  assert (Hgen : forall acc : list (string * JsNum.num) * list (string * JsNum.num),
    P (fst acc) ->
    P (fst (fold_left
      (fun '(tMap, bMap) r =>
         let d := Analytics.cellText r (Hist.date col) in
         if JsString.lt d startStr then (tMap, bMap)
         else
           let sym := Hist.normTicker (Analytics.cellText r (Hist.ticker col)) in
           let px := JsNum.parseFloat (Analytics.cellText r (Hist.price col)) in
           if negb (JsNum.isFinite px) then (tMap, bMap)
           else
             (if String.eqb sym T then objSet d px tMap else tMap,
              if String.eqb sym B then objSet d px bMap else bMap))
      rows acc))).
  { induction rows as [| r rows IH]; intros [tMap bMap] Hacc; [done | ].
    simpl fold_left. apply IH.
    destruct (JsString.lt _ _) eqn:Hlt; [done | ].
    destruct (negb _); [done | ]. simpl in *.
    destruct (String.eqb _ _); [ | done].
    intros k' [-> | Hk']%objKeys_objSet_In; [done | by apply Hacc]. }
  intros Hk. by apply (Hgen ([], [])); [intros k' [] | ].
Qed.

(** C8. When the dates that the ticker and the baseline share from the
    start date on, in ascending order, are at least two, every one of them
    is on or after the start date, and alpha is
    (tN / t0 - 1) - (bN / b0 - 1), with t0, tN the prices of the ticker and
    b0, bN those of the baseline on the first and the last shared date; each
    return is taken over its own series. With the prices 100, 110, 121 of
    the ticker and 50, 55, 55 of the baseline on three days from the start
    date, the binary64 value of alpha is within 1e-15 of 0.11, prints as
    0.110000000000000 to fifteen decimals, and is reported as 11.0%. *)
Theorem alpha_is_return_difference (C : Config) (rows : table)
    (col : Hist.ColumnMap) (ticker bench startStr d0 : string)
    (rest : list string) :
  let T := Hist.normTicker ticker in
  let B := Hist.normTicker bench in
  let tMap := fst (Analytics.buildSeries col T B startStr rows) in
  let bMap := snd (Analytics.buildSeries col T B startStr rows) in
  let dN := List.last rest d0 in
  JsDate.isYMD startStr = true ->
  Analytics.intersectSortedKeys_ tMap bMap = d0 :: rest ->
  rest <> [] ->
  (forall k, In k (d0 :: rest) ->
     JsString.lt k startStr = false /\ dateLe d0 k /\ dateLe k dN) /\
  (exists t0 tN b0 bN,
     (objGet d0 tMap = Some t0 /\ objGet dN tMap = Some tN /\
      objGet d0 bMap = Some b0 /\ objGet dN bMap = Some bN) /\
     Analytics.alphaOf tMap bMap d0 dN
       = JsNum.sub (JsNum.sub (JsNum.div tN t0) JsNum.one)
                   (JsNum.sub (JsNum.div bN b0) JsNum.one) /\
     exists corr,
       Analytics.calculateAlphaAndCorrVsBenchmark_ C rows col ticker bench
         startStr
       = Analytics.Computed B startStr d0 dN
           (Analytics.alphaText (Analytics.alphaOf tMap bMap d0 dN)) corr)
  /\
  (let tS := fst (Analytics.buildSeries scCol "NEWT" "VTI" "2025-01-01" scRows) in
   let bS := snd (Analytics.buildSeries scCol "NEWT" "VTI" "2025-01-01" scRows) in
   let alpha := Analytics.alphaOf tS bS "2025-01-01" "2025-01-03" in
   Analytics.intersectSortedKeys_ tS bS
     = ["2025-01-01"; "2025-01-02"; "2025-01-03"] /\
   map (fun d => JsNum.toQ (Analytics.mapGet tS d))
     ["2025-01-01"; "2025-01-02"; "2025-01-03"] = [100; 110; 121]%Q /\
   map (fun d => JsNum.toQ (Analytics.mapGet bS d))
     ["2025-01-01"; "2025-01-02"; "2025-01-03"] = [50; 55; 55]%Q /\
   (Qabs (JsNum.toQ alpha - (11 # 100)) < (1 # 1000000000000000))%Q /\
   JsNum.toFixed alpha 15 = "0.110000000000000" /\
   Analytics.calculateAlphaAndCorrVsBenchmark_ scCfg scRows scCol "NEWT" "VTI"
     "2025-01-01"
   = Analytics.Computed "VTI" "2025-01-01" "2025-01-01" "2025-01-03"
       (Analytics.green +:+ " 11.0%") "N/A").
Proof.
  intros T B tMap bMap dN Hstart Hdates Hrest.
  split; [ | split].
  - intros k Hk. split.
    + rewrite <- Hdates in Hk. apply intersect_elem in Hk as [Hk _].
      by eapply buildSeries_from_start.
    + apply sorted_first_last; [ | done]. rewrite <- Hdates.
      apply intersect_sorted.
  - assert (Hin : forall k, In k (d0 :: rest) ->
              In k (objKeys tMap) /\ In k (objKeys bMap)).
    { intros k Hk. rewrite <- Hdates in Hk. by apply intersect_elem in Hk. }
    assert (HdN : In dN (d0 :: rest)).
    { right. subst dN. destruct rest as [| r1 rest']; [done | ].
      apply (exists_last (l := r1 :: rest')) in Hrest as (l' & a & Heq).
      rewrite Heq, last_last. apply in_or_app. right. by left. } 
    destruct (Hin d0 (or_introl eq_refl)) as [Ht0 Hb0].
    destruct (Hin dN HdN) as [HtN HbN].
    apply objGet_of_In in Ht0 as [t0 Ht0], Hb0 as [b0 Hb0],
      HtN as [tN HtN], HbN as [bN HbN].
    exists t0, tN, b0, bN. split; [done | ]. split.
    + unfold Analytics.alphaOf, Analytics.totalReturn, Analytics.mapGet.
      by rewrite Ht0, HtN, Hb0, HbN.
    + unfold Analytics.calculateAlphaAndCorrVsBenchmark_.
      fold T. fold B.
      rewrite Hstart, (isYMD_truthy _ Hstart). simpl orb. cbv iota.
      destruct (buildSeries_NoDup col T B startStr rows) as [Hnd _].
      destruct (intersect_length tMap bMap Hnd) as [Hl1 Hl2].
      rewrite Hdates in Hl1, Hl2.
      subst tMap bMap.
      destruct (Analytics.buildSeries col T B startStr rows) as [tM bM].
      simpl fst in *. simpl snd in *.
      destruct rest as [| r1 rest']; [done | ]. simpl length in Hl1, Hl2.
      destruct (Nat.ltb_spec (length tM) 2); [lia | ].
      destruct (Nat.ltb_spec (length bM) 2); [lia | ].
      simpl orb. cbv iota. rewrite Hdates.
      destruct (Analytics.pairedReturns tM bM d0 (r1 :: rest')) as [x y].
      eauto.
  - cbv zeta. repeat split; try (vm_compute; reflexivity).
Qed.

(** *** The columns of the historical table *)

Lemma findIndex_Some {A} (p : A -> bool) (l : list A) (i : nat) :
  findIndex p l = Some i -> exists x, l !! i = Some x /\ p x = true.
Proof.
  revert i. induction l as [| a l IH]; intros i; simpl; [discriminate | ].
  destruct (p a) eqn:Hp.
  - intros [= <-]. eauto.
  - destruct (findIndex p l) as [k |]; simpl; [ | discriminate].
    intros [= <-]. by apply IH.
Qed.

Lemma indexOf_Some (x : string) (l : list string) (i : nat) :
  indexOf x l = Some i -> l !! i = Some x.
Proof.
  intros (y & Hy & Heq)%findIndex_Some. by apply String.eqb_eq in Heq as <-.
Qed.

Lemma buildColumnMap_distinct (header : row) (col : Hist.ColumnMap) :
  Hist.buildColumnMap_ header = Ok col ->
  Hist.date col <> Hist.ticker col /\
  Hist.date col <> Hist.price col /\
  Hist.ticker col <> Hist.price col.
Proof.
  unfold Hist.buildColumnMap_.
  set (h := map _ header).
  destruct (indexOf "date" h) as [d |] eqn:Hd; [ | discriminate].
  destruct (indexOf "ticker" h) as [t |] eqn:Ht; [ | discriminate].
  apply indexOf_Some in Hd, Ht.
  set (pi := match indexOf "adjclose" h with Some i => Some i | None => _ end).
  assert (Hp : forall p, pi = Some p -> exists x, h !! p = Some x /\ priceLike x = true).
  { intros p. subst pi.
    destruct (indexOf "adjclose" h) as [i |] eqn:H1.
    - intros [= <-]. apply indexOf_Some in H1. eauto.
    - destruct (indexOf "close" h) as [i |] eqn:H2.
      + intros [= <-]. apply indexOf_Some in H2. eauto.
      + intros H3. by apply findIndex_Some in H3. }
  destruct pi as [p |]; [ | discriminate].
  destruct (Hp p eq_refl) as (x & Hx & Hlike).
  intros [= <-]. simpl.
  repeat split; intros Heq; subst.
  - rewrite Hd in Ht. discriminate.
  - rewrite Hd in Hx. injection Hx as <-. discriminate.
  - rewrite Ht in Hx. injection Hx as <-. discriminate.
Qed.

Lemma priceRow_cells (col : Hist.ColumnMap) (d t : string) (px : JsNum.num) :
  Hist.date col <> Hist.ticker col ->
  Hist.date col <> Hist.price col ->
  Hist.ticker col <> Hist.price col ->
  cellAt (Hist.priceRow col d t px) (Hist.date col) = d /\
  cellAt (Hist.priceRow col d t px) (Hist.ticker col) = t.
Proof.
  intros H1 H2 H3. unfold Hist.priceRow. split.
  - rewrite !cellAt_setAt_ne by done. apply cellAt_setAt_eq.
  - rewrite cellAt_setAt_ne by done. apply cellAt_setAt_eq.
Qed.

(** *** Entries of the map *)

Lemma objSet_In {V} (k : string) (v : V) (o : list (string * V)) (e : string * V) :
  In e (objSet k v o) -> e = (k, v) \/ In e o.
Proof.
  induction o as [| [k0 v0] o IH]; simpl; [intuition | ].
  destruct (String.eqb k k0); simpl; intuition.
Qed.

Lemma memStr_In (x : string) (l : list string) : memStr x l = true <-> In x l.
Proof.
  unfold memStr. rewrite existsb_exists. split.
  - intros (y & Hy & ->%String.eqb_eq). done.
  - intros H. exists x. by rewrite String.eqb_refl.
Qed.

Lemma setAdd_In (x y : string) (l : list string) :
  In y (setAdd x l) <-> y = x \/ In y l.
Proof.
  unfold setAdd. destruct (memStr x l) eqn:Hm.
  - apply memStr_In in Hm. split; [auto | ]. by intros [-> | ?].
  - rewrite in_app_iff. simpl. intuition.
Qed.

Lemma setOfList_In (y : string) (l : list string) :
  In y (setOfList l) <-> In y l.
Proof.
  unfold setOfList.
  assert (H : forall acc, In y (fold_left (fun acc x => setAdd x acc) l acc)
                          <-> In y acc \/ In y l).
  { induction l as [| x l IH]; intros acc; simpl; [intuition | ].
    rewrite IH, setAdd_In. intuition. }
  rewrite H. simpl. intuition.
Qed.

(** *** One iteration of the backfill loop *)

Section Step.
Variables (C : Config) (W : World) (today requiredStart : string)
  (startTime : Z) (col : Hist.ColumnMap) (bounds : gmap string Hist.Bounds).

Let step := Hist.backfillStep C W today requiredStart startTime col bounds.

Local Abbreviation StepResult :=
  (StepResult C W today requiredStart startTime col bounds).
Local Abbreviation chunkStartOf := (chunkStartOf requiredStart).

Lemma backfillStep_result (i : nat) (t : string) (st : Hist.Loop) :
  StepResult i t st (fst (step i t st)) (snd (step i t st)).
Proof.
  subst step. unfold Hist.backfillStep.
  destruct (Z.gtb_spec (now W i - startTime) (RUNTIME_BUDGET_MS C)) as [Hb | Hb].
  { unfold modifyState. simpl. by apply step_unfinished. }
  destruct (Hist.needsYearOf _ _) eqn:Hneeds; cbn beta iota delta [negb].
  2: { unfold mret, eff_ret. simpl. by apply step_covered. }
  eff_unfold. unfold orInvalidDate. cbn beta iota delta [negb].
  destruct (Hist.chunkEndOf _ _ _) as [chunkEnd |] eqn:Hend.
  2: { simpl. by apply step_no_end. }
  destruct (JsString.lt chunkEnd requiredStart) eqn:Hlt.
  { simpl. by eapply step_complete. }
  destruct (JsDate.addDaysYMD_ chunkEnd _) as [tentativeStart |] eqn:Hts.
  2: { simpl. by eapply step_no_start. }
  fold (chunkStartOf tentativeStart).
  destruct (Hist.ingestBackfillChunk_ _ _ _ _ _ _ _ _) as [m' k] eqn:Hing.
  destruct (JsDate.addDaysYMD_ (chunkStartOf tentativeStart) (-1))
    as [nextEnd |] eqn:Hne.
  - simpl.
    pose proof (step_fetch C W today requiredStart startTime col bounds
                  i t st chunkEnd tentativeStart nextEnd
                  Hb Hneeds Hend Hlt Hts Hne) as H.
    unfold afterFetch, nextCursor in H. rewrite Hing in H. simpl in H.
    by destruct (JsString.ge nextEnd requiredStart).
  - simpl.
    pose proof (step_no_next C W today requiredStart startTime col
                  bounds i t st chunkEnd tentativeStart
                  Hb Hneeds Hend Hlt Hts Hne) as H.
    unfold afterFetch in H. by rewrite Hing in H.
Qed.

Lemma backfillStep_inv (i : nat) (t : string) (st st' : Hist.Loop)
    (r : result unit) :
  step i t st = (r, st') -> StepResult i t st r st'.
Proof.
  intros H. pose proof (backfillStep_result i t st) as Hres.
  by rewrite H in Hres.
Qed.

End Step.

(** *** The loop *)

Lemma backfillLoop_cons (step : nat -> string -> Eff Hist.Loop unit)
    (i : nat) (t : string) (ts : list string) (st : Hist.Loop) :
  Hist.backfillLoop step i (t :: ts) st =
  match step i t st with
  | (Ok _, st1) => Hist.backfillLoop step (S i) ts st1
  | (Throw msg, st1) => (Throw msg, st1)
  end.
Proof. reflexivity. Qed.

Lemma backfillLoop_invariant (step : nat -> string -> Eff Hist.Loop unit)
    (P : Hist.Loop -> Prop) (ts : list string) :
  (forall i t st r st', In t ts -> P st -> step i t st = (r, st') -> P st') ->
  forall i st r st',
    P st -> Hist.backfillLoop step i ts st = (r, st') -> P st'.
Proof.
  induction ts as [| t ts IH]; intros Hstep i st r st' HP Hloop.
  - by injection Hloop as <- <-.
  - rewrite backfillLoop_cons in Hloop.
    destruct (step i t st) as [[[] | msg] st1] eqn:Hs.
    + eapply IH; [ | | exact Hloop].
      * intros j u s1 r1 s1' Hu. apply Hstep. by right.
      * eapply Hstep; [by left | exact HP | exact Hs].
    + injection Hloop as <- <-.
      eapply Hstep; [by left | exact HP | exact Hs].
Qed.

Lemma cursorKey_inj (t t' : string) :
  Hist.cursorKey t = Hist.cursorKey t' -> t = t'.
Proof. unfold Hist.cursorKey. simpl. intros H. by injection H. Qed.

Section StepFacts.
Variables (C : Config) (W : World) (today requiredStart : string)
  (startTime : Z) (col : Hist.ColumnMap) (bounds : gmap string Hist.Bounds).

Let step := Hist.backfillStep C W today requiredStart startTime col bounds.

Lemma step_unfinished_mono (i : nat) (t x : string) (st st' : Hist.Loop)
    (r : result unit) :
  step i t st = (r, st') ->
  In x (Hist.unfinished st) -> In x (Hist.unfinished st').
Proof.
  intros Hs%backfillStep_inv Hx.
  destruct Hs; simpl; try done. apply setAdd_In. by right.
Qed.

Lemma step_unfinished_add (i : nat) (t : string) (st st' : Hist.Loop)
    (r : result unit) :
  step i t st = (r, st') ->
  RUNTIME_BUDGET_MS C < now W i - startTime ->
  In t (Hist.unfinished st').
Proof.
  intros Hs%backfillStep_inv Hb.
  destruct Hs; try lia. simpl. apply setAdd_In. by left.
Qed.

Lemma step_props_frame (i : nat) (t : string) (st st' : Hist.Loop)
    (r : result unit) (k : string) :
  step i t st = (r, st') -> k <> Hist.cursorKey t ->
  Hist.props st' !! k = Hist.props st !! k.
Proof.
  intros Hs%backfillStep_inv Hk.
  destruct Hs; simpl; try done.
  - by rewrite lookup_delete_ne.
  - unfold nextCursor. destruct (JsString.ge _ _).
    + by rewrite lookup_insert_ne.
    + by rewrite lookup_delete_ne.
Qed.

Lemma step_requests (i : nat) (t : string) (st st' : Hist.Loop)
    (r : result unit) (q : string * string * string) :
  step i t st = (r, st') ->
  In q (Hist.requests st') -> In q (Hist.requests st) \/ q.1.1 = t.
Proof.
  intros Hs%backfillStep_inv Hq.
  destruct Hs; simpl in *; auto;
    apply in_app_iff in Hq as [Hq | [<- | []]]; auto.
Qed.

Lemma loop_unfinished (ts : list string) (i0 : nat) (st st' : Hist.Loop) :
  Hist.backfillLoop step i0 ts st = (Ok tt, st') ->
  forall (k : nat) (t : string),
    ts !! k = Some t ->
    RUNTIME_BUDGET_MS C < now W (i0 + k) - startTime ->
    In t (Hist.unfinished st').
Proof.
  revert i0 st. induction ts as [| u ts IH]; intros i0 st Hloop k t Hk Hb;
    [done | ].
  rewrite backfillLoop_cons in Hloop.
  destruct (step i0 u st) as [[[] | msg] st1] eqn:Hs; [ | discriminate].
  destruct k as [| k]; simpl in Hk.
  - injection Hk as ->. rewrite Nat.add_0_r in Hb.
    eapply (backfillLoop_invariant step (fun s => In t (Hist.unfinished s)));
      [ | | exact Hloop].
    + intros j v s1 r1 s1' _ Hin Hstep. by eapply step_unfinished_mono.
    + by eapply step_unfinished_add.
  - eapply (IH (S i0)); [exact Hloop | exact Hk | ].
    by replace (S i0 + k)%nat with (i0 + S k)%nat by lia.
Qed.

Lemma loop_props_frame (ts : list string) (i0 : nat) (st st' : Hist.Loop)
    (r : result unit) (k : string) :
  Hist.backfillLoop step i0 ts st = (r, st') ->
  (forall t, In t ts -> k <> Hist.cursorKey t) ->
  Hist.props st' !! k = Hist.props st !! k.
Proof.
  intros Hloop Hk.
  eapply (backfillLoop_invariant step
            (fun s => Hist.props s !! k = Hist.props st !! k));
    [ | | exact Hloop]; [ | done].
  intros j v s1 r1 s1' Hv Heq Hstep. rewrite <- Heq.
  eapply step_props_frame; [exact Hstep | by apply Hk].
Qed.

Lemma loop_requests (ts : list string) (i0 : nat) (st st' : Hist.Loop)
    (r : result unit) (q : string * string * string) :
  Hist.backfillLoop step i0 ts st = (r, st') ->
  In q (Hist.requests st') -> In q (Hist.requests st) \/ In q.1.1 ts.
Proof.
  revert i0 st. induction ts as [| u ts IH]; intros i0 st Hloop Hq.
  - injection Hloop as <- <-. by left.
  - rewrite backfillLoop_cons in Hloop.
    destruct (step i0 u st) as [[[] | msg] st1] eqn:Hs.
    + destruct (IH _ _ Hloop Hq) as [Hq1 | Hq1]; [ | right; by right].
      destruct (step_requests _ _ _ _ _ _ Hs Hq1) as [? | <-]; [by left | ].
      right. by left.
    + injection Hloop as <- <-.
      destruct (step_requests _ _ _ _ _ _ Hs Hq) as [? | <-]; [by left | ].
      right. by left.
Qed.

End StepFacts.

(** *** A completed invocation *)

Lemma updateHistDatabase_inv (C : Config) (W : World) (today : string)
    (requiredTickers policyRequiredSet : list string) (startTime : Z)
    (s s' : Hist.Store) (sync : Hist.Sync) :
  Hist.updateHistDatabase_ C W today requiredTickers policyRequiredSet
    startTime s = (Ok sync, s') ->
  exists L requiredStart st livePrices,
    Hist.loadHist W requiredTickers (Hist.histCsv s) = Ok L /\
    JsDate.addDaysYMD_ today (- MIN_BACKFILL_DAYS C) = Some requiredStart /\
    loopOf C W today requiredStart requiredTickers startTime L
      (Hist.scriptProps s) = (Ok tt, st) /\
    Hist.getBatchPricesScratch_ W requiredTickers = Ok livePrices /\
    sync = {| Hist.purgedTickers := Hist.purged L;
              Hist.unfinishedTickers := Hist.unfinished st;
              Hist.emitted :=
                Hist.finalRowsOf W (Hist.columns L)
                  (Hist.mergeLive (Hist.columns L) today livePrices
                     requiredTickers (Hist.store st));
              Hist.fetched := Hist.requests st |} /\
    Hist.scriptProps s' = Hist.props st /\
    Hist.perfLogCsv s' = Hist.perfLogCsv s /\
    Hist.histCsv s' =
      Hist.csvText (Hist.width (Hist.columns L))
        (Hist.header L :: Hist.emitted sync).
Proof.
  unfold Hist.updateHistDatabase_. eff_unfold. unfold Hist.runLoop, orInvalidDate.
  cbn beta iota.
  destruct (Hist.loadHist W requiredTickers (Hist.histCsv s)) as [L | msg]
    eqn:Hload; [ | discriminate].
  destruct (JsDate.addDaysYMD_ today _) as [requiredStart |] eqn:Hrs;
    [ | discriminate].
  cbn [Hist.scriptProps Hist.withProps].
  fold (loopOf C W today requiredStart requiredTickers startTime L
          (Hist.scriptProps s)).
  destruct (loopOf _ _ _ _ _ _ _ _) as [[[] | msg] st] eqn:Hloop;
    [ | discriminate].
  destruct (Hist.getBatchPricesScratch_ W requiredTickers) as [live | msg]
    eqn:Hlive; [ | discriminate].
  intros [= <- <-].
  exists L, requiredStart, st, live. repeat split; done.
Qed.

(** C10. With a clock that does not run backwards, once the elapsed time at
    the ticker of index [i] exceeds the budget, every required ticker of
    index [i] or more is in the unfinished set of the invocation, whatever
    its coverage: the budget is tested before the need for history. *)
Theorem budget_exhausted_marks_all_unfinished (C : Config) (W : World)
    (today : string) (requiredTickers policyRequiredSet : list string)
    (startTime : Z) (s s' : Hist.Store) (sync : Hist.Sync) (i : nat) :
  Hist.updateHistDatabase_ C W today requiredTickers policyRequiredSet
    startTime s = (Ok sync, s') ->
  (forall j k, (j <= k)%nat -> now W j <= now W k) ->
  now W i - startTime > RUNTIME_BUDGET_MS C ->
  forall (j : nat) (t : string),
    (i <= j)%nat -> requiredTickers !! j = Some t ->
    In t (Hist.unfinishedTickers sync).
Proof.
  intros Hrun Hclock Hi j t Hij Ht.
  apply updateHistDatabase_inv in Hrun
    as (L & requiredStart & st & live & _ & _ & Hloop & _ & -> & _).
  simpl. unfold loopOf in Hloop.
  eapply loop_unfinished; [exact Hloop | exact Ht | ].
  simpl. specialize (Hclock i j Hij). lia.
Qed.

(** *** The map of price rows *)

Section Entries.
Variables (col : Hist.ColumnMap) (D : string -> Prop)
  (Q : string * row -> Prop).

Lemma objSet_Forall (k : string) (r : row) (m : list (string * row)) :
  List.Forall Q m -> Q (k, r) -> List.Forall Q (objSet k r m).
Proof.
  intros Hall Hq. apply List.Forall_forall.
  intros e [-> | He]%objSet_In; [done | ].
  by eapply List.Forall_forall in Hall.
Qed.

Lemma loadMap_Forall (rows : table) :
  (forall r, In r rows ->
     JsString.truthy (tickerOf col r) = true ->
     Q (Hist.mapKey (dateOf col r) (tickerOf col r), r)) ->
  List.Forall Q (Hist.loadMap col rows).
Proof.
  unfold Hist.loadMap. intros Hrows.
  assert (Hm0 : List.Forall Q (@nil (string * row))) by constructor.
  revert Hm0. generalize (@nil (string * row)) as m.
  induction rows as [| r rows IH]; intros m Hm; [done | ].
  simpl fold_left. apply IH; [intros r' Hr'; apply Hrows; by right | ].
  destruct (JsString.truthy (JsString.trim _)); simpl; [ | done].
  destruct (JsString.truthy (Hist.normTicker _)) eqn:Ht; simpl; [ | done].
  apply objSet_Forall; [done | ]. apply Hrows; [by left | done].
Qed.

Lemma ingest_Forall (W : World)
    (t chunkStart chunkEnd requiredStart today : string)
    (m : list (string * row)) :
  (forall n, D (JsDate.formatYMD n)) ->
  (forall e, ownEntry col D t e -> Q e) ->
  List.Forall Q m ->
  List.Forall Q
    (fst (Hist.ingestBackfillChunk_ W t chunkStart chunkEnd requiredStart
            today m col)).
Proof.
  intros HD Hown Hm. unfold Hist.ingestBackfillChunk_.
  destruct (_ <? 2)%nat; [done | ].
  generalize (tl (googleFinanceRange W t chunkStart chunkEnd)) as vs.
  generalize O as k. intros k vs. revert m k Hm.
  induction vs as [| v vs IH]; intros m k Hm; [done | ].
  simpl fold_left.
  assert (Hstep : exists m' k',
    Hist.ingestRow col t requiredStart today (m, k) v = (m', k')
    /\ List.Forall Q m').
  { unfold Hist.ingestRow.
    destruct (cellDate _) as [day |]; [ | by eauto].
    destruct (_ || _); [by eauto | ].
    destruct (negb _); [by eauto | ].
    eexists _, _. split; [reflexivity | ].
    apply objSet_Forall; [done | ]. apply Hown.
    eexists _, _. split; [apply HD | reflexivity]. }
  destruct Hstep as (m' & k' & -> & Hm'). by apply IH.
Qed.

Lemma mergeLive_Forall (today : string) (live : list (string * JsNum.num))
    (ts : list string) (m : list (string * row)) :
  D today ->
  (forall t e, In t ts -> ownEntry col D t e -> Q e) ->
  List.Forall Q m ->
  List.Forall Q (Hist.mergeLive col today live ts m).
Proof.
  intros Htoday. unfold Hist.mergeLive. revert m.
  induction ts as [| t ts IH]; intros m Hts Hm; [done | ].
  simpl fold_left.
  apply IH; [intros u e Hu; apply Hts; by right | ].
  destruct (JsNum.gtb _ _); [ | done].
  apply objSet_Forall; [done | ]. apply (Hts t); [by left | ].
  by eexists _, _.
Qed.

End Entries.

Lemma loadMap_NoDup (col : Hist.ColumnMap) (rows : table) :
  NoDup (objKeys (Hist.loadMap col rows)).
Proof.
  unfold Hist.loadMap.
  assert (Hm0 : NoDup (objKeys (@nil (string * row)))) by constructor.
  revert Hm0. generalize (@nil (string * row)) as m.
  induction rows as [| r rows IH]; intros m Hm; [done | ].
  simpl fold_left. apply IH.
  destruct (_ || _); [done | by apply objKeys_objSet_NoDup].
Qed.

Lemma ingest_NoDup (W : World) (col : Hist.ColumnMap)
    (t chunkStart chunkEnd requiredStart today : string)
    (m : list (string * row)) :
  NoDup (objKeys m) ->
  NoDup (objKeys (fst (Hist.ingestBackfillChunk_ W t chunkStart chunkEnd
                         requiredStart today m col))).
Proof.
  intros Hm. unfold Hist.ingestBackfillChunk_.
  destruct (_ <? 2)%nat; [done | ].
  generalize (tl (googleFinanceRange W t chunkStart chunkEnd)) as vs.
  generalize O as k. intros k vs. revert m k Hm.
  induction vs as [| v vs IH]; intros m k Hm; [done | ].
  simpl fold_left.
  assert (Hstep : exists m' k',
    Hist.ingestRow col t requiredStart today (m, k) v = (m', k')
    /\ NoDup (objKeys m')).
  { unfold Hist.ingestRow.
    destruct (cellDate _) as [day |]; [ | by eauto].
    destruct (_ || _); [by eauto | ].
    destruct (negb _); [by eauto | ].
    eexists _, _. split; [reflexivity | ].
    by apply objKeys_objSet_NoDup. }
  destruct Hstep as (m' & k' & -> & Hm'). by apply IH.
Qed.

Lemma mergeLive_NoDup (col : Hist.ColumnMap) (today : string)
    (live : list (string * JsNum.num)) (ts : list string)
    (m : list (string * row)) :
  NoDup (objKeys m) -> NoDup (objKeys (Hist.mergeLive col today live ts m)).
Proof.
  unfold Hist.mergeLive. revert m.
  induction ts as [| t ts IH]; intros m Hm; [done | ].
  simpl fold_left. apply IH.
  destruct (JsNum.gtb _ _); [by apply objKeys_objSet_NoDup | done].
Qed.

(** The store of the loop state keeps a property that holds of the rows the
    runner writes. *)
Section LoopStore.
Variables (C : Config) (W : World) (today requiredStart : string)
  (startTime : Z) (col : Hist.ColumnMap) (bounds : gmap string Hist.Bounds).

Let step := Hist.backfillStep C W today requiredStart startTime col bounds.

Lemma loop_store_Forall (D : string -> Prop) (Q : string * row -> Prop)
    (ts : list string) (i0 : nat) (st st' : Hist.Loop) (r : result unit) :
  (forall n, D (JsDate.formatYMD n)) ->
  (forall t e, In t ts -> ownEntry col D t e -> Q e) ->
  Hist.backfillLoop step i0 ts st = (r, st') ->
  List.Forall Q (Hist.store st) -> List.Forall Q (Hist.store st').
Proof.
  intros HD Hown Hloop Hst.
  eapply (backfillLoop_invariant step
            (fun s => List.Forall Q (Hist.store s)));
    [ | exact Hst | exact Hloop].
  intros j t s1 r1 s1' Ht Hs1 Hstep%backfillStep_inv.
  destruct Hstep; simpl; try done;
    apply (ingest_Forall col D); auto; intros e; by apply Hown.
Qed.

Lemma loop_store_NoDup (ts : list string)
    (i0 : nat) (st st' : Hist.Loop) (r : result unit) :
  Hist.backfillLoop step i0 ts st = (r, st') ->
  NoDup (objKeys (Hist.store st)) -> NoDup (objKeys (Hist.store st')).
Proof.
  intros Hloop Hst.
  eapply (backfillLoop_invariant step
            (fun s => NoDup (objKeys (Hist.store s))));
    [ | exact Hst | exact Hloop].
  intros j t s1 r1 s1' Ht Hs1 Hstep%backfillStep_inv.
  destruct Hstep; simpl; try done; by apply ingest_NoDup.
Qed.

End LoopStore.

Lemma Ok_inj {A} (a b : A) : Ok a = Ok b -> a = b.
Proof. by intros [=]. Qed.

Lemma loadHist_inv (W : World) (required : list string) (text : string)
    (L : Hist.Loaded) :
  Hist.loadHist W required text = Ok L ->
  (Hist.date (Hist.columns L) <> Hist.ticker (Hist.columns L) /\
   Hist.date (Hist.columns L) <> Hist.price (Hist.columns L) /\
   Hist.ticker (Hist.columns L) <> Hist.price (Hist.columns L)) /\
  (forall r, In r (Hist.kept L) ->
     JsString.truthy (tickerOf (Hist.columns L) r) = true ->
     In (tickerOf (Hist.columns L) r) required) /\
  (forall p, In p (Hist.purged L) -> ~ In p required).
Proof.
  unfold Hist.loadHist.
  destruct (parseCsv W (stripBomTrim text)) as [| header [| b body]];
    try discriminate.
  destruct (Hist.buildColumnMap_ header) as [col0 | msg] eqn:Hcol;
    [ | discriminate].
  cbn [mbind result_bind].
  intros <-%Ok_inj. cbn [Hist.columns Hist.kept Hist.purged].
  split; [ | split].
  - by apply buildColumnMap_distinct in Hcol.
  - set (col := Hist.withWidth col0 (length header)).
    set (rows := map (fun r => normalizeRowWidth_ r (Hist.width col)) (b :: body)).
    intros r Hr Ht.
    destruct (Hist.purgedOf required col rows) as [| p ps] eqn:Hp.
    + destruct (memStr (tickerOf col r) required) eqn:Hmem;
        [by apply memStr_In | ].
      assert (Hin : In (tickerOf col r) (Hist.purgedOf required col rows)).
      { unfold Hist.purgedOf. apply filter_In. split; [ | by rewrite Hmem].
        apply setOfList_In, filter_In. split; [ | done].
        apply in_map_iff. by exists r. }
      by rewrite Hp in Hin.
    + apply filter_In in Hr as [_ Hr]. by apply memStr_In.
  - intros p Hp Hin. unfold Hist.purgedOf in Hp.
    apply filter_In in Hp as [_ Hp]. apply memStr_In in Hin.
    by rewrite Hin in Hp.
Qed.

Lemma deleteCursors_keeps_None (purged : list string)
    (p : gmap string string) (k : string) :
  p !! k = None -> Hist.deleteCursors purged p !! k = None.
Proof.
  unfold Hist.deleteCursors. revert p.
  induction purged as [| u purged IH]; intros p Hp; [done | ].
  simpl fold_left. apply IH. rewrite lookup_delete. by case_decide.
Qed.

Lemma deleteCursors_None (purged : list string) (p : gmap string string)
    (t : string) :
  In t purged -> Hist.deleteCursors purged p !! Hist.cursorKey t = None.
Proof.
  revert p. induction purged as [| u purged IH]; intros p Hin; [done | ].
  destruct Hin as [-> | Hin]; [ | by apply IH].
  apply (deleteCursors_keeps_None purged). apply lookup_delete_eq.
Qed.

Lemma deleteCursors_frame (purged : list string) (p : gmap string string)
    (t : string) :
  ~ In t purged ->
  Hist.deleteCursors purged p !! Hist.cursorKey t = p !! Hist.cursorKey t.
Proof.
  unfold Hist.deleteCursors. revert p.
  induction purged as [| u purged IH]; intros p Hin; [done | ].
  simpl fold_left. rewrite IH by (intros ?; apply Hin; by right).
  apply lookup_delete_ne. intros ->%cursorKey_inj. apply Hin. by left.
Qed.

Lemma sortBy_In {A} (cmp : A -> A -> comparison) (l : list A) (x : A) :
  In x (sortBy cmp l) <-> In x l.
Proof.
  split; apply Permutation_in;
    [apply sortBy_Permutation | symmetry; apply sortBy_Permutation].
Qed.

(** C5. After an update of the store that returns, the file holds the
    header and the emitted rows, the ticker of every emitted row is a
    required ticker, and no purged ticker is required or has a cursor left.
    With the rows of A, B and C in the store, a cursor for B, and A and C
    required, the rows of B and the cursor of B are gone. *)
Theorem purge_invariant (C : Config) (W : World) (today : string)
    (requiredTickers policyRequiredSet : list string) (startTime : Z)
    (s s' : Hist.Store) (sync : Hist.Sync) :
  (forall t, In t requiredTickers -> Hist.normTicker t = t) ->
  Hist.updateHistDatabase_ C W today requiredTickers policyRequiredSet
    startTime s = (Ok sync, s') ->
  (exists L,
     Hist.loadHist W requiredTickers (Hist.histCsv s) = Ok L /\
     Hist.histCsv s' = Hist.csvText (Hist.width (Hist.columns L))
                         (Hist.header L :: Hist.emitted sync) /\
     (forall r, In r (Hist.emitted sync) ->
        In (tickerOf (Hist.columns L) r) requiredTickers) /\
     (forall p, In p (Hist.purgedTickers sync) ->
        ~ In p requiredTickers /\
        Hist.scriptProps s' !! Hist.cursorKey p = None))
  /\
  (let run := Hist.updateHistDatabase_ shortCfg quietWorld "2025-01-10"
                ["A"; "C"] [] 0 abcStore in
   Hist.scriptProps abcStore !! "CURSOR_B" = Some "2024-12-20" /\
   (exists sync1,
      fst run = Ok sync1 /\
      Hist.purgedTickers sync1 = ["B"] /\
      Hist.emitted sync1 =
        [ ["2025-01-01"; "A"; "10.00"]; ["2025-01-01"; "C"; "30.00"];
          ["2025-01-10"; "A"; "13.00"]; ["2025-01-10"; "C"; "13.00"] ]) /\
   Hist.scriptProps (snd run) !! "CURSOR_B" = None /\
   Hist.histCsv (snd run) =
     lines ["date,ticker,price"; "2025-01-01,A,10.00"; "2025-01-01,C,30.00";
            "2025-01-10,A,13.00"; "2025-01-10,C,13.00"]).
Proof.
  intros Hnorm Hrun. split.
  - apply updateHistDatabase_inv in Hrun
      as (L & requiredStart & st & live & Hload & Hrs & Hloop & Hlive
          & -> & Hprops & _ & Hhist).
    exists L. split; [done | ]. split; [done | ].
    destruct (loadHist_inv _ _ _ _ Hload) as ((Hdt & Hdp & Htp) & Hkept & Hpurged).
    cbn [Hist.emitted Hist.purgedTickers]. unfold loopOf in Hloop. split.
    + set (Q := fun e : string * row =>
                  In (tickerOf (Hist.columns L) e.2) requiredTickers).
      assert (Hown : forall t e, In t requiredTickers ->
                ownEntry (Hist.columns L) (fun _ => True) t e -> Q e).
      { intros t e Ht (d & px & _ & ->). unfold Q, tickerOf. simpl.
        destruct (priceRow_cells (Hist.columns L) d t px Hdt Hdp Htp) as [_ ->].
        by rewrite (Hnorm t Ht). }
      assert (Hfinal : List.Forall Q
                (Hist.mergeLive (Hist.columns L) today live requiredTickers
                   (Hist.store st))).
      { apply (mergeLive_Forall _ (fun _ => True)); [done | done | ].
        eapply (loop_store_Forall _ _ _ _ _ _ _ (fun _ => True));
          [done | exact Hown | exact Hloop | ].
        simpl. apply loadMap_Forall. intros r Hr Ht. by apply Hkept. }
      intros r Hr. unfold Hist.finalRowsOf in Hr.
      apply sortBy_In in Hr. apply in_map_iff in Hr as (e & <- & He).
      by eapply List.Forall_forall in Hfinal.
    + intros p Hp. split; [by apply Hpurged | ]. rewrite Hprops.
      erewrite loop_props_frame; [ | exact Hloop | ].
      * simpl. by apply deleteCursors_None.
      * intros t Ht ->%cursorKey_inj. by apply (Hpurged t).
  - cbv zeta. split; [reflexivity | ]. split; [ | split].
    + eexists. split; [vm_compute; reflexivity | ]. split; reflexivity.
    + vm_compute. reflexivity.
    + vm_compute. reflexivity.
Qed.

Lemma keyed_values_NoDup (col : Hist.ColumnMap) (m : list (string * row)) :
  NoDup (objKeys m) -> List.Forall (keyed col) m ->
  NoDup (map (fun r => (dateOf col r, tickerOf col r)) (objValues m)).
Proof.
  intros Hnd Hall.
  apply (NoDup_fmap_1 (fun p : string * string => Hist.mapKey p.1 p.2)).
  replace ((fun p : string * string => Hist.mapKey p.1 p.2) <$>
           map (fun r => (dateOf col r, tickerOf col r)) (objValues m))
    with (objKeys m); [done | ].
  unfold objKeys, objValues. clear Hnd.
  induction Hall as [| [k r] m Hk _ IH]; simpl; [done | ].
  unfold keyed in Hk. simpl in Hk. by rewrite Hk, IH.
Qed.

(** C7. After an update of the store that returns, no two emitted rows
    have the same date and ticker, whatever the loaded table, the chunks
    fetched and the live quotes held. *)
Theorem dedupe_invariant (C : Config) (W : World) (today : string)
    (requiredTickers policyRequiredSet : list string) (startTime : Z)
    (s s' : Hist.Store) (sync : Hist.Sync) :
  (forall t, In t requiredTickers -> Hist.normTicker t = t) ->
  JsDate.isYMD today = true ->
  Hist.updateHistDatabase_ C W today requiredTickers policyRequiredSet
    startTime s = (Ok sync, s') ->
  exists L,
    Hist.loadHist W requiredTickers (Hist.histCsv s) = Ok L /\
    Hist.histCsv s' = Hist.csvText (Hist.width (Hist.columns L))
                        (Hist.header L :: Hist.emitted sync) /\
    NoDup (map (fun r => (dateOf (Hist.columns L) r, tickerOf (Hist.columns L) r))
             (Hist.emitted sync)).
Proof.
  intros Hnorm Htoday Hrun.
  apply updateHistDatabase_inv in Hrun
    as (L & requiredStart & st & live & Hload & Hrs & Hloop & Hlive
        & -> & Hprops & _ & Hhist).
  exists L. split; [done | ]. split; [done | ].
  destruct (loadHist_inv _ _ _ _ Hload) as ((Hdt & Hdp & Htp) & Hkept & Hpurged).
  cbn [Hist.emitted]. unfold loopOf in Hloop.
  set (col := Hist.columns L) in *.
  set (D := fun d : string => JsString.trim d = d).
  assert (Hown : forall t e, In t requiredTickers ->
            ownEntry col D t e -> keyed col e).
  { intros t e Ht (d & px & Hd & ->). unfold keyed, dateOf, tickerOf. simpl.
    destruct (priceRow_cells col d t px Hdt Hdp Htp) as [-> ->].
    by rewrite Hd, (Hnorm t Ht). }
  assert (HD : forall n, D (JsDate.formatYMD n)) by apply formatYMD_trim.
  set (mF := Hist.mergeLive col today live requiredTickers (Hist.store st)).
  assert (Hkeys : NoDup (objKeys mF)).
  { apply mergeLive_NoDup.
    eapply loop_store_NoDup; [exact Hloop | ]. simpl. apply loadMap_NoDup. }
  assert (Hall : List.Forall (keyed col) mF).
  { apply (mergeLive_Forall _ D); [by apply isYMD_trim | done | ].
    eapply (loop_store_Forall _ _ _ _ _ _ _ D); [done | exact Hown | exact Hloop | ].
    simpl. apply loadMap_Forall. by intros r Hr Ht. }
  unfold Hist.finalRowsOf.
  apply NoDup_ListNoDup.
  eapply Permutation_NoDup;
    [ apply Permutation_map; symmetry; apply sortBy_Permutation | ].
  apply NoDup_ListNoDup. by apply keyed_values_NoDup.
Qed.




Lemma ingest_zero (W : World) (col : Hist.ColumnMap)
    (t chunkStart chunkEnd requiredStart today : string)
    (m : list (string * row)) :
  snd (Hist.ingestBackfillChunk_ W t chunkStart chunkEnd requiredStart today
         m col) = O ->
  fst (Hist.ingestBackfillChunk_ W t chunkStart chunkEnd requiredStart today
         m col) = m.
Proof.
  unfold Hist.ingestBackfillChunk_.
  destruct (_ <? 2)%nat; [done | ].
  generalize (tl (googleFinanceRange W t chunkStart chunkEnd)) as vs.
  intros vs.
  assert (Hgen : forall (acc : list (string * row) * nat),
    let res := fold_left (Hist.ingestRow col t requiredStart today) vs acc in
    (snd acc <= snd res)%nat /\ (snd res = snd acc -> fst res = fst acc)).
  { induction vs as [| v vs IH]; intros acc; simpl; [done | ].
    destruct (IH (Hist.ingestRow col t requiredStart today acc v)) as [Hle Heq].
    assert (Hrow : (Hist.ingestRow col t requiredStart today acc v = acc) \/
                   snd (Hist.ingestRow col t requiredStart today acc v)
                   = S (snd acc)).
    { unfold Hist.ingestRow.
      destruct (cellDate _); [ | by left].
      destruct (_ || _); [by left | ].
      destruct (negb _); [by left | by right]. }
    destruct Hrow as [Hrow | Hrow].
    - by rewrite Hrow in *.
    - split; [lia | ]. intros Hres. lia. }
  intros Hzero. by apply (Hgen (m, O)).
Qed.

(** C2, as stated, fails: against a feed that answers nothing, the first
    invocation asks for the chunk 2025-01-05 .. 2025-01-09 of A, ingests no
    row, and still moves the cursor of A from none to 2025-01-04; the
    second invocation asks for 2025-01-01 .. 2025-01-04, not for the same
    chunk. *)
Lemma empty_fetch_cursor_not_kept :
  let run1 := Hist.updateHistDatabase_ shortCfg quietWorld "2025-01-10"
                ["A"] [] 0 freshStore in
  let run2 := Hist.updateHistDatabase_ shortCfg quietWorld "2025-01-10"
                ["A"] [] 0 (snd run1) in
  googleFinanceRange quietWorld "A" "2025-01-05" "2025-01-09" = [] /\
  (exists sync1, fst run1 = Ok sync1 /\
     Hist.fetched sync1 = [("A", "2025-01-05", "2025-01-09")] /\
     Hist.emitted sync1 = [["2025-01-10"; "A"; "13.00"]]) /\
  Hist.scriptProps freshStore !! Hist.cursorKey "A" = None /\
  Hist.scriptProps (snd run1) !! Hist.cursorKey "A" = Some "2025-01-04" /\
  Hist.scriptProps (snd run1) !! Hist.cursorKey "A"
    <> Hist.scriptProps freshStore !! Hist.cursorKey "A" /\
  (exists sync2, fst run2 = Ok sync2 /\
     Hist.fetched sync2 = [("A", "2025-01-01", "2025-01-04")] /\
     Hist.fetched sync2 <> [("A", "2025-01-05", "2025-01-09")]).
Proof.
  cbv zeta. split; [reflexivity | ]. split; [ | split; [ | split; [ | split]]].
  - eexists. split; [vm_compute; reflexivity | ]. split; reflexivity.
  - vm_compute. reflexivity.
  - vm_compute. reflexivity.
  - vm_compute. discriminate.
  - eexists. split; [vm_compute; reflexivity | ]. split; [reflexivity | ].
    discriminate.
Qed.

(** *** The cursor moves back *)

Lemma isYMD_digits (a b c d e f g h : Z) :
  JsDate.isYMD
    (String (JsDate.digitChar a) (String (JsDate.digitChar b)
      (String (JsDate.digitChar c) (String (JsDate.digitChar d)
        (String "-" (String (JsDate.digitChar e) (String (JsDate.digitChar f)
          (String "-" (String (JsDate.digitChar g)
            (String (JsDate.digitChar h) EmptyString)))))))))) = true.
Proof. unfold JsDate.isYMD. by rewrite !isDigit_digitChar. Qed.

Lemma isYMD_formatYMD (n : Z) : inEra n -> JsDate.isYMD (JsDate.formatYMD n) = true.
Proof.
  intros Hn. destruct (JsDate.civilFromDays n) as [[y m] d] eqn:Hciv.
  destruct (inEra_year n y m d Hn Hciv) as (Hy & Hm & Hd).
  rewrite (formatYMD_dashed n y m d Hciv), pad4_four by lia.
  apply isYMD_digits.
Qed.

Lemma backfillLoop_app (step : nat -> string -> Eff Hist.Loop unit)
    (l1 l2 : list string) (i : nat) (st : Hist.Loop) :
  Hist.backfillLoop step i (l1 ++ l2) st =
  match Hist.backfillLoop step i l1 st with
  | (Ok _, st1) => Hist.backfillLoop step (i + length l1) l2 st1
  | (Throw msg, st1) => (Throw msg, st1)
  end.
Proof.
  revert i st. induction l1 as [| t l1 IH]; intros i st.
  - simpl. by rewrite Nat.add_0_r.
  - rewrite <- app_comm_cons, !backfillLoop_cons.
    destruct (step i t st) as [[[] | msg] st1]; [ | done].
    rewrite IH. simpl length. by replace (i + S (length l1))%nat
      with (S i + length l1)%nat by lia.
Qed.

Section CursorStep.
Variables (C : Config) (W : World) (startTime : Z) (col : Hist.ColumnMap)
  (bounds : gmap string Hist.Bounds).
Variables (nToday nCursor : Z).
Hypothesis Hchunk : 1 <= CHUNK_DAYS C <= 36000.
Hypothesis HnReq : inRange (nToday - MIN_BACKFILL_DAYS C).
Hypothesis HnCur : inRange nCursor.

Let today := JsDate.formatYMD nToday.
Let requiredStart := JsDate.formatYMD (nToday - MIN_BACKFILL_DAYS C).
Let step := Hist.backfillStep C W today requiredStart startTime col bounds.

Lemma step_cursor_back (i : nat) (t : string) (st st' : Hist.Loop)
    (r : result unit) :
  Hist.props st !! Hist.cursorKey t = Some (JsDate.formatYMD nCursor) ->
  step i t st = (r, st') ->
  Hist.requests st' <> Hist.requests st ->
  Hist.props st' !! Hist.cursorKey t = None \/
  exists n', Hist.props st' !! Hist.cursorKey t = Some (JsDate.formatYMD n')
             /\ n' < nCursor /\ inRange n'.
Proof.
  intros Hcur Hstep%backfillStep_inv Hreq.
  assert (Hend : Hist.chunkEndOf (Hist.props st !! Hist.cursorKey t)
                   (Hist.minHaveOf bounds t) today
                 = Some (JsDate.formatYMD nCursor)).
  { rewrite Hcur. unfold Hist.chunkEndOf.
    rewrite (isYMD_formatYMD nCursor) by by apply inRange_inEra.
    by rewrite isYMD_truthy
      by (apply isYMD_formatYMD; by apply inRange_inEra). }
  assert (HdL : dayMin + 36000 <= dayLo) by (vm_compute; discriminate).
  destruct HnReq as [HR1 HR2], HnCur as [HC1 HC2].
  destruct Hstep as [ | | | | | chunkEnd ts ne Hb Hneeds Hend' Hlt Hts Hne
                    | chunkEnd ts Hb Hneeds Hend' Hlt Hts Hne ];
    try done.
  - rewrite Hend in Hend'. injection Hend' as <-.
    subst requiredStart.
    rewrite formatYMD_lt in Hlt by (unfold inEra, inRange in *; lia).
    apply Z.ltb_ge in Hlt.
    rewrite addDaysYMD_format in Hts by done. injection Hts as <-.
    set (nts := nCursor + - (CHUNK_DAYS C - 1)) in *.
    set (nrs := nToday - MIN_BACKFILL_DAYS C) in *.
    assert (Hcs : chunkStartOf (JsDate.formatYMD nrs) (JsDate.formatYMD nts)
                  = JsDate.formatYMD (Z.max nrs nts)).
    { unfold chunkStartOf.
      rewrite formatYMD_lt by (unfold inEra, inRange in *; lia).
      destruct (Z.ltb_spec nts nrs); f_equal; lia. }
    rewrite Hcs in *.
    rewrite addDaysYMD_format in Hne by (unfold inRange in *; lia).
    injection Hne as <-.
    simpl. unfold nextCursor.
    rewrite formatYMD_ge by (unfold inEra, inRange in *; lia).
    destruct (Z.leb_spec nrs (Z.max nrs nts + -1)).
    + right. exists (Z.max nrs nts + -1).
      rewrite lookup_insert_eq. split; [done | ]. unfold inRange. lia.
    + left. apply lookup_delete_eq.
  - exfalso.
    rewrite Hend in Hend'. injection Hend' as <-.
    subst requiredStart.
    rewrite formatYMD_lt in Hlt by (unfold inEra, inRange in *; lia).
    apply Z.ltb_ge in Hlt.
    rewrite addDaysYMD_format in Hts by done. injection Hts as <-.
    destruct (addDaysYMD_Some
                (chunkStartOf (JsDate.formatYMD (nToday - MIN_BACKFILL_DAYS C))
                   (JsDate.formatYMD (nCursor + - (CHUNK_DAYS C - 1)))) (-1))
      as [x Hx]; [ | congruence].
    unfold chunkStartOf. destruct (JsString.lt _ _); apply formatYMD_parseable.
Qed.

End CursorStep.

(** C6. In an invocation that starts with a cursor for the ticker [t] and
    fetches a chunk for it, the cursor of [t] afterwards is deleted, or is a
    date strictly earlier than the one before, as day numbers and as
    texts. Dates are within the years 100 to 9999 and the chunk size is
    between 1 and 36000 days. *)
Theorem cursor_strictly_decreases (C : Config) (W : World)
    (nToday nCursor : Z) (requiredTickers policyRequiredSet : list string)
    (startTime : Z) (s s' : Hist.Store) (sync : Hist.Sync)
    (t chunkStart chunkEnd : string) :
  1 <= CHUNK_DAYS C <= 36000 ->
  inRange nToday -> inRange (nToday - MIN_BACKFILL_DAYS C) ->
  inRange nCursor ->
  NoDup requiredTickers ->
  Hist.scriptProps s !! Hist.cursorKey t = Some (JsDate.formatYMD nCursor) ->
  Hist.updateHistDatabase_ C W (JsDate.formatYMD nToday) requiredTickers
    policyRequiredSet startTime s = (Ok sync, s') ->
  In (t, chunkStart, chunkEnd) (Hist.fetched sync) ->
  Hist.scriptProps s' !! Hist.cursorKey t = None \/
  exists n',
    Hist.scriptProps s' !! Hist.cursorKey t = Some (JsDate.formatYMD n') /\
    n' < nCursor /\ inRange n' /\
    JsString.lt (JsDate.formatYMD n') (JsDate.formatYMD nCursor) = true.
Proof.
  intros Hchunk Htoday Hreq Hcur Hnd Hprop Hrun Hfetch.
  apply updateHistDatabase_inv in Hrun
    as (L & requiredStart & st & live & Hload & Hrs & Hloop & Hlive
        & -> & Hprops & _ & Hhist).
  cbn [Hist.fetched] in Hfetch. rewrite Hprops.
  rewrite addDaysYMD_format in Hrs by done.
  replace (nToday + - MIN_BACKFILL_DAYS C) with (nToday - MIN_BACKFILL_DAYS C)
    in Hrs by lia.
  injection Hrs as <-.
  destruct (loadHist_inv _ _ _ _ Hload) as (_ & _ & Hpurged).
  unfold loopOf in Hloop.
  set (step := Hist.backfillStep C W (JsDate.formatYMD nToday)
                 (JsDate.formatYMD (nToday - MIN_BACKFILL_DAYS C)) startTime
                 (Hist.columns L) _) in Hloop.
  set (st0 := {| Hist.props := _ |}) in Hloop.
  assert (Ht : In t requiredTickers).
  { destruct (loop_requests _ _ _ _ _ _ _ _ _ _ _ _ _ Hloop Hfetch)
      as [[] | Hin]. exact Hin. }
  apply in_split in Ht as (l1 & l2 & Hsplit).
  rewrite Hsplit in Hnd, Hloop.
  apply NoDup_app in Hnd as (Hnd1 & Hnot1 & Hnd2).
  apply NoDup_cons in Hnd2 as [Hnot2 _].
  assert (Hl1 : ~ In t l1).
  { intros Hin%list_elem_of_In. apply (Hnot1 t Hin). by left. }
  assert (Hl2 : ~ In t l2) by by rewrite <- list_elem_of_In.
  rewrite backfillLoop_app in Hloop.
  destruct (Hist.backfillLoop step 0 l1 st0) as [[[] | msg1] st1] eqn:Hloop1;
    [ | discriminate].
  rewrite backfillLoop_cons in Hloop.
  destruct (step (0 + length l1)%nat t st1) as [[[] | msg2] st2] eqn:Hstep;
    [ | discriminate].
  assert (Hframe : forall l, ~ In t l -> forall u, In u l ->
            Hist.cursorKey t <> Hist.cursorKey u).
  { intros l Hl u Hu ->%cursorKey_inj. done. }
  rewrite (loop_props_frame _ _ _ _ _ _ _ _ _ _ _ _ _ Hloop (Hframe l2 Hl2)).
  assert (Hcur1 : Hist.props st1 !! Hist.cursorKey t
                  = Some (JsDate.formatYMD nCursor)).
  { rewrite (loop_props_frame _ _ _ _ _ _ _ _ _ _ _ _ _ Hloop1 (Hframe l1 Hl1)).
    subst st0. simpl. rewrite deleteCursors_frame; [done | ].
    intros Hp. apply (Hpurged t Hp). rewrite Hsplit.
    apply in_or_app. right. by left. }
  assert (Hreqs : Hist.requests st2 <> Hist.requests st1).
  { intros Heq.
    destruct (loop_requests _ _ _ _ _ _ _ _ _ _ _ _ _ Hloop Hfetch)
      as [Hin | Hin]; [ | done].
    rewrite Heq in Hin.
    destruct (loop_requests _ _ _ _ _ _ _ _ _ _ _ _ _ Hloop1 Hin)
      as [[] | Hin1]. done. }
  destruct (step_cursor_back C W startTime (Hist.columns L) _ nToday nCursor
              Hchunk Hreq Hcur _ t st1 st2 _ Hcur1 Hstep Hreqs)
    as [Hnone | (n' & Hsome & Hlt & Hin')].
  - by left.
  - right. exists n'. repeat split; try done.
    + by destruct Hin'.
    + by destruct Hin'.
    + rewrite formatYMD_lt by by apply inRange_inEra. by apply Z.ltb_lt.
Qed.

(** *** The iteration of one ticker within the loop *)

Lemma loop_focus (step : nat -> string -> Eff Hist.Loop unit)
    (ts : list string) (i : nat) (t : string) (st0 st : Hist.Loop) :
  NoDup ts -> ts !! i = Some t ->
  Hist.backfillLoop step 0 ts st0 = (Ok tt, st) ->
  exists st1 st2,
    Hist.backfillLoop step 0 (take i ts) st0 = (Ok tt, st1) /\
    step i t st1 = (Ok tt, st2) /\
    Hist.backfillLoop step (S i) (drop (S i) ts) st2 = (Ok tt, st) /\
    ~ In t (take i ts) /\ ~ In t (drop (S i) ts).
Proof.
  intros Hnd Hi Hloop.
  pose proof (take_drop_middle ts i t Hi) as Hsplit.
  assert (Hlen : length (take i ts) = i).
  { apply length_take_le. apply lookup_lt_Some in Hi. lia. }
  rewrite <- Hsplit in Hnd, Hloop.
  apply NoDup_app in Hnd as (_ & Hnot1 & Hnd2).
  apply NoDup_cons in Hnd2 as [Hnot2 _].
  rewrite backfillLoop_app, Hlen in Hloop. simpl Nat.add in Hloop.
  destruct (Hist.backfillLoop step 0 (take i ts) st0)
    as [[[] | msg1] st1] eqn:Hloop1; [ | discriminate].
  rewrite backfillLoop_cons in Hloop.
  destruct (step i t st1) as [[[] | msg2] st2] eqn:Hstep; [ | discriminate].
  exists st1, st2. repeat split; try done.
  - intros Hin%list_elem_of_In. apply (Hnot1 t Hin). by left.
  - by rewrite <- list_elem_of_In.
Qed.

Section Requests.
Variables (C : Config) (W : World) (today requiredStart : string)
  (startTime : Z) (col : Hist.ColumnMap) (bounds : gmap string Hist.Bounds).

Let step := Hist.backfillStep C W today requiredStart startTime col bounds.



End Requests.


Lemma ingest_noUsable (W : World) (col : Hist.ColumnMap)
    (t chunkStart chunkEnd requiredStart today : string)
    (m : list (string * row)) :
  noUsableRows W t chunkStart chunkEnd requiredStart today ->
  Hist.ingestBackfillChunk_ W t chunkStart chunkEnd requiredStart today m col
  = (m, O).
Proof.
  unfold Hist.ingestBackfillChunk_, noUsableRows.
  destruct (Nat.ltb_spec (length (googleFinanceRange W t chunkStart chunkEnd)) 2)
    as [Hlt | Hge]; [done | ].
  intros [Hlt | Hall]; [lia | ].
  induction Hall as [| v vs Hv _ IH]; [done | ].
  simpl fold_left.
  replace (Hist.ingestRow col t requiredStart today (m, O) v) with (m, O);
    [exact IH | ].
  unfold Hist.ingestRow. unfold usableRow in Hv.
  destruct (cellDate _); [ | done].
  destruct (_ || _); [done | ]. simpl in Hv. by rewrite Hv.
Qed.

(** The invocation fetched a chunk for [t]: what its iteration did. *)
Lemma focus_fetch (C : Config) (W : World) (today requiredStart : string)
    (requiredTickers : list string) (startTime : Z) (L : Hist.Loaded)
    (p : gmap string string) (t chunkStart chunkEnd : string)
    (st : Hist.Loop) :
  NoDup requiredTickers ->
  (forall p, In p (Hist.purged L) -> ~ In p requiredTickers) ->
  loopOf C W today requiredStart requiredTickers startTime L p = (Ok tt, st) ->
  In (t, chunkStart, chunkEnd) (Hist.requests st) ->
  let minHave :=
    Hist.minHaveOf
      (Hist.computeBounds requiredTickers
         (objKeys (Hist.loadMap (Hist.columns L) (Hist.kept L)))) t in
  exists tentativeStart nextEnd,
    Hist.chunkEndOf (p !! Hist.cursorKey t) minHave today = Some chunkEnd /\
    (JsString.lt chunkEnd requiredStart = false /\
     Hist.needsYearOf minHave requiredStart = true) /\
    JsDate.addDaysYMD_ chunkEnd (- (CHUNK_DAYS C - 1)) = Some tentativeStart /\
    chunkStart = maxDate requiredStart tentativeStart /\
    JsDate.addDaysYMD_ chunkStart (-1) = Some nextEnd /\
    Hist.props st !! Hist.cursorKey t =
      (if JsString.ge nextEnd requiredStart then Some nextEnd else None).
Proof.
  intros Hnd Hpurged Hloop Hfetch minHave.
  unfold loopOf in Hloop.
  assert (Ht : In t requiredTickers).
  { destruct (loop_requests _ _ _ _ _ _ _ _ _ _ _ _ _ Hloop Hfetch)
      as [[] | Hin]. exact Hin. }
  pose proof Ht as Hti.
  apply list_elem_of_In, list_elem_of_lookup_1 in Hti as [i Hi].
  destruct (loop_focus _ _ i t _ _ Hnd Hi Hloop)
    as (st1 & st2 & Hloop1 & Hstep & Hloop2 & Hl1 & Hl2).
  assert (Hframe : forall l, ~ In t l -> forall u, In u l ->
            Hist.cursorKey t <> Hist.cursorKey u).
  { intros l Hl u Hu ->%cursorKey_inj. done. }
  assert (Hcur1 : Hist.props st1 !! Hist.cursorKey t = p !! Hist.cursorKey t).
  { rewrite (loop_props_frame _ _ _ _ _ _ _ _ _ _ _ _ _ Hloop1 (Hframe _ Hl1)).
    simpl. apply deleteCursors_frame. intros Hp. by apply (Hpurged t Hp). }
  assert (Hin2 : In (t, chunkStart, chunkEnd) (Hist.requests st2)).
  { destruct (loop_requests _ _ _ _ _ _ _ _ _ _ _ _ _ Hloop2 Hfetch)
      as [Hin | Hin]; done. }
  assert (Hnot1 : ~ In (t, chunkStart, chunkEnd) (Hist.requests st1)).
  { intros Hin.
    destruct (loop_requests _ _ _ _ _ _ _ _ _ _ _ _ _ Hloop1 Hin)
      as [[] | Hin1]. done. }
  rewrite (loop_props_frame _ _ _ _ _ _ _ _ _ _ _ _ _ Hloop2 (Hframe _ Hl2)).
  apply backfillStep_inv in Hstep.
  inversion Hstep as [ | | | | | ce ts ne Hb Hneeds Hend Hlt Hts Hne | ];
    subst; try done.
  simpl in Hin2. apply in_app_iff in Hin2 as [Hin2 | [Heq | []]]; [done | ].
  injection Heq as <- <-. rewrite Hcur1 in Hend.
  exists ts, ne. repeat split; try done.
  simpl. unfold nextCursor. destruct (JsString.ge ne requiredStart).
  - apply lookup_insert_eq.
  - apply lookup_delete_eq.
Qed.


(** C2, amended. For every chunk fetched in an invocation that returns, a
    range fetch with no usable row ingests nothing, and the cursor of the
    ticker is moved all the same: it becomes the day before the start of
    the chunk when that day is not before the required start, and is
    deleted otherwise. *)
Theorem empty_fetch_moves_cursor (C : Config) (W : World) (today : string)
    (requiredTickers policyRequiredSet : list string) (startTime : Z)
    (s s' : Hist.Store) (sync : Hist.Sync)
    (t chunkStart chunkEnd : string) :
  NoDup requiredTickers ->
  Hist.updateHistDatabase_ C W today requiredTickers policyRequiredSet
    startTime s = (Ok sync, s') ->
  In (t, chunkStart, chunkEnd) (Hist.fetched sync) ->
  exists requiredStart nextEnd,
    JsDate.addDaysYMD_ today (- MIN_BACKFILL_DAYS C) = Some requiredStart /\
    JsDate.addDaysYMD_ chunkStart (-1) = Some nextEnd /\
    (noUsableRows W t chunkStart chunkEnd requiredStart today ->
     forall m col,
       Hist.ingestBackfillChunk_ W t chunkStart chunkEnd requiredStart today
         m col = (m, O)) /\
    Hist.scriptProps s' !! Hist.cursorKey t =
      (if JsString.ge nextEnd requiredStart then Some nextEnd else None).
Proof.
  intros Hnd Hrun Hfetch.
  apply updateHistDatabase_inv in Hrun
    as (L & requiredStart & st & live & Hload & Hrs & Hloop & _ & -> & Hprops & _).
  cbn [Hist.fetched] in Hfetch.
  destruct (loadHist_inv _ _ _ _ Hload) as (_ & _ & Hpurged).
  destruct (focus_fetch C W today requiredStart requiredTickers startTime L
              (Hist.scriptProps s) t chunkStart chunkEnd st Hnd Hpurged Hloop
              Hfetch)
    as (ts & ne & _ & _ & _ & _ & Hne & Hcur).
  exists requiredStart, ne. split; [done | ]. split; [done | ].
  split; [ | by rewrite Hprops].
  intros Hno m col. by apply ingest_noUsable.
Qed.


(** The invocation against the feed that answers nothing: the chunk
    2025-01-05 .. 2025-01-09 of A. *)
Lemma empty_fetch_moves_cursor_witness :
  exists requiredStart nextEnd,
    JsDate.addDaysYMD_ "2025-01-10" (- MIN_BACKFILL_DAYS shortCfg)
      = Some requiredStart /\
    JsDate.addDaysYMD_ "2025-01-05" (-1) = Some nextEnd /\
    (noUsableRows quietWorld "A" "2025-01-05" "2025-01-09" requiredStart
       "2025-01-10" ->
     forall m col,
       Hist.ingestBackfillChunk_ quietWorld "A" "2025-01-05" "2025-01-09"
         requiredStart "2025-01-10" m col = (m, O)) /\
    Hist.scriptProps (snd quietRun) !! Hist.cursorKey "A" =
      (if JsString.ge nextEnd requiredStart then Some nextEnd else None).
Proof.
  refine (empty_fetch_moves_cursor shortCfg quietWorld "2025-01-10" ["A"] [] 0
            freshStore (snd quietRun) (okOr noSync (fst quietRun))
            "A" "2025-01-05" "2025-01-09" _ _ _).
  - apply NoDup_singleton.
  - vm_compute. reflexivity.
  - vm_compute. left. reflexivity.
Defined.

(** The ledger whose base row has a portfolio value of 0.00. *)
Lemma ledger_invalid_base_aborts_witness :
  exists msg,
    Ledger.upsertAndRecomputePerformanceLog_ quietWorld "2025-01-02"
      (JsNum.ofZ 1100) ["VTI"] [JsNum.ofZ 55] "2025-01-01" zeroBaseStore
    = (Throw msg, zeroBaseStore).
Proof.
  refine (ledger_invalid_base_aborts quietWorld zeroBaseStore "2025-01-02"
            (JsNum.ofZ 1100) ["VTI"] [JsNum.ofZ 55] "2025-01-01" _).
  left. right. vm_compute. reflexivity.
Defined.

(** The ledger with one row before the chart start date: the base row is
    the second row. *)
Lemma ledger_rebase_invariant_witness :
  let r := okOr noRecomputed (fst ledgerRun) in
  Ledger.baseIndex r = 1%nat /\
  cellAt (nth (Ledger.baseIndex r) (Ledger.out r) []) (Ledger.portPctCol 1)
    = "0.0000" /\
  cellAt (nth (Ledger.baseIndex r) (Ledger.out r) []) (Ledger.pctStartCol 1 + 0)
    = "0.0000" /\
  cellAt (nth 0 (Ledger.out r) []) (Ledger.portPctCol 1) = "N/A" /\
  cellAt (nth 0 (Ledger.out r) []) (Ledger.pctStartCol 1 + 0) = "N/A" /\
  cellAt (nth 0 (Ledger.out r) []) (Ledger.diffStartCol 1 + 0) = "N/A".
Proof.
  intros r.
  assert (Hrun : Ledger.upsertAndRecomputePerformanceLog_ quietWorld
                   "2025-01-02" (JsNum.ofZ 1100) ["VTI"] [JsNum.ofZ 55]
                   "2025-01-01" ledgerStore = (Ok r, snd ledgerRun))
    by (vm_compute; reflexivity).
  assert (Hbase : Ledger.baseIndex r = 1%nat) by (vm_compute; reflexivity).
  destruct (ledger_rebase_invariant quietWorld ledgerStore (snd ledgerRun)
              "2025-01-02" (JsNum.ofZ 1100) ["VTI"] [JsNum.ofZ 55]
              "2025-01-01" r Hrun)
    as (_ & (_ & Hport) & Hpct & Hbefore).
  destruct (Hpct O) as (_ & _ & Hpct0); [simpl; lia | ].
  destruct (Hbefore O) as (Hb0 & Hb1); [rewrite Hbase; lia | ].
  destruct (Hb1 O) as (Hb2 & Hb3); [simpl; lia | ].
  repeat split; assumption.
Defined.

(** The store of A, B and C, with A and C required. *)
Lemma purge_invariant_witness :
  exists L,
    Hist.loadHist quietWorld ["A"; "C"] (Hist.histCsv abcStore) = Ok L /\
    Hist.histCsv (snd purgeRun)
      = Hist.csvText (Hist.width (Hist.columns L))
          (Hist.header L :: Hist.emitted (okOr noSync (fst purgeRun))) /\
    (forall r, In r (Hist.emitted (okOr noSync (fst purgeRun))) ->
       In (tickerOf (Hist.columns L) r) ["A"; "C"]) /\
    (forall p, In p (Hist.purgedTickers (okOr noSync (fst purgeRun))) ->
       ~ In p ["A"; "C"] /\
       Hist.scriptProps (snd purgeRun) !! Hist.cursorKey p = None).
Proof.
  refine (proj1 (purge_invariant shortCfg quietWorld "2025-01-10" ["A"; "C"]
                   [] 0 abcStore (snd purgeRun) (okOr noSync (fst purgeRun))
                   _ _)).
  - intros t [<- | [<- | []]]; vm_compute; reflexivity.
  - vm_compute. reflexivity.
Defined.

(** The second invocation of the daily scenario: it starts with the cursor
    2025-01-04, the day 20092, and today is the day 20098. *)
Lemma cursor_strictly_decreases_witness :
  Hist.scriptProps (snd firstRun) !! Hist.cursorKey "A"
    = Some (JsDate.formatYMD 20092) /\
  (Hist.scriptProps (snd secondRun) !! Hist.cursorKey "A" = None \/
   exists n',
     Hist.scriptProps (snd secondRun) !! Hist.cursorKey "A"
       = Some (JsDate.formatYMD n') /\
     n' < 20092 /\ inRange n' /\
     JsString.lt (JsDate.formatYMD n') (JsDate.formatYMD 20092) = true).
Proof.
  assert (Hcur : Hist.scriptProps (snd firstRun) !! Hist.cursorKey "A"
                 = Some (JsDate.formatYMD 20092))
    by (vm_compute; reflexivity).
  split; [exact Hcur | ].
  refine (cursor_strictly_decreases shortCfg dailyWorld 20098 20092 ["A"] [] 0
            (snd firstRun) (snd secondRun) (okOr noSync (fst secondRun))
            "A" "2025-01-01" "2025-01-04" _ _ _ _ _ Hcur _ _).
  - simpl. lia.
  - unfold inRange, dayLo, dayHi. lia.
  - unfold inRange, dayLo, dayHi. simpl. lia.
  - unfold inRange, dayLo, dayHi. lia.
  - apply NoDup_singleton.
  - vm_compute. reflexivity.
  - vm_compute. left. reflexivity.
Defined.

(** The store that holds a row twice. *)
Lemma dedupe_invariant_witness :
  exists L,
    Hist.loadHist quietWorld ["A"] (Hist.histCsv twiceStore) = Ok L /\
    Hist.histCsv (snd twiceRun)
      = Hist.csvText (Hist.width (Hist.columns L))
          (Hist.header L :: Hist.emitted (okOr noSync (fst twiceRun))) /\
    NoDup (map (fun r => (dateOf (Hist.columns L) r,
                          tickerOf (Hist.columns L) r))
             (Hist.emitted (okOr noSync (fst twiceRun)))).
Proof.
  refine (dedupe_invariant shortCfg quietWorld "2025-01-10" ["A"] [] 0
            twiceStore (snd twiceRun) (okOr noSync (fst twiceRun)) _ _ _).
  - intros t [<- | []]. vm_compute. reflexivity.
  - vm_compute. reflexivity.
  - vm_compute. reflexivity.
Defined.

(** The window of three days of the scenario. *)
Lemma alpha_is_return_difference_witness :
  let tMap := fst (Analytics.buildSeries scCol "NEWT" "VTI" "2025-01-01" scRows) in
  let bMap := snd (Analytics.buildSeries scCol "NEWT" "VTI" "2025-01-01" scRows) in
  exists t0 tN b0 bN,
    (objGet "2025-01-01" tMap = Some t0 /\ objGet "2025-01-03" tMap = Some tN /\
     objGet "2025-01-01" bMap = Some b0 /\ objGet "2025-01-03" bMap = Some bN) /\
    Analytics.alphaOf tMap bMap "2025-01-01" "2025-01-03"
      = JsNum.sub (JsNum.sub (JsNum.div tN t0) JsNum.one)
                  (JsNum.sub (JsNum.div bN b0) JsNum.one) /\
    exists corr,
      Analytics.calculateAlphaAndCorrVsBenchmark_ scCfg scRows scCol "NEWT"
        "VTI" "2025-01-01"
      = Analytics.Computed "VTI" "2025-01-01" "2025-01-01" "2025-01-03"
          (Analytics.alphaText
             (Analytics.alphaOf tMap bMap "2025-01-01" "2025-01-03")) corr.
Proof.
  refine (proj1 (proj2 (alpha_is_return_difference scCfg scRows scCol "NEWT"
                   "VTI" "2025-01-01" "2025-01-01"
                   ["2025-01-02"; "2025-01-03"] _ _ _))).
  - vm_compute. reflexivity.
  - vm_compute. reflexivity.
  - discriminate.
Defined.

(** A series that does not vary against one that does. *)
Lemma pearson_division_safe_witness :
  let x := [JsNum.ofZ 1; JsNum.ofZ 1; JsNum.ofZ 1] in
  let y := [JsNum.ofZ 1; JsNum.ofZ 2; JsNum.ofZ 4] in
  Analytics.pearson_ x y = JsNum.NaN /\
  JsNum.isFinite (Analytics.pearson_ x y) = false /\
  Analytics.corrText scCfg (Analytics.corrOf scCfg x y) = "N/A".
Proof.
  refine (proj2 (pearson_division_safe scCfg
                   [JsNum.ofZ 1; JsNum.ofZ 1; JsNum.ofZ 1]
                   [JsNum.ofZ 1; JsNum.ofZ 2; JsNum.ofZ 4] _)).
  left. vm_compute. reflexivity.
Defined.

(** The clock that passes the budget after the first ticker: C, the second
    ticker, is unfinished although its coverage plays no part. *)
Lemma budget_exhausted_marks_all_unfinished_witness :
  In "C" (Hist.unfinishedTickers (okOr noSync (fst slowRun))).
Proof.
  refine (budget_exhausted_marks_all_unfinished shortCfg slowWorld
            "2025-01-10" ["A"; "C"] [] 0 abcStore (snd slowRun)
            (okOr noSync (fst slowRun)) 1%nat _ _ _ 1%nat "C" _ _).
  - vm_compute. reflexivity.
  - intros j k Hjk. destruct j, k; simpl; lia.
  - simpl. lia.
  - lia.
  - reflexivity.
Defined.

(** C9. A series of returns that are all the same number has zero
    variance, yet [pearson_] returns a number for it when the variance
    term, as rounded in binary64, is not zero: the test of the denominator
    against zero misses the case.  With a VTI that gains 80% on each of
    six days, the six returns of VTI are one and the same number, the
    variance term of VTI and the denominator are not zero, [pearson_] is
    finite, and the correlation of NEWT against VTI is reported as 0.00,
    not as N/A.  Six returns of 0.1 against six of 0.2 are reported as
    1.00. *)
Theorem pearson_constant_series_reported :
  let x := fst steadyReturns in
  let y := snd steadyReturns in
  let s := Analytics.sumsOf (combine x y) in
  (length x = 6%nat /\
   y = repeat (JsNum.sub (JsNum.parseFloat "1.8") JsNum.one) 6) /\
  (JsNum.eqb (Analytics.varTermY (JsNum.ofNat 6) s) JsNum.zero = false /\
   JsNum.eqb (Analytics.pearsonDen (JsNum.ofNat 6) s) JsNum.zero = false) /\
  JsNum.isFinite (Analytics.pearson_ x y) = true /\
  Analytics.corrText scCfg (Analytics.corrOf scCfg x y)
  = Analytics.green +:+ " 0.00" /\
  (exists alpha,
     Analytics.calculateAlphaAndCorrVsBenchmark_ scCfg steadyRows scCol
       "NEWT" "VTI" "2025-01-01"
     = Analytics.Computed "VTI" "2025-01-01" "2025-01-01" "2025-01-07" alpha
         (Analytics.green +:+ " 0.00")) /\
  Analytics.corrText scCfg
    (Analytics.corrOf scCfg (repeat (JsNum.parseFloat "0.1") 6)
       (repeat (JsNum.parseFloat "0.2") 6))
  = Analytics.red +:+ " 1.00".
Proof.
  cbv zeta.
  split; [split; vm_compute; reflexivity | ].
  split; [split; vm_compute; reflexivity | ].
  split; [vm_compute; reflexivity | ].
  split; [vm_compute; reflexivity | ].
  split; [eexists; vm_compute; reflexivity | ].
  vm_compute. reflexivity.
Qed.

(** *** Date texts *)

(** X1. For the days of the years 100 to 9999, the text written by the
    formatter matches the date pattern and [ymdToLocalDate_] reads the day
    back from it. *)
Theorem date_text_round_trip (n : Z) :
  inRange n ->
  JsDate.isYMD (JsDate.formatYMD n) = true /\
  JsDate.ymdToLocalDate_ (JsDate.formatYMD n) = Some n.
Proof.
  intros Hn. split.
  - apply isYMD_formatYMD. by apply inRange_inEra.
  - by apply formatYMD_roundtrip.
Qed.

(** The day 2025-01-10. *)
Lemma date_text_round_trip_witness :
  JsDate.isYMD (JsDate.formatYMD 20098) = true /\
  JsDate.ymdToLocalDate_ (JsDate.formatYMD 20098) = Some 20098.
Proof.
  apply (date_text_round_trip 20098). unfold inRange, dayLo, dayHi. lia.
Defined.

(** X2. For the days of the years 1 to 9999, the comparisons of date texts
    that the runner makes, [a < b] and [a >= b] on strings, are the
    comparisons of the days. *)
Theorem date_text_order (n n' : Z) :
  inEra n -> inEra n' ->
  (JsString.lt (JsDate.formatYMD n) (JsDate.formatYMD n') = true <-> n < n') /\
  (JsString.ge (JsDate.formatYMD n) (JsDate.formatYMD n') = true <-> n' <= n) /\
  (JsDate.formatYMD n = JsDate.formatYMD n' <-> n = n').
Proof.
  intros Hn Hn'. rewrite formatYMD_lt, formatYMD_ge by done.
  split; [apply Z.ltb_lt | ]. split; [apply Z.leb_le | ].
  split; [ | by intros ->].
  intros Heq. pose proof (formatYMD_compare n n' Hn Hn') as Hc.
  rewrite Heq in Hc.
  assert (Hrefl : String.compare (JsDate.formatYMD n') (JsDate.formatYMD n') = Eq)
    by by apply String_as_OT.cmp_eq.
  rewrite Hrefl in Hc. symmetry in Hc. by apply Z.compare_eq_iff in Hc.
Qed.

(** The last day of 2024 against the first of 2025. *)
Lemma date_text_order_witness :
  (JsString.lt (JsDate.formatYMD 20088) (JsDate.formatYMD 20089) = true
     <-> 20088 < 20089) /\
  (JsString.ge (JsDate.formatYMD 20088) (JsDate.formatYMD 20089) = true
     <-> 20089 <= 20088) /\
  (JsDate.formatYMD 20088 = JsDate.formatYMD 20089 <-> 20088 = 20089).
Proof.
  apply (date_text_order 20088 20089); unfold inEra, dayMin, dayHi; lia.
Defined.

(** X3. Within the years 100 to 9999, adding [a] days and then [b] days to
    a date is adding [a + b] days, and adding no day gives the date
    back. *)
Theorem addDaysYMD_additive (n a b : Z) :
  inRange n -> inRange (n + a) ->
  JsDate.addDaysYMD_ (JsDate.formatYMD n) 0 = Some (JsDate.formatYMD n) /\
  JsDate.addDaysYMD_ (JsDate.formatYMD n) a = Some (JsDate.formatYMD (n + a)) /\
  (JsDate.addDaysYMD_ (JsDate.formatYMD n) a ≫= fun s => JsDate.addDaysYMD_ s b)
    = JsDate.addDaysYMD_ (JsDate.formatYMD n) (a + b).
Proof.
  intros Hn Hna. unfold JsDate.addDaysYMD_.
  rewrite (formatYMD_roundtrip n Hn). simpl.
  rewrite (formatYMD_roundtrip (n + a) Hna).
  rewrite Z.add_0_r, Z.add_assoc. done.
Qed.

(** Five days back from 2025-01-09, then one more. *)
Lemma addDaysYMD_additive_witness :
  JsDate.addDaysYMD_ (JsDate.formatYMD 20097) 0
    = Some (JsDate.formatYMD 20097) /\
  JsDate.addDaysYMD_ (JsDate.formatYMD 20097) (-4)
    = Some (JsDate.formatYMD (20097 + -4)) /\
  (JsDate.addDaysYMD_ (JsDate.formatYMD 20097) (-4)
     ≫= fun s => JsDate.addDaysYMD_ s (-1))
    = JsDate.addDaysYMD_ (JsDate.formatYMD 20097) (-4 + -1).
Proof.
  apply (addDaysYMD_additive 20097 (-4) (-1));
    unfold inRange, dayLo, dayHi; lia.
Defined.

(** *** Escaping *)

Lemma append_cons (c : ascii) (a b : string) :
  String c a +:+ b = String c (a +:+ b).
Proof. reflexivity. Qed.

Lemma append_assoc (a b c : string) : (a +:+ b) +:+ c = a +:+ (b +:+ c).
Proof.
  induction a as [| x a IH]; [done | ]. by rewrite !append_cons, IH.
Qed.

Lemma replaceAll_app (c : ascii) (by_ s1 s2 : string) :
  Html.replaceAll c by_ (s1 +:+ s2)
  = Html.replaceAll c by_ s1 +:+ Html.replaceAll c by_ s2.
Proof.
  induction s1 as [| a s1 IH]; [done | ].
  rewrite append_cons. cbn [Html.replaceAll]. rewrite IH.
  destruct (Ascii.eqb a c); [by rewrite append_assoc | done].
Qed.

Lemma escapeHtml_app (s1 s2 : string) :
  Html.escapeHtml_ (s1 +:+ s2) = Html.escapeHtml_ s1 +:+ Html.escapeHtml_ s2.
Proof. unfold Html.escapeHtml_. by rewrite !replaceAll_app. Qed.

Lemma escapeHtml_char (c : ascii) :
  Html.escapeHtml_ (String c EmptyString) = entityOf c.
Proof.
  unfold Html.escapeHtml_, entityOf. cbn [Html.replaceAll].
  destruct (Ascii.eqb_spec c "&") as [-> | H1]; [reflexivity | ].
  cbn [Html.replaceAll].
  destruct (Ascii.eqb_spec c "<") as [-> | H2]; [reflexivity | ].
  cbn [Html.replaceAll].
  destruct (Ascii.eqb_spec c ">") as [-> | H3]; [reflexivity | ].
  cbn [Html.replaceAll].
  destruct (Ascii.eqb_spec c Html.dquote) as [-> | H4]; [reflexivity | ].
  cbn [Html.replaceAll].
  destruct (Ascii.eqb_spec c "'") as [-> | H5]; reflexivity.
Qed.

(** The five passes of [escapeHtml_] amount to one pass that writes each
    character or its entity: no pass rewrites what an earlier one wrote. *)
Lemma escapeHtml_chars (s : string) : Html.escapeHtml_ s = escapeChars s.
Proof.
  induction s as [| c s IH]; [reflexivity | ].
  change (String c s) with (String c EmptyString +:+ s).
  rewrite escapeHtml_app, escapeHtml_char, IH. reflexivity.
Qed.

Lemma entityOf_safe (c : ascii) :
  allChars (fun a => negb (markupChar a)) (entityOf c) = true.
Proof.
  unfold entityOf.
  destruct (Ascii.eqb_spec c "&"); [reflexivity | ].
  destruct (Ascii.eqb_spec c "<"); [reflexivity | ].
  destruct (Ascii.eqb_spec c ">"); [reflexivity | ].
  destruct (Ascii.eqb_spec c Html.dquote); [reflexivity | ].
  destruct (Ascii.eqb_spec c "'"); [reflexivity | ].
  simpl. unfold markupChar.
  destruct (Ascii.eqb_spec c "<"), (Ascii.eqb_spec c ">"),
    (Ascii.eqb_spec c Html.dquote), (Ascii.eqb_spec c "'"); done.
Qed.

(** X4. The text that [escapeHtml_] returns holds no angle bracket and no
    quote, whatever the text given; a text with none of the five special
    characters is returned as it is. *)
Theorem escapeHtml_no_markup (s : string) :
  allChars (fun a => negb (markupChar a)) (Html.escapeHtml_ s) = true /\
  (allChars (fun a => negb (markupChar a || Ascii.eqb a "&")) s = true ->
   Html.escapeHtml_ s = s).
Proof.
  rewrite escapeHtml_chars. split.
  - induction s as [| c s IH]; [reflexivity | ].
    simpl. by rewrite allChars_app, entityOf_safe, IH.
  - induction s as [| c s IH]; [reflexivity | ].
    simpl. intros [Hc Hs]%andb_true_iff. rewrite (IH Hs).
    unfold entityOf, markupChar in *.
    destruct (Ascii.eqb c "&"), (Ascii.eqb c "<"), (Ascii.eqb c ">"),
      (Ascii.eqb c Html.dquote), (Ascii.eqb c "'"); done.
Qed.

Lemma entityOf_head (c : ascii) :
  exists r, entityOf c = String (if markupChar c then "&"%char else c) r.
Proof.
  unfold entityOf, markupChar.
  destruct (Ascii.eqb_spec c "&") as [-> | ?]; [by eexists | ].
  destruct (Ascii.eqb_spec c "<") as [-> | ?]; [by eexists | ].
  destruct (Ascii.eqb_spec c ">") as [-> | ?]; [by eexists | ].
  destruct (Ascii.eqb_spec c Html.dquote) as [-> | ?]; [by eexists | ].
  destruct (Ascii.eqb_spec c "'") as [-> | ?]; by eexists.
Qed.

(** X5. [escapeHtml_] loses nothing: two texts with the same escaped text
    are the same text. *)
Theorem escapeHtml_injective (s1 s2 : string) :
  Html.escapeHtml_ s1 = Html.escapeHtml_ s2 -> s1 = s2.
Proof.
  rewrite !escapeHtml_chars. revert s2.
  induction s1 as [| c1 s1 IH]; intros [| c2 s2]; simpl.
  - done.
  - destruct (entityOf_head c2) as [r ->]. discriminate.
  - destruct (entityOf_head c1) as [r ->]. discriminate.
  - unfold entityOf.
    destruct (Ascii.eqb_spec c1 "&") as [-> | N1];
      [ | destruct (Ascii.eqb_spec c1 "<") as [-> | N2];
        [ | destruct (Ascii.eqb_spec c1 ">") as [-> | N3];
          [ | destruct (Ascii.eqb_spec c1 Html.dquote) as [-> | N4];
            [ | destruct (Ascii.eqb_spec c1 "'") as [-> | N5] ] ] ] ];
    (destruct (Ascii.eqb_spec c2 "&") as [-> | M1];
      [ | destruct (Ascii.eqb_spec c2 "<") as [-> | M2];
        [ | destruct (Ascii.eqb_spec c2 ">") as [-> | M3];
          [ | destruct (Ascii.eqb_spec c2 Html.dquote) as [-> | M4];
            [ | destruct (Ascii.eqb_spec c2 "'") as [-> | M5] ] ] ] ]);
    simpl; intros H; try discriminate H;
    try (injection H as H; try congruence; by rewrite (IH _ H));
    try (injection H as -> H; by rewrite (IH _ H));
    try (injection H as ? H; congruence).
Qed.

(** A text with each of the five special characters. *)
Lemma escapeHtml_injective_witness :
  "<a href='x'>R&D</a>" = "<a href='x'>R&D</a>".
Proof.
  apply (escapeHtml_injective "<a href='x'>R&D</a>" "<a href='x'>R&D</a>").
  reflexivity.
Defined.

(** *** Dates of the report *)

(** X6. For a day of the years 1 to 9999, [fmtMDY_] turns the text
    yyyy-MM-dd of the day into MM/dd/yyyy of the same day, month and
    year. *)
Theorem fmtMDY_of_day (n y m d : Z) :
  inEra n -> JsDate.civilFromDays n = (y, m, d) ->
  Html.fmtMDY_ (JsDate.formatYMD n)
  = JsDate.pad2 m +:+ "/" +:+ JsDate.pad2 d +:+ "/" +:+ JsDate.pad4 y.
Proof.
  intros Hn Hciv. unfold Html.fmtMDY_.
  rewrite (isYMD_formatYMD n Hn).
  destruct (inEra_year n y m d Hn Hciv) as (Hy & Hm & Hd).
  rewrite (formatYMD_dashed n y m d Hciv), pad4_four by lia.
  reflexivity.
Qed.

(** The day 2025-01-10. *)
Lemma fmtMDY_of_day_witness :
  Html.fmtMDY_ (JsDate.formatYMD 20098)
  = JsDate.pad2 1 +:+ "/" +:+ JsDate.pad2 10 +:+ "/" +:+ JsDate.pad4 2025.
Proof.
  apply (fmtMDY_of_day 20098 2025 1 10).
  - unfold inEra, dayMin, dayHi. lia.
  - vm_compute. reflexivity.
Defined.

Lemma lt_false_dateLe (a b : string) : JsString.lt a b = false <-> dateLe b a.
Proof.
  unfold JsString.lt, String.ltb, dateLe.
  rewrite (String.compare_antisym b a).
  destruct (String.compare a b); simpl; split; congruence.
Qed.

Lemma dateLe_refl (a : string) : dateLe a a.
Proof. apply dateLe_cases. by left. Qed.

Lemma isYMD_truthy_string (s : string) :
  JsDate.isYMD s = true -> JsString.truthy s = true.
Proof. by destruct s. Qed.

(** What the loop of [getMinPolicyStart_] keeps: the minimum so far is a
    date, the trimmed start of a ghost seen, and not after any dated start
    seen. *)
Lemma getMinPolicyStart_fold (gs seen : list Html.Ghost) (min0 : option string) :
  match min0 with
  | None => List.Forall (fun g => datedStart g = false) seen
  | Some m =>
      JsDate.isYMD m = true /\
      (exists g, In g seen /\ JsString.trim (Html.policyStart g) = m) /\
      List.Forall (fun g => datedStart g = true ->
                            dateLe m (JsString.trim (Html.policyStart g))) seen
  end ->
  match fold_left
          (fun min g =>
             let s := JsString.trim (Html.policyStart g) in
             if negb (JsDate.isYMD s) then min
             else match min with
                  | None => Some s
                  | Some m =>
                      if negb (JsString.truthy m) || JsString.lt s m
                      then Some s else Some m
                  end) gs min0 with
  | None => List.Forall (fun g => datedStart g = false) (seen ++ gs)
  | Some m =>
      JsDate.isYMD m = true /\
      (exists g, In g (seen ++ gs) /\ JsString.trim (Html.policyStart g) = m) /\
      List.Forall (fun g => datedStart g = true ->
                            dateLe m (JsString.trim (Html.policyStart g)))
        (seen ++ gs)
  end.
Proof.
  revert seen min0. induction gs as [| g gs IH]; intros seen min0 Hinv.
  - rewrite app_nil_r. exact Hinv.
  - cbn [fold_left].
    replace (seen ++ g :: gs) with ((seen ++ [g]) ++ gs)
      by (by rewrite <- app_assoc).
    apply IH. cbv zeta.
    destruct (JsDate.isYMD (JsString.trim (Html.policyStart g))) eqn:Hd;
      cbn [negb].
    + destruct min0 as [m | ].
      * destruct Hinv as (Hm & (g0 & Hin & Hg0) & Hall).
        rewrite (isYMD_truthy_string m Hm). cbn [negb orb].
        destruct (JsString.lt _ m) eqn:Hlt.
        -- split; [done | ]. split.
           ++ exists g. split; [apply in_or_app; right; by left | done].
           ++ apply Forall_app. split.
              ** eapply List.Forall_impl; [ | exact Hall].
                 intros a Ha Hda. eapply dateLe_trans; [ | by apply Ha].
                 unfold JsString.lt, String.ltb in Hlt. unfold dateLe.
                 destruct (String.compare _ m); congruence.
              ** constructor; [ | constructor]. intros _. apply dateLe_refl.
        -- split; [done | ]. split.
           ++ exists g0. split; [apply in_or_app; by left | done].
           ++ apply Forall_app. split; [done | ].
              constructor; [ | constructor]. intros _.
              by apply lt_false_dateLe.
      * split; [done | ]. split.
        -- exists g. split; [apply in_or_app; right; by left | done].
        -- apply Forall_app. split.
           ++ eapply List.Forall_impl; [ | exact Hinv].
              intros a Ha Hda. congruence.
           ++ constructor; [ | constructor]. intros _. apply dateLe_refl.
    + destruct min0 as [m | ].
      * destruct Hinv as (Hm & (g0 & Hin & Hg0) & Hall).
        split; [done | ]. split.
        -- exists g0. split; [apply in_or_app; by left | done].
        -- apply Forall_app. split; [done | ].
           constructor; [ | constructor]. unfold datedStart. congruence.
      * apply Forall_app. split; [done | ].
        constructor; [ | constructor]. exact Hd.
Qed.

(** X7. [getMinPolicyStart_] returns nothing exactly when no ghost has a
    policy start that is a date once trimmed; otherwise it returns the
    trimmed start of one of the ghosts, a date, and no dated start of a
    ghost is before it. *)
Theorem getMinPolicyStart_least (ghosts : list Html.Ghost) :
  match Html.getMinPolicyStart_ ghosts with
  | None => forall g, In g ghosts -> datedStart g = false
  | Some m =>
      JsDate.isYMD m = true /\
      (exists g, In g ghosts /\ JsString.trim (Html.policyStart g) = m) /\
      (forall g, In g ghosts -> datedStart g = true ->
         JsString.lt (JsString.trim (Html.policyStart g)) m = false)
  end.
Proof.
  pose proof (getMinPolicyStart_fold ghosts [] None
                (List.Forall_nil _)) as H.
  unfold Html.getMinPolicyStart_. cbn [app] in H.
  destruct (fold_left _ ghosts None) as [m | ].
  - destruct H as (Hm & Hex & Hall). split; [done | ]. split; [done | ].
    intros g Hin Hd. apply lt_false_dateLe.
    rewrite List.Forall_forall in Hall. by apply Hall.
  - intros g Hin. rewrite List.Forall_forall in H. by apply H.
Qed.

(** *** Rows and headers *)

(** X8. [normalizeRowWidth_] returns a row of exactly [width] cells: the
    cells of the row given as far as they go, then empty cells; a row that
    has the width already is returned as it is. *)
Theorem normalizeRowWidth_shape (r : row) (width : nat) :
  length (normalizeRowWidth_ r width) = width /\
  (forall i, (i < width)%nat ->
     normalizeRowWidth_ r width !! i = Some (default EmptyString (r !! i))) /\
  normalizeRowWidth_ (normalizeRowWidth_ r width) width
    = normalizeRowWidth_ r width.
Proof.
  split; [apply length_normalizeRowWidth_ | ]. split.
  - intros i Hi.
    pose proof (cellAt_normalizeRowWidth_ r width i Hi) as Hc.
    rewrite !cellAt_lookup in Hc.
    destruct (lookup_lt_is_Some_2 (normalizeRowWidth_ r width) i) as [x Hx].
    { by rewrite length_normalizeRowWidth_. }
    rewrite Hx in *. simpl in Hc. by rewrite Hc.
  - rewrite <- (length_normalizeRowWidth_ r width) at 2.
    apply normalizeRowWidth_id.
Qed.

Lemma findIndex_None {A} (p : A -> bool) (l : list A) :
  findIndex p l = None <-> forall x, In x l -> p x = false.
Proof.
  induction l as [| a l IH]; simpl; [done | ].
  destruct (p a) eqn:Hp.
  - split; [done | ]. intros H. specialize (H a (or_introl eq_refl)).
    congruence.
  - destruct (findIndex p l) as [k |]; simpl.
    + split; [done | ]. intros H.
      assert (Hn : Some k = None) by (apply IH; intros x Hx; apply H; by right).
      done.
    + split; [ | done]. intros _ x [<- | Hx]; [done | ].
      by apply IH.
Qed.

Lemma indexOf_None (x : string) (l : list string) :
  indexOf x l = None <-> ~ In x l.
Proof.
  unfold indexOf. rewrite findIndex_None. split.
  - intros H Hin. specialize (H x Hin). by rewrite String.eqb_refl in H.
  - intros H y Hy. destruct (String.eqb_spec x y) as [-> | ?]; done.
Qed.

Lemma indexOf_first (x : string) (l : list string) (i : nat) :
  indexOf x l = Some i ->
  l !! i = Some x /\ forall j, (j < i)%nat -> l !! j <> Some x.
Proof.
  unfold indexOf. revert i. induction l as [| a l IH]; intros i; simpl;
    [discriminate | ].
  destruct (String.eqb_spec x a) as [-> | Hne].
  - intros [= <-]. split; [done | lia].
  - destruct (findIndex (String.eqb x) l) as [k |] eqn:Hk; simpl;
      [ | discriminate].
    intros [= <-]. destruct (IH k eq_refl) as [Hk1 Hk2]. split; [done | ].
    intros [| j] Hj; simpl; [congruence | ]. apply Hk2. lia.
Qed.

(** X9. When [buildColumnMap_] returns, the date and the ticker column are
    the first header cells that read date and ticker once trimmed and in
    lower case, and the price column is the first cell that reads
    adjclose, else the first that reads close, else the first that holds
    adjclose, close or price; the three columns are different. *)
Theorem buildColumnMap_columns (header : row) (col : Hist.ColumnMap) :
  Hist.buildColumnMap_ header = Ok col ->
  let h := headerNames header in
  (Hist.date col <> Hist.ticker col /\ Hist.date col <> Hist.price col /\
   Hist.ticker col <> Hist.price col) /\
  indexOf "date" h = Some (Hist.date col) /\
  indexOf "ticker" h = Some (Hist.ticker col) /\
  (In "adjclose" h -> indexOf "adjclose" h = Some (Hist.price col)) /\
  (~ In "adjclose" h -> In "close" h ->
     indexOf "close" h = Some (Hist.price col)) /\
  (~ In "adjclose" h -> ~ In "close" h ->
     findIndex priceLike h = Some (Hist.price col)).
Proof.
  intros Hok h. split; [by apply (buildColumnMap_distinct header) | ].
  subst h. unfold Hist.buildColumnMap_ in Hok. fold (headerNames header) in Hok.
  change (fun x : string =>
            JsString.includes x "adjclose" || JsString.includes x "close"
            || JsString.includes x "price") with priceLike in Hok.
  destruct (indexOf "date" (headerNames header)) as [d |]; [ | discriminate].
  destruct (indexOf "ticker" (headerNames header)) as [t |];
    [ | by destruct (indexOf "adjclose" (headerNames header)),
             (indexOf "close" (headerNames header)),
             (findIndex priceLike (headerNames header))].
  destruct (indexOf "adjclose" (headerNames header)) as [a |] eqn:Ha.
  - injection Hok as <-. cbn.
    split; [done | ]. split; [done | ]. split; [done | ].
    split; intros Hn; exfalso; apply indexOf_None in Hn; congruence.
  - pose proof Ha as Hna. apply indexOf_None in Hna.
    destruct (indexOf "close" (headerNames header)) as [c |] eqn:Hc.
    + injection Hok as <-. cbn.
      split; [done | ]. split; [done | ]. split; [done | ].
      split; [done | ]. intros _ Hn. exfalso. apply indexOf_None in Hn.
      congruence.
    + pose proof Hc as Hnc. apply indexOf_None in Hnc.
      destruct (findIndex priceLike (headerNames header)) as [p |];
        [ | discriminate].
      injection Hok as <-. cbn.
      split; [done | ]. split; [done | ]. split; [done | ].
      split; done.
Qed.

(** The price column of a table with both closes is the adjusted one. *)
Lemma buildColumnMap_columns_witness :
  indexOf "adjclose" (headerNames closeHeader) = Some 3%nat /\
  Hist.buildColumnMap_ closeHeader
  = Ok {| Hist.date := 0; Hist.ticker := 1; Hist.price := 3;
          Hist.width := 0 |}.
Proof.
  assert (Hok : Hist.buildColumnMap_ closeHeader
                = Ok {| Hist.date := 0; Hist.ticker := 1; Hist.price := 3;
                        Hist.width := 0 |}) by reflexivity.
  split; [ | exact Hok].
  destruct (buildColumnMap_columns closeHeader _ Hok)
    as (_ & _ & _ & Hadj & _).
  apply Hadj. vm_compute. auto.
Defined.

Lemma indexText_missing (i : option nat) :
  Hist.indexText i = "-1" <-> i = None.
Proof.
  destruct i as [n |]; simpl; [ | done]. split; [ | done]. intros H.
  destruct (decimal_digits (Z.of_nat n)) as [Hdig _].
  rewrite H in Hdig. discriminate.
Qed.

Lemma priceIndex_None (h : list string) :
  match indexOf "adjclose" h with
  | Some i => Some i
  | None => match indexOf "close" h with
            | Some i => Some i
            | None => findIndex priceLike h
            end
  end = None <-> forall x, In x h -> priceLike x = false.
Proof.
  assert (Hin : forall x i, indexOf x h = Some i -> In x h).
  { intros x i Hi. destruct (in_dec string_dec x h) as [? | Hn]; [done | ].
    apply indexOf_None in Hn. congruence. }
  destruct (indexOf "adjclose" h) as [a |] eqn:Ha.
  { split; [discriminate | ]. intros Hall.
    specialize (Hall _ (Hin _ _ Ha)). discriminate. }
  destruct (indexOf "close" h) as [c |] eqn:Hc.
  { split; [discriminate | ]. intros Hall.
    specialize (Hall _ (Hin _ _ Hc)). discriminate. }
  apply findIndex_None.
Qed.

(** X10. [buildColumnMap_] throws exactly when no header cell reads date, or
    none reads ticker, or none holds adjclose, close or price.  The
    message of the error is HIST header missing required columns. followed
    by date=, ticker= and price= with an index each: -1 exactly for a
    column that is missing, and for date and ticker the index of the first
    cell that reads so. *)
Theorem buildColumnMap_missing (header : row) :
  let h := headerNames header in
  let missing := ~ In "date" h \/ ~ In "ticker" h \/
                 forall x, In x h -> priceLike x = false in
  (missing -> exists msg, Hist.buildColumnMap_ header = Throw msg) /\
  (forall msg, Hist.buildColumnMap_ header = Throw msg ->
     missing /\
     exists d t p,
       msg = "HIST header missing required columns. date=" +:+ d
             +:+ ", ticker=" +:+ t +:+ ", price=" +:+ p /\
       d = Hist.indexText (indexOf "date" h) /\
       t = Hist.indexText (indexOf "ticker" h) /\
       (d = "-1" <-> ~ In "date" h) /\
       (t = "-1" <-> ~ In "ticker" h) /\
       (p = "-1" <-> forall x, In x h -> priceLike x = false)).
Proof.
  cbv zeta. unfold Hist.buildColumnMap_. fold (headerNames header).
  cbv zeta.
  change (fun x : string =>
            JsString.includes x "adjclose" || JsString.includes x "close"
            || JsString.includes x "price") with priceLike.
  set (h := headerNames header).
  pose proof (priceIndex_None h) as Hp.
  pose proof (indexOf_None "date" h) as Hd.
  pose proof (indexOf_None "ticker" h) as Ht.
  set (pi := match indexOf "adjclose" h with
             | Some i => Some i
             | None => match indexOf "close" h with
                       | Some i => Some i
                       | None => findIndex priceLike h
                       end
             end) in *.
  clearbody pi.
  assert (Hmsg : forall di ti,
            (di = None <-> ~ In "date" h) -> (ti = None <-> ~ In "ticker" h) ->
            di = None \/ ti = None \/ pi = None ->
            (~ In "date" h \/ ~ In "ticker" h \/
             forall x, In x h -> priceLike x = false) /\
            exists d t p,
              "HIST header missing required columns. date="
              +:+ Hist.indexText di +:+ ", ticker=" +:+ Hist.indexText ti
              +:+ ", price=" +:+ Hist.indexText pi
              = "HIST header missing required columns. date=" +:+ d
                +:+ ", ticker=" +:+ t +:+ ", price=" +:+ p /\
              d = Hist.indexText di /\ t = Hist.indexText ti /\
              (d = "-1" <-> ~ In "date" h) /\
              (t = "-1" <-> ~ In "ticker" h) /\
              (p = "-1" <-> forall x, In x h -> priceLike x = false)).
  { intros di ti Hdi Hti Hnone. split.
    - destruct Hnone as [H | [H | H]];
        [left; by apply Hdi | right; left; by apply Hti
         | right; right; by apply Hp].
    - exists (Hist.indexText di), (Hist.indexText ti), (Hist.indexText pi).
      split; [done | ]. split; [done | ]. split; [done | ].
      split; [ | split]; (etransitivity; [apply indexText_missing | done]). }
  destruct (indexOf "date" h) as [d |], (indexOf "ticker" h) as [t |],
    pi as [p |]; split;
    try (intros _; eexists; reflexivity);
    try (intros msg [= <-]; apply (Hmsg _ _ Hd Ht); auto; fail).
  intros [Hm | [Hm | Hm]];
      [apply Hd in Hm | apply Ht in Hm | apply Hp in Hm]; discriminate.
Qed.

(** *** Series *)

Lemma sortBy_NoDup (l : list string) :
  NoDup l -> NoDup (sortBy String.compare l).
Proof.
  intros H. eapply NoDup_ListNoDup, Permutation_NoDup;
    [symmetry; apply sortBy_Permutation | ].
  by apply NoDup_ListNoDup.
Qed.

Lemma intersect_NoDup {V} (m1 m2 : list (string * V)) :
  NoDup (objKeys m1) -> NoDup (Analytics.intersectSortedKeys_ m1 m2).
Proof.
  intros H. unfold Analytics.intersectSortedKeys_. apply sortBy_NoDup.
  apply NoDup_ListNoDup, List.NoDup_filter. by apply NoDup_ListNoDup.
Qed.

Lemma sorted_NoDup_strict (l : list string) :
  StronglySorted dateLe l -> NoDup l ->
  StronglySorted (fun a b => JsString.lt a b = true) l.
Proof.
  induction 1 as [| x l Hs IH Hall]; intros Hnd; [constructor | ].
  apply NoDup_cons in Hnd as [Hx Hnd]. constructor; [by apply IH | ].
  apply List.Forall_forall. intros y Hy.
  rewrite List.Forall_forall in Hall. specialize (Hall y Hy).
  apply dateLe_cases in Hall as [-> | Hlt].
  - exfalso. apply Hx. by apply list_elem_of_In.
  - apply String_as_OT.cmp_lt in Hlt. unfold String_as_OT.cmp in Hlt.
    unfold JsString.lt, String.ltb. by rewrite Hlt.
Qed.

(** X11. The keys that [intersectSortedKeys_] returns for two maps are the
    keys that both maps hold, each once, in strictly ascending order of
    code units. *)
Theorem intersectSortedKeys_spec {V} (m1 m2 : list (string * V)) :
  NoDup (objKeys m1) ->
  (forall k, In k (Analytics.intersectSortedKeys_ m1 m2) <->
     is_Some (objGet k m1) /\ is_Some (objGet k m2)) /\
  StronglySorted (fun a b => JsString.lt a b = true)
    (Analytics.intersectSortedKeys_ m1 m2).
Proof.
  intros Hnd. split.
  - intros k. rewrite intersect_elem, !objGet_is_Some. done.
  - apply sorted_NoDup_strict; [apply intersect_sorted | ].
    by apply intersect_NoDup.
Qed.

(** Three dates against two of them, entered out of order. *)
Lemma intersectSortedKeys_spec_witness :
  Analytics.intersectSortedKeys_ seriesT seriesB
    = ["2025-01-01"; "2025-01-03"] /\
  StronglySorted (fun a b => JsString.lt a b = true)
    (Analytics.intersectSortedKeys_ seriesT seriesB).
Proof.
  split; [reflexivity | ].
  apply (intersectSortedKeys_spec seriesT seriesB).
  apply (bool_decide_unpack (NoDup (objKeys seriesT))). vm_compute. exact I.
Defined.

(** *** Correlation is symmetric *)

Lemma mul_comm (a b : JsNum.num) : JsNum.mul a b = JsNum.mul b a.
Proof.
  unfold JsNum.mul, SFmul.
  destruct a as [sa | sa | | sa ma ea], b as [sb | sb | | sb mb eb];
    try reflexivity; try (by rewrite xorb_comm).
  by rewrite xorb_comm, Pos.mul_comm, Z.add_comm.
Qed.

Lemma sumsOf_swap_from (x y : list JsNum.num) (s : Analytics.Sums) :
  fold_left
    (fun s '(a, b) =>
       {| Analytics.sumX := JsNum.add (Analytics.sumX s) a;
          Analytics.sumY := JsNum.add (Analytics.sumY s) b;
          Analytics.sumXY := JsNum.add (Analytics.sumXY s) (JsNum.mul a b);
          Analytics.sumX2 := JsNum.add (Analytics.sumX2 s) (JsNum.mul a a);
          Analytics.sumY2 := JsNum.add (Analytics.sumY2 s) (JsNum.mul b b) |})
    (combine y x) (swapSums s)
  = swapSums
      (fold_left
         (fun s '(a, b) =>
            {| Analytics.sumX := JsNum.add (Analytics.sumX s) a;
               Analytics.sumY := JsNum.add (Analytics.sumY s) b;
               Analytics.sumXY := JsNum.add (Analytics.sumXY s) (JsNum.mul a b);
               Analytics.sumX2 := JsNum.add (Analytics.sumX2 s) (JsNum.mul a a);
               Analytics.sumY2 := JsNum.add (Analytics.sumY2 s) (JsNum.mul b b) |})
         (combine x y) s).
Proof.
  revert y s. induction x as [| a x IH]; intros [| b y] s; try reflexivity.
  cbn [combine fold_left]. rewrite <- IH. f_equal.
  unfold swapSums. cbn. by rewrite (mul_comm b a).
Qed.

Lemma sumsOf_swap (x y : list JsNum.num) :
  Analytics.sumsOf (combine y x) = swapSums (Analytics.sumsOf (combine x y)).
Proof. unfold Analytics.sumsOf. by rewrite <- sumsOf_swap_from. Qed.

(** X12. [pearson_] is symmetric: exchanging the two series gives the same
    number, bit for bit. *)
Theorem pearson_symmetric (x y : list JsNum.num) :
  Analytics.pearson_ x y = Analytics.pearson_ y x.
Proof.
  unfold Analytics.pearson_. rewrite (Nat.min_comm (length y) (length x)).
  destruct (_ <? 2)%nat; [reflexivity | ].
  rewrite (sumsOf_swap x y). cbv zeta.
  unfold Analytics.pearsonNum, Analytics.pearsonDen, Analytics.varTermX,
    Analytics.varTermY, swapSums.
  cbn [Analytics.sumX Analytics.sumY Analytics.sumXY Analytics.sumX2
       Analytics.sumY2].
  rewrite (mul_comm (Analytics.sumY _) (Analytics.sumX _)).
  rewrite (mul_comm (JsNum.sub (JsNum.mul _ (Analytics.sumY2 _)) _)
                    (JsNum.sub (JsNum.mul _ (Analytics.sumX2 _)) _)).
  reflexivity.
Qed.

(** *** The window of a computed alpha *)

Lemma last_In {A} (rest : list A) (d : A) :
  rest <> [] -> In (List.last rest d) rest.
Proof.
  intros Hne. destruct (exists_last Hne) as (l' & a & ->).
  rewrite last_last. apply in_or_app. right. by left.
Qed.

Lemma objGet_objSet {V} (d k : string) (v : V) (o : list (string * V)) :
  objGet d (objSet k v o) = if String.eqb d k then Some v else objGet d o.
Proof.
  induction o as [| [k0 v0] o IH]; simpl.
  - by destruct (String.eqb d k).
  - destruct (String.eqb_spec k k0) as [-> | Hne]; simpl.
    + by destruct (String.eqb d k0).
    + rewrite IH. destruct (String.eqb_spec d k0) as [-> | ?]; [ | done].
      by destruct (String.eqb_spec k0 k) as [-> | ?].
Qed.

(** X13. When [calculateAlphaAndCorrVsBenchmark_] reports an alpha, the
    policy start is a date, the window starts on or after it and ends on a
    strictly later date, and the ticker and the baseline both have a finite
    price on the first and on the last date of the window. *)
Theorem alphaCorr_window (C : Config) (rows : table) (col : Hist.ColumnMap)
    (ticker bench startStr b ps ws we a c : string) :
  Analytics.calculateAlphaAndCorrVsBenchmark_ C rows col ticker bench startStr
    = Analytics.Computed b ps ws we a c ->
  let tMap := fst (Analytics.buildSeries col (Hist.normTicker ticker)
                     (Hist.normTicker bench) startStr rows) in
  let bMap := snd (Analytics.buildSeries col (Hist.normTicker ticker)
                     (Hist.normTicker bench) startStr rows) in
  (b = Hist.normTicker bench /\ ps = startStr /\
   JsDate.isYMD startStr = true) /\
  (JsString.lt ws startStr = false /\ JsString.lt ws we = true) /\
  (forall d, d = ws \/ d = we ->
     exists pt pb, objGet d tMap = Some pt /\ objGet d bMap = Some pb /\
       JsNum.isFinite pt = true /\ JsNum.isFinite pb = true).
Proof.
  intros Hres tMap bMap.
  unfold Analytics.calculateAlphaAndCorrVsBenchmark_ in Hres.
  destruct (JsDate.isYMD startStr) eqn:Hymd;
    [ | cbn [negb] in Hres; rewrite orb_true_r in Hres; discriminate].
  rewrite (isYMD_truthy _ Hymd) in Hres. cbn [negb orb] in Hres.
  destruct (buildSeries_NoDup col (Hist.normTicker ticker)
              (Hist.normTicker bench) startStr rows) as [HndT HndB].
  fold tMap in HndT. fold bMap in HndB.
  assert (Hfin : forall d,
            (forall pt, objGet d tMap = Some pt -> JsNum.isFinite pt = true) /\
            (forall pb, objGet d bMap = Some pb -> JsNum.isFinite pb = true)).
  { intros d. subst tMap bMap. unfold Analytics.buildSeries.
    set (P := fun acc : list (string * JsNum.num) * list (string * JsNum.num) =>
                (forall pt, objGet d (fst acc) = Some pt ->
                   JsNum.isFinite pt = true) /\
                (forall pb, objGet d (snd acc) = Some pb ->
                   JsNum.isFinite pb = true)).
    assert (Hgen : forall rs acc, P acc ->
      P (fold_left
           (fun '(tMap, bMap) r =>
              let d := Analytics.cellText r (Hist.date col) in
              if JsString.lt d startStr then (tMap, bMap)
              else
                let sym := Hist.normTicker
                             (Analytics.cellText r (Hist.ticker col)) in
                let px := JsNum.parseFloat
                            (Analytics.cellText r (Hist.price col)) in
                if negb (JsNum.isFinite px) then (tMap, bMap)
                else
                  (if String.eqb sym (Hist.normTicker ticker)
                   then objSet d px tMap else tMap,
                   if String.eqb sym (Hist.normTicker bench)
                   then objSet d px bMap else bMap))
           rs acc)).
    { induction rs as [| r rs IH]; intros [tM bM] Hacc; [done | ].
      cbn [fold_left]. apply IH. cbv zeta.
      destruct (JsString.lt _ startStr); [done | ].
      destruct (JsNum.isFinite (JsNum.parseFloat _)) eqn:Hpx; cbn [negb];
        [ | done].
      destruct Hacc as [HT HB]. unfold P. cbn [fst snd]. split.
      - destruct (String.eqb _ (Hist.normTicker ticker)); [ | done].
        intros pt Hget. rewrite objGet_objSet in Hget.
        destruct (String.eqb d _); [by injection Hget as <- | by apply HT].
      - destruct (String.eqb _ (Hist.normTicker bench)); [ | done].
        intros pb Hget. rewrite objGet_objSet in Hget.
        destruct (String.eqb d _); [by injection Hget as <- | by apply HB]. }
    apply (Hgen rows ([], [])). split; intros ? [=]. }
  destruct (Analytics.buildSeries col _ _ startStr rows) as [tM bM] eqn:Hbs.
  cbn [fst snd] in tMap, bMap. subst tMap bMap.
  destruct ((length tM <? 2)%nat || (length bM <? 2)%nat); [discriminate | ].
  destruct (Analytics.intersectSortedKeys_ tM bM) as [| d0 [| d1 rest]]
    eqn:Hdates; [discriminate | discriminate | ].
  destruct (Analytics.pairedReturns tM bM d0 (d1 :: rest)) as [x y].
  injection Hres as <- <- <- <- _ _.
  pose proof (intersect_sorted tM bM) as Hsorted.
  pose proof (intersect_NoDup tM bM HndT) as Hnd.
  rewrite Hdates in Hsorted, Hnd.
  assert (HdN : In (List.last (d1 :: rest) d0) (d1 :: rest))
    by by apply last_In.
  assert (Hin : forall k, In k (d0 :: d1 :: rest) ->
            In k (objKeys tM) /\ In k (objKeys bM)).
  { intros k Hk. rewrite <- Hdates in Hk. by apply intersect_elem in Hk. }
  split; [done | ]. split; [split | ].
  - pose proof (buildSeries_from_start col (Hist.normTicker ticker)
                  (Hist.normTicker bench) startStr rows d0) as Hs.
    rewrite Hbs in Hs. apply Hs. apply (Hin d0). by left.
  - apply sorted_NoDup_strict in Hsorted; [ | done].
    apply StronglySorted_inv in Hsorted as [_ Hall].
    rewrite List.Forall_forall in Hall. by apply Hall.
  - intros d Hd.
    assert (Hk : In d (d0 :: d1 :: rest)).
    { destruct Hd as [-> | ->]; [by left | by right]. }
    destruct (Hin d Hk) as [[pt Hpt]%objGet_of_In [pb Hpb]%objGet_of_In].
    exists pt, pb. split; [done | ]. split; [done | ].
    destruct (Hfin d) as [HT HB]. split; [by apply HT | by apply HB].
Qed.

(** The scenario of three days. *)
Lemma alphaCorr_window_witness :
  JsString.lt "2025-01-01" "2025-01-01" = false /\
  JsString.lt "2025-01-01" "2025-01-03" = true.
Proof.
  refine (proj1 (proj2 (alphaCorr_window scCfg scRows scCol "NEWT" "VTI"
            "2025-01-01" "VTI" "2025-01-01" "2025-01-01" "2025-01-03"
            (Analytics.green +:+ " 11.0%") "N/A" _))).
  vm_compute. reflexivity.
Defined.

(** *** A table that cannot be read *)

(** X14. When the HIST file has fewer than two lines, or its header lacks a
    date, ticker or price column, [updateHistDatabase_] throws and the
    store is as it was: no cursor is deleted and the file is not
    written. *)
Theorem hist_unreadable_untouched (C : Config) (W : World) (today : string)
    (requiredTickers policyRequiredSet : list string) (startTime : Z)
    (s : Hist.Store) :
  let parsed := parseCsv W (stripBomTrim (Hist.histCsv s)) in
  ((length parsed < 2)%nat ->
   Hist.updateHistDatabase_ C W today requiredTickers policyRequiredSet
     startTime s = (Throw "HIST CSV empty or malformed.", s)) /\
  (forall header msg,
     (2 <= length parsed)%nat -> parsed !! 0%nat = Some header ->
     Hist.buildColumnMap_ header = Throw msg ->
     Hist.updateHistDatabase_ C W today requiredTickers policyRequiredSet
       startTime s = (Throw msg, s)).
Proof.
  intros parsed. unfold Hist.updateHistDatabase_, Hist.loadHist.
  eff_unfold. fold parsed. split.
  - intros Hlen. by destruct parsed as [| h [| b body]]; [ | | simpl in Hlen; lia].
  - intros header msg Hlen Hh Hcol.
    destruct parsed as [| h [| b body]]; [simpl in Hlen; lia.. | ].
    injection Hh as ->. by rewrite Hcol.
Qed.

(** A file with a header only. *)
Lemma hist_unreadable_untouched_witness :
  Hist.updateHistDatabase_ shortCfg quietWorld "2025-01-10" ["A"] [] 0
    bareStore = (Throw "HIST CSV empty or malformed.", bareStore).
Proof.
  apply (hist_unreadable_untouched shortCfg quietWorld "2025-01-10" ["A"] [] 0
           bareStore).
  vm_compute. lia.
Defined.

(** *** The tickers left unfinished *)

Section UnfinishedExact.
Variables (C : Config) (W : World) (today requiredStart : string)
(startTime : Z) (col : Hist.ColumnMap) (bounds : gmap string Hist.Bounds).

Let step := Hist.backfillStep C W today requiredStart startTime col bounds.

Lemma step_unfinished_iff (i : nat) (t x : string) (st st' : Hist.Loop)
  (r : result unit) :
step i t st = (r, st') ->
In x (Hist.unfinished st') <->
In x (Hist.unfinished st) \/
x = t /\ RUNTIME_BUDGET_MS C < now W i - startTime.
Proof.
intros Hs%backfillStep_inv.
destruct Hs; simpl; try (split; [by left | intros [? | [_ ?]]; [done | lia]]).
rewrite setAdd_In. split; [intros [-> | ?]; auto | ].
intros [? | [-> _]]; auto.
Qed.

Lemma loop_unfinished_iff (ts : list string) (i0 : nat)
  (st st' : Hist.Loop) (x : string) :
Hist.backfillLoop step i0 ts st = (Ok tt, st') ->
In x (Hist.unfinished st') <->
In x (Hist.unfinished st) \/
exists k, ts !! k = Some x /\
  RUNTIME_BUDGET_MS C < now W (i0 + k) - startTime.
Proof.
revert i0 st. induction ts as [| u ts IH]; intros i0 st Hloop.
- injection Hloop as <-. split; [by left | ].
  intros [? | (k & Hk & _)]; done.
- rewrite backfillLoop_cons in Hloop.
  destruct (step i0 u st) as [[[] | msg] st1] eqn:Hs; [ | discriminate].
  rewrite (IH _ _ Hloop), (step_unfinished_iff _ _ _ _ _ _ Hs). split.
  + intros [[? | [-> Hb]] | (k & Hk & Hb)].
    * by left.
    * right. exists O. by rewrite Nat.add_0_r.
    * right. exists (S k). split; [done | ].
      by replace (i0 + S k)%nat with (S i0 + k)%nat by lia.
  + intros [? | ([| k] & Hk & Hb)].
    * left. by left.
    * left. right. simpl in Hk. injection Hk as ->.
      by rewrite Nat.add_0_r in Hb.
    * right. exists k. split; [done | ].
      by replace (S i0 + k)%nat with (i0 + S k)%nat by lia.
Qed.

Lemma step_requests_shape (i : nat) (t : string) (st st' : Hist.Loop)
  (r : result unit) :
step i t st = (r, st') ->
Hist.requests st' = Hist.requests st \/
exists chunkStart chunkEnd,
  Hist.requests st' = Hist.requests st ++ [(t, chunkStart, chunkEnd)] /\
  JsString.lt chunkStart requiredStart = false /\
  JsString.lt chunkEnd requiredStart = false.
Proof.
intros Hs%backfillStep_inv.
assert (Hcs : forall ts,
          JsString.lt (chunkStartOf requiredStart ts) requiredStart = false).
{ intros ts. unfold chunkStartOf.
  destruct (JsString.lt ts requiredStart) eqn:Hlt; [ | done].
  apply lt_false_dateLe, dateLe_refl. }
destruct Hs; simpl; auto; right; eauto.
Qed.

Lemma loop_requests_shape (ts : list string) (i0 : nat)
  (st st' : Hist.Loop) (r : result unit) :
Hist.backfillLoop step i0 ts st = (r, st') ->
exists l,
  Hist.requests st' = Hist.requests st ++ l /\
  sublist (map requestTicker l) ts /\
  List.Forall (fun q => JsString.lt q.1.2 requiredStart = false /\
                        JsString.lt q.2 requiredStart = false) l.
Proof.
revert i0 st. induction ts as [| u ts IH]; intros i0 st Hloop.
- injection Hloop as <- <-. exists []. by rewrite app_nil_r.
- rewrite backfillLoop_cons in Hloop.
  destruct (step i0 u st) as [[[] | msg] st1] eqn:Hs.
  + destruct (IH _ _ Hloop) as (l & Hl & Hsub & Hall).
    destruct (step_requests_shape _ _ _ _ _ Hs)
      as [Heq | (cs & ce & Heq & Hcs & Hce)].
    * exists l. rewrite Hl, Heq. split; [done | ].
      split; [by apply sublist_cons | done].
    * exists ((u, cs, ce) :: l). rewrite Hl, Heq, <- app_assoc.
      split; [done | ]. split; [by apply sublist_skip | ].
      by constructor.
  + injection Hloop as <- <-.
    destruct (step_requests_shape _ _ _ _ _ Hs)
      as [Heq | (cs & ce & Heq & Hcs & Hce)].
    * exists []. rewrite Heq, app_nil_r. split; [done | ].
      split; [apply sublist_nil_l | done].
    * exists [(u, cs, ce)]. split; [done | ].
      split; [apply sublist_skip, sublist_nil_l | ].
      by constructor.
Qed.

End UnfinishedExact.

(** X15. A required ticker is reported unfinished exactly when the budget was
    found exceeded at one of its turns in the loop, whatever the clock did
    before and after. *)
Theorem unfinished_exactly_over_budget (C : Config) (W : World)
    (today : string) (requiredTickers policyRequiredSet : list string)
    (startTime : Z) (s s' : Hist.Store) (sync : Hist.Sync) (t : string) :
  Hist.updateHistDatabase_ C W today requiredTickers policyRequiredSet
    startTime s = (Ok sync, s') ->
  In t (Hist.unfinishedTickers sync) <->
  exists i, requiredTickers !! i = Some t /\
    now W i - startTime > RUNTIME_BUDGET_MS C.
Proof.
  intros Hrun.
  apply updateHistDatabase_inv in Hrun
    as (L & requiredStart & st & live & Hload & Hrs & Hloop & Hlive
        & -> & _).
  cbn [Hist.unfinishedTickers]. unfold loopOf in Hloop.
  rewrite (loop_unfinished_iff _ _ _ _ _ _ _ _ _ _ _ t Hloop). simpl.
  split.
  - intros [[] | (k & Hk & Hb)]. exists k. split; [done | lia].
  - intros (i & Hi & Hb). right. exists i. split; [done | lia].
Qed.

(** The budget is passed at the second of three tickers only. *)
Lemma unfinished_exactly_over_budget_witness :
  In "C" (Hist.unfinishedTickers (okOr noSync (fst hiccupRun))) <->
  exists i, ["A"; "C"; "D"] !! i = Some "C" /\
    now hiccupWorld i - 0 > RUNTIME_BUDGET_MS shortCfg.
Proof.
  apply (unfinished_exactly_over_budget shortCfg hiccupWorld "2025-01-10"
           ["A"; "C"; "D"] [] 0 abcStore (snd hiccupRun)
           (okOr noSync (fst hiccupRun)) "C").
  vm_compute. reflexivity.
Defined.

(** X16. An invocation asks the price feed for at most one chunk per
    required ticker, in the order of the required tickers, and no chunk
    starts or ends before the required start. *)
Theorem one_chunk_per_ticker (C : Config) (W : World) (today : string)
    (requiredTickers policyRequiredSet : list string) (startTime : Z)
    (s s' : Hist.Store) (sync : Hist.Sync) :
  NoDup requiredTickers ->
  Hist.updateHistDatabase_ C W today requiredTickers policyRequiredSet
    startTime s = (Ok sync, s') ->
  sublist (map requestTicker (Hist.fetched sync)) requiredTickers /\
  NoDup (map requestTicker (Hist.fetched sync)) /\
  exists requiredStart,
    JsDate.addDaysYMD_ today (- MIN_BACKFILL_DAYS C) = Some requiredStart /\
    forall t chunkStart chunkEnd,
      In (t, chunkStart, chunkEnd) (Hist.fetched sync) ->
      JsString.lt chunkStart requiredStart = false /\
      JsString.lt chunkEnd requiredStart = false.
Proof.
  intros Hnd Hrun.
  apply updateHistDatabase_inv in Hrun
    as (L & requiredStart & st & live & Hload & Hrs & Hloop & Hlive
        & -> & _).
  cbn [Hist.fetched]. unfold loopOf in Hloop.
  destruct (loop_requests_shape _ _ _ _ _ _ _ _ _ _ _ _ Hloop)
    as (l & Hl & Hsub & Hall).
  simpl in Hl. subst l. split; [done | ].
  split; [by eapply sublist_NoDup | ].
  exists requiredStart. split; [done | ].
  intros t cs ce Hin. rewrite List.Forall_forall in Hall.
  apply (Hall _ Hin).
Qed.

(** The first invocation of the daily scenario. *)
Lemma one_chunk_per_ticker_witness :
  sublist (map requestTicker (Hist.fetched (okOr noSync (fst firstRun))))
    ["A"] /\
  NoDup (map requestTicker (Hist.fetched (okOr noSync (fst firstRun)))) /\
  exists requiredStart,
    JsDate.addDaysYMD_ "2025-01-10" (- MIN_BACKFILL_DAYS shortCfg)
      = Some requiredStart /\
    forall t chunkStart chunkEnd,
      In (t, chunkStart, chunkEnd)
        (Hist.fetched (okOr noSync (fst firstRun))) ->
      JsString.lt chunkStart requiredStart = false /\
      JsString.lt chunkEnd requiredStart = false.
Proof.
  apply (one_chunk_per_ticker shortCfg dailyWorld "2025-01-10" ["A"] [] 0
           freshStore (snd firstRun) (okOr noSync (fst firstRun))).
  - apply NoDup_singleton.
  - vm_compute. reflexivity.
Defined.

(** *** Where the emitted rows come from *)

Section Provenance.
Variables (C : Config) (W : World) (today requiredStart : string)
(startTime : Z) (col : Hist.ColumnMap) (bounds : gmap string Hist.Bounds)
(Q : string * row -> Prop).

Let step := Hist.backfillStep C W today requiredStart startTime col bounds.




End Provenance.




(** *** Today's row *)

Lemma mapKey_inj_r (d t t' : string) :
  Hist.mapKey d t = Hist.mapKey d t' -> t = t'.
Proof.
  unfold Hist.mapKey. induction d as [| c d IH]; intros H.
  - by injection H.
  - rewrite !append_cons in H. injection H as H. by apply IH.
Qed.

Lemma objSet_In_new {V} (k : string) (v : V) (o : list (string * V)) :
  In (k, v) (objSet k v o).
Proof.
  induction o as [| [k0 v0] o IH]; simpl; [by left | ].
  destruct (String.eqb k k0); [by left | by right].
Qed.

Lemma objSet_In_keep {V} (k k' : string) (v v' : V) (o : list (string * V)) :
  k' <> k -> In (k, v) o -> In (k, v) (objSet k' v' o).
Proof.
  intros Hne. induction o as [| [k0 v0] o IH]; simpl; [done | ].
  destruct (String.eqb_spec k' k0) as [-> | ?]; simpl.
  - intros [[= <- <-] | ?]; [done | by right].
  - intros [? | ?]; [by left | right; by apply IH].
Qed.

Lemma liveQuote_lookup (W : World) (ts : list string) (t : string)
    (live : list (string * JsNum.num)) :
  Hist.getBatchPricesScratch_ W ts = Ok live ->
  (forall u, In u ts -> Hist.normTicker u = u) ->
  In t ts -> JsString.truthy t = true ->
  objGet t live = Some (liveQuote W t).
Proof.
  unfold Hist.getBatchPricesScratch_. intros Hlive Hnorm Hin Ht.
  assert (Hgen : forall us acc,
    (forall u, In u us -> Hist.normTicker u = u) ->
    objGet t
      (fold_left
         (fun out u =>
            let k := Hist.normTicker u in
            let v := parseFloatCell (googleFinanceLive W u) in
            if JsString.truthy k
            then objSet k (if JsNum.isFinite v then v else JsNum.zero) out
            else out) us acc)
    = if memStr t us then Some (liveQuote W t) else objGet t acc).
  { induction us as [| u us IH]; intros acc Hus; [done | ].
    cbn [fold_left]. rewrite IH by (intros x Hx; apply Hus; by right).
    cbv zeta. rewrite (Hus u) by by left.
    unfold memStr at 2. cbn [existsb]. fold (memStr t us).
    destruct (memStr t us); [by rewrite orb_true_r | ].
    rewrite orb_false_r.
    destruct (String.eqb_spec t u) as [<- | Hne].
    - by rewrite Ht, objGet_objSet, String.eqb_refl.
    - destruct (JsString.truthy u); [ | done].
      rewrite objGet_objSet.
      destruct (String.eqb_spec t u); [congruence | done]. }
  destruct ts as [| u0 ts0]; [done | ].
  injection Hlive as Hl. rewrite <- Hl.
  etransitivity; [exact (Hgen (u0 :: ts0) [] Hnorm) | ].
  apply memStr_In in Hin. by rewrite Hin.
Qed.

Lemma gtb_zero_truthy (v : JsNum.num) :
  JsNum.gtb v JsNum.zero = true -> JsNum.truthy v = true.
Proof. by destruct v as [[|] | [|] | | [|] m e]. Qed.

Lemma mergeLive_row (col : Hist.ColumnMap) (today t : string)
    (live : list (string * JsNum.num)) (v : JsNum.num) (ts : list string)
    (m : list (string * row)) :
  objGet t live = Some v -> JsNum.gtb v JsNum.zero = true ->
  In (Hist.mapKey today t, Hist.priceRow col today t v) m \/ In t ts ->
  In (Hist.mapKey today t, Hist.priceRow col today t v)
    (Hist.mergeLive col today live ts m).
Proof.
  intros Hget Hpos. unfold Hist.mergeLive. revert m.
  induction ts as [| u ts IH]; intros m Hm.
  - by destruct Hm.
  - cbn [fold_left]. apply IH.
    destruct (decide (u = t)) as [-> | Hne].
    + left. rewrite Hget, (gtb_zero_truthy v Hpos), Hpos.
      apply objSet_In_new.
    + destruct Hm as [Hm | [? | Hm]]; [ | done | by right].
      left.
      match goal with |- context [if ?b then _ else _] => destruct b end;
        [ | done].
      apply objSet_In_keep; [ | done].
      intros Heq%mapKey_inj_r. done.
Qed.

(** X18. When the required tickers are trimmed and in upper case, a required
    ticker whose live quote is a positive number has a row for today in
    the emitted table: today's date, the ticker, and the quote with two
    decimals. *)
Theorem live_quote_row (C : Config) (W : World) (today : string)
    (requiredTickers policyRequiredSet : list string) (startTime : Z)
    (s s' : Hist.Store) (sync : Hist.Sync) (t : string) :
  (forall u, In u requiredTickers -> Hist.normTicker u = u) ->
  In t requiredTickers -> JsString.truthy t = true ->
  JsNum.gtb (liveQuote W t) JsNum.zero = true ->
  Hist.updateHistDatabase_ C W today requiredTickers policyRequiredSet
    startTime s = (Ok sync, s') ->
  exists L r,
    Hist.loadHist W requiredTickers (Hist.histCsv s) = Ok L /\
    In r (Hist.emitted sync) /\
    cellAt r (Hist.date (Hist.columns L)) = today /\
    cellAt r (Hist.ticker (Hist.columns L)) = t /\
    cellAt r (Hist.price (Hist.columns L))
      = JsNum.toFixed (liveQuote W t) 2.
Proof.
  intros Hnorm Hin Ht Hpos Hrun.
  apply updateHistDatabase_inv in Hrun
    as (L & requiredStart & st & live & Hload & Hrs & Hloop & Hlive
        & -> & _).
  exists L, (Hist.priceRow (Hist.columns L) today t (liveQuote W t)).
  split; [done | ].
  destruct (loadHist_inv _ _ _ _ Hload) as ((Hdt & Hdp & Htp) & _).
  destruct (priceRow_cells (Hist.columns L) today t (liveQuote W t)
              Hdt Hdp Htp) as [Hd Htk].
  split; [ | split; [done | split; [done | ]]].
  - cbn [Hist.emitted]. unfold Hist.finalRowsOf. apply sortBy_In.
    apply in_map_iff.
    exists (Hist.mapKey today t,
            Hist.priceRow (Hist.columns L) today t (liveQuote W t)).
    split; [done | ].
    apply mergeLive_row; [ | done | by right].
    by apply (liveQuote_lookup W requiredTickers).
  - unfold Hist.priceRow. apply cellAt_setAt_eq.
Qed.

(** The quote 13 of A in the first invocation of the daily scenario. *)
Lemma live_quote_row_witness :
  exists L r,
    Hist.loadHist dailyWorld ["A"] (Hist.histCsv freshStore) = Ok L /\
    In r (Hist.emitted (okOr noSync (fst firstRun))) /\
    cellAt r (Hist.date (Hist.columns L)) = "2025-01-10" /\
    cellAt r (Hist.ticker (Hist.columns L)) = "A" /\
    cellAt r (Hist.price (Hist.columns L))
      = JsNum.toFixed (liveQuote dailyWorld "A") 2.
Proof.
  apply (live_quote_row shortCfg dailyWorld "2025-01-10" ["A"] [] 0
           freshStore (snd firstRun) (okOr noSync (fst firstRun)) "A").
  - intros u [<- | []]. reflexivity.
  - by left.
  - reflexivity.
  - vm_compute. reflexivity.
  - vm_compute. reflexivity.
Defined.

(** *** Nothing of a required ticker is dropped *)

Lemma loadMap_keys (col : Hist.ColumnMap) (rows : table) (r : row) :
  In r rows ->
  JsString.truthy (dateOf col r) = true ->
  JsString.truthy (tickerOf col r) = true ->
  In (Hist.mapKey (dateOf col r) (tickerOf col r))
    (objKeys (Hist.loadMap col rows)).
Proof.
  intros Hin Hd Ht. unfold Hist.loadMap.
  assert (Hgen : forall rs m,
    In (Hist.mapKey (dateOf col r) (tickerOf col r)) (objKeys m) \/ In r rs ->
    In (Hist.mapKey (dateOf col r) (tickerOf col r))
      (objKeys
         (fold_left
            (fun m r =>
               let d := JsString.trim (cellAt r (Hist.date col)) in
               let t := Hist.normTicker (cellAt r (Hist.ticker col)) in
               if negb (JsString.truthy d) || negb (JsString.truthy t) then m
               else objSet (Hist.mapKey d t) r m) rs m))).
  { induction rs as [| x rs IH]; intros m Hm; [by destruct Hm | ].
    cbn [fold_left]. apply IH. cbv zeta.
    destruct Hm as [Hm | [-> | Hm]]; [ | | by right].
    - left. destruct (_ || _); [done | ].
      apply objKeys_objSet_In. by right.
    - left. fold (dateOf col r). fold (tickerOf col r). rewrite Hd, Ht.
      cbn [negb orb]. apply objKeys_objSet_In. by left. }
  apply Hgen. by right.
Qed.

Section KeysKept.
Variables (C : Config) (W : World) (today requiredStart : string)
(startTime : Z) (col : Hist.ColumnMap) (bounds : gmap string Hist.Bounds)
(k : string).

Let step := Hist.backfillStep C W today requiredStart startTime col bounds.

Lemma ingest_keys (t chunkStart chunkEnd : string) (m : list (string * row)) :
In k (objKeys m) ->
In k (objKeys (fst (Hist.ingestBackfillChunk_ W t chunkStart chunkEnd
                      requiredStart today m col))).
Proof.
intros Hm. unfold Hist.ingestBackfillChunk_.
destruct (_ <? 2)%nat; [done | ].
generalize (tl (googleFinanceRange W t chunkStart chunkEnd)) as vs.
generalize O as j. intros j vs. revert m j Hm.
induction vs as [| v vs IH]; intros m j Hm; [done | ].
simpl fold_left.
assert (Hstep : exists m' j',
  Hist.ingestRow col t requiredStart today (m, j) v = (m', j')
  /\ In k (objKeys m')).
{ unfold Hist.ingestRow.
  destruct (cellDate _) as [day |]; [ | by eauto].
  destruct (_ || _); [by eauto | ].
  destruct (negb _); [by eauto | ].
  eexists _, _. split; [reflexivity | ].
  apply objKeys_objSet_In. by right. }
destruct Hstep as (m' & j' & -> & Hm'). by apply IH.
Qed.

Lemma loop_store_keys (ts : list string) (i0 : nat) (st st' : Hist.Loop)
  (r : result unit) :
Hist.backfillLoop step i0 ts st = (r, st') ->
In k (objKeys (Hist.store st)) -> In k (objKeys (Hist.store st')).
Proof.
intros Hloop Hst.
eapply (backfillLoop_invariant step
          (fun s => In k (objKeys (Hist.store s))));
  [ | exact Hst | exact Hloop].
intros j t s1 r1 s1' Ht Hs1 Hstep%backfillStep_inv.
destruct Hstep; simpl; try done; by apply ingest_keys.
Qed.

Lemma mergeLive_keys (live : list (string * JsNum.num)) (ts : list string)
  (m : list (string * row)) :
In k (objKeys m) -> In k (objKeys (Hist.mergeLive col today live ts m)).
Proof.
unfold Hist.mergeLive. revert m.
induction ts as [| t ts IH]; intros m Hm; [done | ].
simpl fold_left. apply IH.
destruct (JsNum.gtb _ _); [ | done].
apply objKeys_objSet_In. by right.
Qed.

End KeysKept.

(** X19. When the required tickers are trimmed and in upper case and today
    is a date, every row kept from the file that has a date and a ticker
    leaves a row in the emitted table that the runner files under the same
    date and ticker: the update drops no date of a required ticker. *)
Theorem kept_rows_survive (C : Config) (W : World) (today : string)
    (requiredTickers policyRequiredSet : list string) (startTime : Z)
    (s s' : Hist.Store) (sync : Hist.Sync) :
  (forall t, In t requiredTickers -> Hist.normTicker t = t) ->
  JsDate.isYMD today = true ->
  Hist.updateHistDatabase_ C W today requiredTickers policyRequiredSet
    startTime s = (Ok sync, s') ->
  exists L,
    Hist.loadHist W requiredTickers (Hist.histCsv s) = Ok L /\
    forall r, In r (Hist.kept L) ->
      JsString.truthy (dateOf (Hist.columns L) r) = true ->
      JsString.truthy (tickerOf (Hist.columns L) r) = true ->
      exists r', In r' (Hist.emitted sync) /\
        Hist.mapKey (dateOf (Hist.columns L) r') (tickerOf (Hist.columns L) r')
        = Hist.mapKey (dateOf (Hist.columns L) r) (tickerOf (Hist.columns L) r).
Proof.
  intros Hnorm Htoday Hrun.
  apply updateHistDatabase_inv in Hrun
    as (L & requiredStart & st & live & Hload & Hrs & Hloop & Hlive
        & -> & _).
  exists L. split; [done | ].
  destruct (loadHist_inv _ _ _ _ Hload) as ((Hdt & Hdp & Htp) & Hkept & Hpurged).
  cbn [Hist.emitted]. unfold loopOf in Hloop.
  set (col := Hist.columns L) in *.
  set (D := fun d : string => JsString.trim d = d).
  assert (Hown : forall t e, In t requiredTickers ->
            ownEntry col D t e -> keyed col e).
  { intros t e Ht (d & px & Hd & ->). unfold keyed, dateOf, tickerOf. simpl.
    destruct (priceRow_cells col d t px Hdt Hdp Htp) as [-> ->].
    by rewrite Hd, (Hnorm t Ht). }
  assert (HD : forall n, D (JsDate.formatYMD n)) by apply formatYMD_trim.
  set (mF := Hist.mergeLive col today live requiredTickers (Hist.store st)).
  assert (Hall : List.Forall (keyed col) mF).
  { apply (mergeLive_Forall _ D); [by apply isYMD_trim | done | ].
    eapply (loop_store_Forall _ _ _ _ _ _ _ D); [done | exact Hown | exact Hloop | ].
    simpl. apply loadMap_Forall. by intros r Hr Ht. }
  intros r Hr Hd Ht.
  assert (Hk : In (Hist.mapKey (dateOf col r) (tickerOf col r)) (objKeys mF)).
  { apply mergeLive_keys.
    eapply loop_store_keys; [exact Hloop | ]. simpl.
    by apply loadMap_keys. }
  apply in_map_iff in Hk as ([k r'] & Hk & He). simpl in Hk.
  exists r'. split.
  - unfold Hist.finalRowsOf. apply sortBy_In. apply in_map_iff.
    by exists (k, r').
  - rewrite List.Forall_forall in Hall. specialize (Hall _ He).
    unfold keyed in Hall. simpl in Hall. congruence.
Qed.

(** The rows of A and C in the store of A, B and C. *)
Lemma kept_rows_survive_witness :
  exists L,
    Hist.loadHist quietWorld ["A"; "C"] (Hist.histCsv abcStore) = Ok L /\
    forall r, In r (Hist.kept L) ->
      JsString.truthy (dateOf (Hist.columns L) r) = true ->
      JsString.truthy (tickerOf (Hist.columns L) r) = true ->
      exists r', In r' (Hist.emitted (okOr noSync (fst purgeRun))) /\
        Hist.mapKey (dateOf (Hist.columns L) r') (tickerOf (Hist.columns L) r')
        = Hist.mapKey (dateOf (Hist.columns L) r) (tickerOf (Hist.columns L) r).
Proof.
  apply (kept_rows_survive shortCfg quietWorld "2025-01-10" ["A"; "C"] [] 0
           abcStore (snd purgeRun) (okOr noSync (fst purgeRun))).
  - intros t [<- | [<- | []]]; reflexivity.
  - reflexivity.
  - vm_compute. reflexivity.
Defined.

(** *** The order of the emitted rows *)

Section SortedBy.
Context {A : Type} (cmp : A -> A -> comparison) (R : A -> A -> Prop).
Hypothesis R_of_cmp : forall x y, cmp x y <> Gt -> R x y.
Hypothesis R_total : forall x y, cmp x y = Gt -> R y x.
Hypothesis R_trans : forall x y z, R x y -> R y z -> R x z.

Lemma insertSorted_sorted_by (x : A) (l : list A) :
StronglySorted R l -> StronglySorted R (insertSorted cmp x l).
Proof.
induction 1 as [| y l Hs IH Hall]; simpl.
- repeat constructor.
- destruct (cmp x y) eqn:Hc.
  + constructor; [by constructor | ].
    assert (Hxy : R x y) by (apply R_of_cmp; congruence).
    constructor; [done | ].
    eapply List.Forall_impl; [ | exact Hall].
    intros z Hz. by eapply R_trans.
  + constructor; [by constructor | ].
    assert (Hxy : R x y) by (apply R_of_cmp; congruence).
    constructor; [done | ].
    eapply List.Forall_impl; [ | exact Hall].
    intros z Hz. by eapply R_trans.
  + constructor; [done | ].
    apply List.Forall_forall. intros z Hz.
    apply (Permutation_in _ (insertSorted_Permutation _ _ _)) in Hz.
    destruct Hz as [<- | Hz]; [by apply R_total | ].
    rewrite List.Forall_forall in Hall. by apply Hall.
Qed.

Lemma sortBy_sorted_by (l : list A) : StronglySorted R (sortBy cmp l).
Proof.
induction l as [| x l IH]; simpl; [constructor | ].
by apply insertSorted_sorted_by.
Qed.

End SortedBy.

Lemma dateLe_antisym (a b : string) : dateLe a b -> dateLe b a -> a = b.
Proof.
  rewrite !dateLe_cases. intros [? | H1] [? | H2]; try done.
  exfalso. pose proof (String_as_OT.lt_trans _ _ _ H1 H2) as H.
  exact (String_as_OT.lt_not_eq _ _ H eq_refl).
Qed.

Lemma compare_Eq_iff (a b : string) : String.compare a b = Eq <-> a = b.
Proof. apply String_as_OT.cmp_eq. Qed.

Lemma rowLe_of_compare (W : World) (key : string -> string)
    (col : Hist.ColumnMap) (a b : row) :
  collatedBy W key -> Hist.compareRows W col a b <> Gt -> rowLe key col a b.
Proof.
  intros Hk. unfold Hist.compareRows, rowLe, dateLe. rewrite !Hk.
  destruct (String.compare (key (cellAt a (Hist.date col)))
              (key (cellAt b (Hist.date col)))) eqn:Hc;
    simpl; intros H.
  - split; [done | ]. by intros _.
  - split; [done | ]. intros Heq%compare_Eq_iff. congruence.
  - done.
Qed.

Lemma rowLe_total (W : World) (key : string -> string)
    (col : Hist.ColumnMap) (a b : row) :
  collatedBy W key -> Hist.compareRows W col a b = Gt -> rowLe key col b a.
Proof.
  intros Hk. unfold Hist.compareRows, rowLe, dateLe. rewrite !Hk.
  rewrite (String.compare_antisym (key (cellAt b (Hist.date col)))
             (key (cellAt a (Hist.date col)))).
  rewrite (String.compare_antisym
             (key (JsString.toUpperCase (cellAt b (Hist.ticker col))))
             (key (JsString.toUpperCase (cellAt a (Hist.ticker col))))).
  destruct (String.compare (key (cellAt a (Hist.date col)))
              (key (cellAt b (Hist.date col)))) eqn:Hc;
    simpl; intros H.
  - split; [done | ]. intros _. by rewrite H.
  - done.
  - split; [done | ]. intros Heq. symmetry in Heq.
    apply compare_Eq_iff in Heq. congruence.
Qed.

Lemma rowLe_trans (key : string -> string) (col : Hist.ColumnMap)
    (a b c : row) :
  rowLe key col a b -> rowLe key col b c -> rowLe key col a c.
Proof.
  intros [H1 H1'] [H2 H2']. split; [by eapply dateLe_trans | ].
  intros Heq.
  assert (Hab : key (cellAt a (Hist.date col)) = key (cellAt b (Hist.date col))).
  { apply dateLe_antisym; [done | ]. by rewrite Heq. }
  eapply dateLe_trans; [by apply H1' | ]. apply H2'. congruence.
Qed.

(** X20. When the host orders strings by a collation key, the rows that
    [updateHistDatabase_] emits are in ascending order of the date, and
    under one date in ascending order of the ticker in upper case. *)
Theorem emitted_rows_sorted (C : Config) (W : World) (today : string)
    (requiredTickers policyRequiredSet : list string) (startTime : Z)
    (s s' : Hist.Store) (sync : Hist.Sync) (key : string -> string) :
  collatedBy W key ->
  Hist.updateHistDatabase_ C W today requiredTickers policyRequiredSet
    startTime s = (Ok sync, s') ->
  exists L,
    Hist.loadHist W requiredTickers (Hist.histCsv s) = Ok L /\
    StronglySorted (rowLe key (Hist.columns L)) (Hist.emitted sync).
Proof.
  intros Hk Hrun.
  apply updateHistDatabase_inv in Hrun
    as (L & requiredStart & st & live & Hload & Hrs & Hloop & Hlive
        & -> & _).
  exists L. split; [done | ]. cbn [Hist.emitted]. unfold Hist.finalRowsOf.
  apply sortBy_sorted_by.
  - intros x y. by apply rowLe_of_compare.
  - intros x y. by apply rowLe_total.
  - intros x y z. apply rowLe_trans.
Qed.

(** The order of code units, and the store of A, B and C against the daily
    feed. *)
Lemma emitted_rows_sorted_witness :
  exists L,
    Hist.loadHist dailyWorld ["A"; "C"] (Hist.histCsv abcStore) = Ok L /\
    StronglySorted (rowLe (fun x => x) (Hist.columns L))
      (Hist.emitted (okOr noSync (fst abcDailyRun))).
Proof.
  apply (emitted_rows_sorted shortCfg dailyWorld "2025-01-10" ["A"; "C"] [] 0
           abcStore (snd abcDailyRun) (okOr noSync (fst abcDailyRun))
           (fun x => x)).
  - intros a b. reflexivity.
  - vm_compute. reflexivity.
Defined.

(** *** The rows of the ledger *)

Lemma filter_filter {A} (p q : A -> bool) (l : list A) :
  List.filter q (List.filter p l) = List.filter (fun x => p x && q x) l.
Proof.
  induction l as [| a l IH]; simpl; [done | ].
  destruct (p a); simpl; [ | done]. destruct (q a); by rewrite IH.
Qed.

Lemma take_ext (k : nat) (a b : row) :
  (k <= length a)%nat -> (k <= length b)%nat ->
  (forall j, (j < k)%nat -> cellAt a j = cellAt b j) ->
  take k a = take k b.
Proof.
  intros Ha Hb Hcells. apply list_eq. intros j.
  destruct (Nat.lt_ge_cases j k) as [Hj | Hj].
  - rewrite !lookup_take_lt by done.
    specialize (Hcells j Hj). rewrite !cellAt_lookup in Hcells.
    destruct (lookup_lt_is_Some_2 a j ltac:(lia)) as [x Hx].
    destruct (lookup_lt_is_Some_2 b j ltac:(lia)) as [y Hy].
    rewrite Hx, Hy in *. simpl in Hcells. by rewrite Hcells.
  - rewrite !lookup_take_ge by done. done.
Qed.

Lemma length_setAt_ge (r : row) (i : nat) (v : string) :
  (length r <= length (setAt i v r))%nat.
Proof.
  unfold setAt. destruct (Nat.ltb_spec i (length r)).
  - by rewrite length_insert.
  - rewrite length_app. lia.
Qed.

Lemma length_writeCells (c : nat) (g : row -> nat -> string) (row0 : row)
    (n : nat) :
  (c + n <= length row0)%nat -> length (writeCells c g row0 n) = length row0.
Proof.
  induction n as [| n IH]; intros Hn; [done | ].
  rewrite writeCells_S, length_setAt_lt; rewrite IH; lia.
Qed.

Lemma newRowOf_shape (w n : nat) (dateStr : string) (pv : JsNum.num)
    (benches : list string) (prices : list JsNum.num) :
  n = length benches -> (2 + n <= w)%nat ->
  length (Ledger.newRowOf w dateStr pv benches prices) = w /\
  inputCells n (Ledger.newRowOf w dateStr pv benches prices)
    = todayCells dateStr pv n prices.
Proof.
  intros -> Hw. unfold Ledger.newRowOf.
  set (row0 := setAt 1 (JsNum.toFixed pv 2) (setAt 0 dateStr (blankRow w))).
  fold (writeCells 2
          (fun (_ : row) i => JsNum.toFixed (nth i prices JsNum.NaN) 2)
          row0 (length benches)).
  assert (Hlen0 : length row0 = w).
  { subst row0. unfold blankRow.
    rewrite !length_setAt_lt; rewrite ?length_setAt_lt;
      rewrite ?length_replicate; lia. }
  assert (Hlen : length (writeCells 2
            (fun (_ : row) i => JsNum.toFixed (nth i prices JsNum.NaN) 2)
            row0 (length benches)) = w).
  { rewrite length_writeCells; lia. }
  split; [done | ].
  unfold inputCells, todayCells. apply list_eq. intros j.
  destruct (Nat.lt_ge_cases j (2 + length benches)) as [Hj | Hj].
  - rewrite lookup_take_lt by done.
    destruct (lookup_lt_is_Some_2 (writeCells 2
                (fun (_ : row) i => JsNum.toFixed (nth i prices JsNum.NaN) 2)
                row0 (length benches)) j ltac:(lia)) as [x Hx].
    rewrite Hx.
    assert (Hc : cellAt (writeCells 2
                   (fun (_ : row) i => JsNum.toFixed (nth i prices JsNum.NaN) 2)
                   row0 (length benches)) j = x).
    { by rewrite cellAt_lookup, Hx. }
    destruct j as [| [| j]].
    + rewrite writeCells_outside in Hc by lia. subst row0.
      rewrite cellAt_setAt_ne, cellAt_setAt_eq in Hc by lia. by subst x.
    + rewrite writeCells_outside in Hc by lia. subst row0.
      rewrite cellAt_setAt_eq in Hc. by subst x.
    + change (S (S j)) with (2 + j)%nat in Hc.
      rewrite (writeCells_inside _ _ _
                 (fun i => JsNum.toFixed (nth i prices JsNum.NaN) 2))
        in Hc by (done || lia).
      subst x.
      rewrite (lookup_app_add [dateStr; JsNum.toFixed pv 2] _ j).
      rewrite list_lookup_fmap, lookup_seq_lt by lia. done.
  - rewrite lookup_take_ge by done. symmetry. apply lookup_ge_None_2.
    cbn [app length]. rewrite length_map, length_seq. lia.
Qed.

Section RecomputeRowMore.
Variables (n bi : nat) (basePV : JsNum.num) (baseB : list JsNum.num).
Let w : nat := (3 + 3 * n)%nat.

Lemma recomputeRow_inputs (ri : nat) (r : row) (j : nat) :
(j < 2 + n)%nat ->
cellAt (Ledger.recomputeRow w n bi basePV baseB ri r) j = cellAt r j.
Proof.
intros Hj.
unfold Ledger.recomputeRow, Ledger.diffStartCol, Ledger.pctStartCol,
  Ledger.portPctCol.
set (row1 := setAt (2 + n) _ (normalizeRowWidth_ r w)).
fold (writeCells (2 + n + 1) (Ledger.pctText ri bi baseB) row1 n).
set (row2 := writeCells (2 + n + 1) _ _ n).
set (pPort := Ledger.pctOf _ _).
fold (writeCells (2 + n + 1 + n) (Ledger.diffText n ri bi pPort) row2 n).
rewrite cellAt_normalizeRowWidth_ by (subst w; lia).
rewrite writeCells_outside by lia. subst row2.
rewrite writeCells_outside by lia. subst row1.
rewrite cellAt_setAt_ne by lia.
apply cellAt_normalizeRowWidth_. subst w. lia.
Qed.

Lemma recomputeRow_length (ri : nat) (r : row) :
length (Ledger.recomputeRow w n bi basePV baseB ri r) = w.
Proof. unfold Ledger.recomputeRow. apply length_normalizeRowWidth_. Qed.

Lemma recomputeRow_inputCells (ri : nat) (r : row) :
length r = w ->
inputCells n (Ledger.recomputeRow w n bi basePV baseB ri r)
= inputCells n r.
Proof.
intros Hr. unfold inputCells. apply take_ext.
- rewrite recomputeRow_length. subst w. lia.
- rewrite Hr. subst w. lia.
- intros j Hj. by apply recomputeRow_inputs.
Qed.

Lemma pctOf_self (x : JsNum.num) :
Ledger.validBase x = true -> Ledger.pctOf x x = JsNum.zero.
Proof.
intros H. destruct (validBase_finite_pos x H) as (m & e & ->).
unfold Ledger.pctOf.
change (JsNum.isFinite (S754_finite false m e)) with true.
change (JsNum.gtb (S754_finite false m e) JsNum.zero) with true.
cbv beta iota. simpl andb. cbv iota.
rewrite div_self. vm_compute. reflexivity.
Qed.

Lemma recomputeRow_base_diff (r : row) :
Ledger.validBase basePV = true ->
JsNum.parseFloat (cellAt r 1) = basePV ->
(forall i, (i < n)%nat ->
   nth i baseB JsNum.NaN = JsNum.parseFloat (cellAt r (2 + i)) /\
   Ledger.validBase (JsNum.parseFloat (cellAt r (2 + i))) = true) ->
forall i, (i < n)%nat ->
  cellAt (Ledger.recomputeRow w n bi basePV baseB bi r)
    (Ledger.diffStartCol n + i) = "0.0000".
Proof.
intros Hpv Hr1 HB i Hi.
destruct (recomputeRow_base n bi basePV baseB r Hpv Hr1 HB) as [_ Hpct].
cbv zeta in Hpct. fold w in Hpct.
unfold Ledger.recomputeRow, Ledger.diffStartCol, Ledger.pctStartCol,
  Ledger.portPctCol in *.
rewrite Nat.ltb_irrefl in *.
rewrite (cellAt_normalizeRowWidth_ r w 1) in * by (subst w; lia).
rewrite Hr1, (pctOf_base basePV Hpv), (pctOf_self basePV Hpv) in *.
set (row1 := setAt (2 + n) "0.0000" (normalizeRowWidth_ r w)) in *.
fold (writeCells (2 + n + 1) (Ledger.pctText bi bi baseB) row1 n) in *.
set (row2 := writeCells (2 + n + 1) _ _ n) in *.
fold (writeCells (2 + n + 1 + n)
        (Ledger.diffText n bi bi JsNum.zero) row2 n) in *.
rewrite cellAt_normalizeRowWidth_ by (subst w; lia).
apply (writeCells_inside _ _ _ (fun _ => "0.0000")); [ | done].
intros row k Hk Hrow. unfold Ledger.diffText, Ledger.pctStartCol,
  Ledger.portPctCol.
rewrite Nat.ltb_irrefl, Hrow by lia.
specialize (Hpct k Hk).
rewrite cellAt_normalizeRowWidth_ in Hpct by (subst w; lia).
rewrite writeCells_outside in Hpct by lia.
rewrite Hpct. vm_compute. reflexivity.
Qed.

End RecomputeRowMore.

Lemma map_mapi_ext {A B X} (f : nat -> A -> B) (g : B -> X) (h : A -> X)
    (i : nat) (l : list A) :
  (forall k a, In a l -> g (f k a) = h a) ->
  map g (Ledger.mapi f i l) = map h l.
Proof.
  revert i. induction l as [| a l IH]; intros i Hf; simpl; [done | ].
  rewrite (Hf i a) by by left. f_equal. apply IH.
  intros k b Hb. apply Hf. by right.
Qed.

Lemma Forall_mapi {A B} (f : nat -> A -> B) (P : B -> Prop) (i : nat)
    (l : list A) :
  (forall k a, In a l -> P (f k a)) -> List.Forall P (Ledger.mapi f i l).
Proof.
  revert i. induction l as [| a l IH]; intros i Hf; simpl; constructor.
  - apply Hf. by left.
  - apply IH. intros k b Hb. apply Hf. by right.
Qed.

Lemma upsertRows_Permutation (W : World) (s : Hist.Store) (dateStr : string)
    (pv : JsNum.num) (benches : list string) (prices : list JsNum.num) :
  Permutation
    (Ledger.upsertRows W (Ledger.storedRows W s) dateStr pv benches prices)
    (ledgerOthers W s dateStr (length benches)
     ++ [Ledger.newRowOf (3 + 3 * length benches) dateStr pv benches prices]).
Proof.
  unfold Ledger.upsertRows. rewrite length_buildPerfLogHeader_.
  etransitivity; [apply sortBy_Permutation | ].
  apply Permutation_app_tail. unfold ledgerOthers.
  destruct (2 <=? length (Ledger.storedRows W s))%nat; [ | done].
  by rewrite filter_filter.
Qed.

Lemma ledgerOthers_width (W : World) (s : Hist.Store) (dateStr : string)
    (n : nat) (r : row) :
  In r (ledgerOthers W s dateStr n) -> length r = (3 + 3 * n)%nat.
Proof.
  unfold ledgerOthers. destruct (2 <=? _)%nat; [ | done].
  intros [Hr _]%filter_In. apply in_map_iff in Hr as (r0 & <- & _).
  apply length_normalizeRowWidth_.
Qed.

Lemma upsertRows_width (W : World) (s : Hist.Store) (dateStr : string)
    (pv : JsNum.num) (benches : list string) (prices : list JsNum.num)
    (r : row) :
  In r (Ledger.upsertRows W (Ledger.storedRows W s) dateStr pv benches prices)
  -> length r = (3 + 3 * length benches)%nat.
Proof.
  intros Hr.
  apply (Permutation_in _ (upsertRows_Permutation W s dateStr pv benches prices))
    in Hr.
  apply in_app_iff in Hr as [Hr | [<- | []]].
  - by eapply ledgerOthers_width.
  - by destruct (newRowOf_shape (3 + 3 * length benches) (length benches)
                   dateStr pv benches prices eq_refl ltac:(lia)).
Qed.

(** X21. After an update of the ledger that returns, every row written has
    the width of the header, and the given cells of the rows written,
    date, portfolio value and prices, are those of the stored rows with a
    date other than today's and of one row for today, which holds the
    portfolio value and the prices of today with two decimals: no stored
    row of another date is lost or altered in these cells. *)
Theorem ledger_keeps_rows (W : World) (s s' : Hist.Store)
    (dateStr : string) (portfolioVal : JsNum.num) (benches : list string)
    (benchPrices : list JsNum.num) (chartStartDate : string)
    (r : Ledger.Recomputed) :
  Ledger.upsertAndRecomputePerformanceLog_ W dateStr portfolioVal benches
    benchPrices chartStartDate s = (Ok r, s') ->
  let n := length benches in
  List.Forall (fun row => length row = length (Ledger.header r))
    (Ledger.out r) /\
  Permutation
    (map (inputCells n) (Ledger.out r))
    (map (inputCells n) (ledgerOthers W s dateStr n)
     ++ [todayCells dateStr portfolioVal n benchPrices]).
Proof.
  intros Hrun. cbv zeta.
  unfold Ledger.upsertAndRecomputePerformanceLog_ in Hrun.
  eff_unfold_in Hrun.
  destruct (Ledger.recompute _ _ _ _ _ _ _) as [r' | msg] eqn:Hrec;
    [ | discriminate].
  injection Hrun as <- <-.
  destruct (recompute_Ok _ _ _ _ _ _ _ _ Hrec) as (Hh & Hbi & Hout & Hpv & HB).
  rewrite length_buildPerfLogHeader_ in Hout.
  rewrite Hh, length_buildPerfLogHeader_, Hout. split.
  - apply Forall_mapi. intros k a _. apply recomputeRow_length.
  - rewrite (map_mapi_ext _ _ (inputCells (length benches))).
    + etransitivity;
        [apply Permutation_map, upsertRows_Permutation | ].
      rewrite map_app. apply Permutation_app_head. cbn [map].
      destruct (newRowOf_shape (3 + 3 * length benches) (length benches)
                  dateStr portfolioVal benches benchPrices eq_refl
                  ltac:(lia)) as [_ ->].
      done.
    + intros k a Ha. apply recomputeRow_inputCells.
      by eapply upsertRows_width.
Qed.

(** X22. After an update of the ledger that returns, the base row holds
    0.0000 in every column Diff_<baseline>. *)
Theorem ledger_base_diff_zero (W : World) (s s' : Hist.Store)
    (dateStr : string) (portfolioVal : JsNum.num) (benches : list string)
    (benchPrices : list JsNum.num) (chartStartDate : string)
    (r : Ledger.Recomputed) :
  Ledger.upsertAndRecomputePerformanceLog_ W dateStr portfolioVal benches
    benchPrices chartStartDate s = (Ok r, s') ->
  forall i, (i < length benches)%nat ->
    cellAt (nth (Ledger.baseIndex r) (Ledger.out r) [])
      (Ledger.diffStartCol (length benches) + i) = "0.0000".
Proof.
  intros Hrun i Hi.
  unfold Ledger.upsertAndRecomputePerformanceLog_ in Hrun.
  eff_unfold_in Hrun.
  destruct (Ledger.recompute _ _ _ _ _ _ _) as [r' | msg] eqn:Hrec;
    [ | discriminate].
  injection Hrun as <- <-.
  destruct (recompute_Ok _ _ _ _ _ _ _ _ Hrec) as (Hh & Hbi & Hout & Hpv & HB).
  rewrite length_buildPerfLogHeader_ in Hout.
  set (data := Ledger.upsertRows W (Ledger.storedRows W s) dateStr portfolioVal
                 benches benchPrices) in *.
  assert (Hlen : (Ledger.baseIndex r' < length data)%nat).
  { rewrite Hbi. apply baseIndexOf_lt, upsertRows_nonempty. }
  assert (Hbase : nth (Ledger.baseIndex r') data []
                  = Ledger.baseRowOf (JsString.trim chartStartDate) data).
  { unfold Ledger.baseRowOf. by rewrite Hbi. }
  rewrite Hout, (nth_mapi _ _ _ _ []) by done. simpl Nat.add. rewrite Hbase.
  apply recomputeRow_base_diff; [done | done | | done].
  intros k Hk. split; [ | by apply HB].
  by apply (nth_map_seq (fun j => JsNum.parseFloat (cellAt _ (2 + j)))).
Qed.

(** The ledger with one row before the chart start date. *)
Lemma ledger_base_diff_zero_witness :
  cellAt (nth (Ledger.baseIndex (okOr noRecomputed (fst ledgerRun)))
            (Ledger.out (okOr noRecomputed (fst ledgerRun))) [])
    (Ledger.diffStartCol 1 + 0) = "0.0000".
Proof.
  apply (ledger_base_diff_zero quietWorld ledgerStore (snd ledgerRun)
           "2025-01-02" (JsNum.ofZ 1100) ["VTI"] [JsNum.ofZ 55] "2025-01-01"
           (okOr noRecomputed (fst ledgerRun))).
  - vm_compute. reflexivity.
  - simpl. lia.
Defined.

(** The same ledger: two stored rows and the row of 2025-01-02. *)
Lemma ledger_keeps_rows_witness :
  List.Forall
    (fun row => length row
                = length (Ledger.header (okOr noRecomputed (fst ledgerRun))))
    (Ledger.out (okOr noRecomputed (fst ledgerRun))) /\
  Permutation
    (map (inputCells 1) (Ledger.out (okOr noRecomputed (fst ledgerRun))))
    (map (inputCells 1) (ledgerOthers quietWorld ledgerStore "2025-01-02" 1)
     ++ [todayCells "2025-01-02" (JsNum.ofZ 1100) 1 [JsNum.ofZ 55]]).
Proof.
  apply (ledger_keeps_rows quietWorld ledgerStore (snd ledgerRun)
           "2025-01-02" (JsNum.ofZ 1100) ["VTI"] [JsNum.ofZ 55] "2025-01-01"
           (okOr noRecomputed (fst ledgerRun))).
  vm_compute. reflexivity.
Defined.

Lemma StronglySorted_mapi {A} (R : A -> A -> Prop) (f : nat -> A -> A)
    (Q : A -> A -> Prop) (i : nat) (l : list A) :
  (forall j k a b, R a b -> Q (f j a) (f k b)) ->
  StronglySorted R l -> StronglySorted Q (Ledger.mapi f i l).
Proof.
  intros Hf Hs. revert i.
  induction Hs as [| a l Hs IH Hall]; intros i; simpl; constructor.
  - apply IH.
  - apply Forall_mapi. intros k b Hb. apply Hf.
    rewrite List.Forall_forall in Hall. by apply Hall.
Qed.

(** X23. When the host orders strings by a collation key, the rows written
    by an update of the ledger that returns are in ascending order of
    their dates. *)
Theorem ledger_rows_sorted (W : World) (s s' : Hist.Store)
    (dateStr : string) (portfolioVal : JsNum.num) (benches : list string)
    (benchPrices : list JsNum.num) (chartStartDate : string)
    (r : Ledger.Recomputed) (key : string -> string) :
  collatedBy W key ->
  Ledger.upsertAndRecomputePerformanceLog_ W dateStr portfolioVal benches
    benchPrices chartStartDate s = (Ok r, s') ->
  StronglySorted
    (fun a b => dateLe (key (cellAt a 0)) (key (cellAt b 0)))
    (Ledger.out r).
Proof.
  intros Hk Hrun.
  unfold Ledger.upsertAndRecomputePerformanceLog_ in Hrun.
  eff_unfold_in Hrun.
  destruct (Ledger.recompute _ _ _ _ _ _ _) as [r' | msg] eqn:Hrec;
    [ | discriminate].
  injection Hrun as <- <-.
  destruct (recompute_Ok _ _ _ _ _ _ _ _ Hrec) as (Hh & Hbi & Hout & Hpv & HB).
  rewrite length_buildPerfLogHeader_ in Hout. rewrite Hout.
  apply (StronglySorted_mapi
           (fun a b => dateLe (key (cellAt a 0)) (key (cellAt b 0)))).
  - intros j k a b Hab. by rewrite !recomputeRow_inputs by lia.
  - unfold Ledger.upsertRows. apply sortBy_sorted_by.
    + intros x y. by rewrite Hk.
    + intros x y. rewrite Hk. apply dateLe_total.
    + intros x y z. apply dateLe_trans.
Qed.

(** The order of code units, and the ledger of three dates. *)
Lemma ledger_rows_sorted_witness :
  StronglySorted
    (fun a b => dateLe (cellAt a 0) (cellAt b 0))
    (Ledger.out (okOr noRecomputed (fst ledgerRun))).
Proof.
  apply (ledger_rows_sorted quietWorld ledgerStore (snd ledgerRun)
           "2025-01-02" (JsNum.ofZ 1100) ["VTI"] [JsNum.ofZ 55] "2025-01-01"
           (okOr noRecomputed (fst ledgerRun)) (fun x => x)).
  - intros a b. reflexivity.
  - vm_compute. reflexivity.
Defined.

(** *** Normalised tickers *)

Lemma upperChar_facts (c : ascii) :
  JsString.upperChar (JsString.upperChar c) = JsString.upperChar c /\
  JsString.isSpace (JsString.upperChar c) = JsString.isSpace c.
Proof.
  destruct c as [[|] [|] [|] [|] [|] [|] [|] [|]]; split; reflexivity.
Qed.

Lemma toUpperCase_idem (s : string) :
  JsString.toUpperCase (JsString.toUpperCase s) = JsString.toUpperCase s.
Proof.
  unfold JsString.toUpperCase.
  induction s as [| c s IH]; simpl; [done | ].
  by rewrite (proj1 (upperChar_facts c)), IH.
Qed.

Lemma trimStart_upper (s : string) :
  JsString.trimStart (JsString.toUpperCase s)
  = JsString.toUpperCase (JsString.trimStart s).
Proof.
  unfold JsString.toUpperCase.
  induction s as [| c s IH]; simpl; [done | ].
  rewrite (proj2 (upperChar_facts c)).
  by destruct (JsString.isSpace c).
Qed.

Lemma trimEnd_upper (s : string) :
  JsString.trimEnd (JsString.toUpperCase s)
  = JsString.toUpperCase (JsString.trimEnd s).
Proof.
  unfold JsString.toUpperCase.
  induction s as [| c s IH]; simpl; [done | ].
  rewrite IH, (proj2 (upperChar_facts c)).
  destruct (JsString.trimEnd s); simpl; [ | done].
  by destruct (JsString.isSpace c).
Qed.

Lemma trimEnd_idem (s : string) :
  JsString.trimEnd (JsString.trimEnd s) = JsString.trimEnd s.
Proof.
  induction s as [| c s IH]; simpl; [done | ].
  destruct (JsString.trimEnd s) as [| c' r] eqn:He.
  - destruct (JsString.isSpace c) eqn:Hc; simpl; [done | ]. by rewrite Hc.
  - simpl. simpl in IH. by rewrite IH.
Qed.

Lemma trimStart_trimEnd (s : string) :
  JsString.trimStart (JsString.trimEnd (JsString.trimStart s))
  = JsString.trimEnd (JsString.trimStart s).
Proof.
  induction s as [| c s IH]; [done | ].
  cbn [JsString.trimStart].
  destruct (JsString.isSpace c) eqn:Hc; [exact IH | ].
  cbn [JsString.trimEnd].
  destruct (JsString.trimEnd s); rewrite ?Hc; cbn [JsString.trimStart];
    by rewrite Hc.
Qed.

Lemma trim_idem (s : string) : JsString.trim (JsString.trim s) = JsString.trim s.
Proof.
  unfold JsString.trim. by rewrite trimStart_trimEnd, trimEnd_idem.
Qed.

Lemma normTicker_idem (s : string) :
  Hist.normTicker (Hist.normTicker s) = Hist.normTicker s.
Proof.
  unfold Hist.normTicker, JsString.trim.
  rewrite trimStart_upper, trimEnd_upper.
  fold (JsString.trim (JsString.trimEnd (JsString.trimStart s))).
  fold (JsString.trim s). by rewrite trim_idem, toUpperCase_idem.
Qed.

Lemma setOfList_NoDup (l : list string) : NoDup (setOfList l).
Proof.
  unfold setOfList.
  assert (H : forall acc, NoDup acc ->
            NoDup (fold_left (fun acc x => setAdd x acc) l acc)).
  { induction l as [| x l IH]; intros acc Hacc; [done | ].
    simpl. apply IH. unfold setAdd.
    destruct (memStr x acc) eqn:Hm; [done | ].
    apply NoDup_app. split; [done | ]. split; [ | apply NoDup_singleton].
    intros y Hy ->%list_elem_of_singleton.
    apply list_elem_of_In, memStr_In in Hy. congruence. }
  apply H. constructor.
Qed.

Lemma setAdd_NoDup (x : string) (l : list string) :
  NoDup l -> NoDup (setAdd x l).
Proof.
  intros Hl. unfold setAdd. destruct (memStr x l) eqn:Hm; [done | ].
  apply NoDup_app. split; [done | ]. split; [ | apply NoDup_singleton].
  intros y Hy ->%list_elem_of_singleton.
  apply list_elem_of_In, memStr_In in Hy. congruence.
Qed.

Lemma sorted_strict (l : list string) :
  NoDup l -> StronglySorted (fun a b => JsString.lt a b = true)
               (sortBy String.compare l).
Proof.
  intros Hl. apply sorted_NoDup_strict; [apply sortBy_sorted | ].
  by apply sortBy_NoDup.
Qed.

Lemma truthyStrings_In (l : list (option string)) (t : string) :
  In t (Universe.truthyStrings l) <-> In (Some t) l /\ JsString.truthy t = true.
Proof.
  unfold Universe.truthyStrings. rewrite in_flat_map. split.
  - intros ([s |] & Hin & Ht); [ | done].
    destruct (JsString.truthy s) eqn:Hs; [ | done].
    destruct Ht as [<- | []]. done.
  - intros [Hin Ht]. exists (Some t). split; [done | ].
    rewrite Ht. by left.
Qed.

(** The text of the ticker of an item, when it has one. *)
Lemma itemTicker_Some (item : Universe.Item) (t : string) :
  Universe.itemTicker item = Some t <->
  exists s, (item = Universe.ItemStr s \/ item = Universe.ItemObj (Some s)) /\
    JsString.truthy s = true /\ t = Hist.normTicker s.
Proof.
  unfold Universe.itemTicker. split.
  - destruct item as [s | [s |]]; try done;
      (destruct (JsString.truthy s) eqn:Hs; [ | done]);
      intros [= <-]; exists s; auto.
  - intros (s & [-> | ->] & Hs & ->); by rewrite Hs.
Qed.

Lemma normalizeInventory_In (state : Universe.State) (t : string) :
  In t (Universe.normalizeInventory_ state) <->
  JsString.truthy t = true /\
  exists item s,
    In item (match Universe.inventory state with
             | Some l => l
             | None => default [] (Universe.tickers state)
             end) /\
    (item = Universe.ItemStr s \/ item = Universe.ItemObj (Some s)) /\
    JsString.truthy s = true /\ t = Hist.normTicker s.
Proof.
  unfold Universe.normalizeInventory_.
  replace (match Universe.tickers state with Some l => l | None => [] end)
    with (default [] (Universe.tickers state))
    by by destruct (Universe.tickers state).
  set (raw := match Universe.inventory state with
              | Some l => l
              | None => default [] (Universe.tickers state)
              end).
  rewrite sortBy_In, setOfList_In, truthyStrings_In, in_map_iff.
  split.
  - intros [(item & Hit & Hin) Ht]. split; [done | ].
    apply itemTicker_Some in Hit as (s & Hs). by exists item, s.
  - intros (Ht & item & s & Hin & Hs). split; [ | done].
    exists item. split; [ | done]. apply itemTicker_Some. by exists s.
Qed.

(** X24. The tickers that [normalizeInventory_] returns are in strictly
    ascending order of code units, so none is repeated; each is not
    empty, trimmed and in upper case; and they are the tickers of the
    items of the inventory (of the tickers when the state has no
    inventory), a string item counting as its own ticker. *)
Theorem normalizeInventory_spec (state : Universe.State) :
  let raw := match Universe.inventory state with
             | Some l => l
             | None => default [] (Universe.tickers state)
             end in
  StronglySorted (fun a b => JsString.lt a b = true)
    (Universe.normalizeInventory_ state) /\
  forall t, In t (Universe.normalizeInventory_ state) <->
    JsString.truthy t = true /\
    exists item s,
      In item raw /\
      (item = Universe.ItemStr s \/ item = Universe.ItemObj (Some s)) /\
      JsString.truthy s = true /\ t = Hist.normTicker s.
Proof.
  cbv zeta. split; [ | intros t; apply normalizeInventory_In].
  unfold Universe.normalizeInventory_. apply sorted_strict, setOfList_NoDup.
Qed.

Lemma normalizeInventory_norm (state : Universe.State) (t : string) :
  In t (Universe.normalizeInventory_ state) ->
  Hist.normTicker t = t /\ JsString.truthy t = true.
Proof.
  intros Hin. apply normalizeInventory_In in Hin
    as (Ht & item & s & _ & _ & _ & ->).
  split; [apply normTicker_idem | done].
Qed.

(** *** The tickers that the policy requires *)

Lemma fold_setAdd_In (f : string -> string) (l : list string)
    (acc : list string) (t : string) :
  In t (fold_left (fun set x => setAdd (f x) set) l acc) <->
  In t acc \/ exists x, In x l /\ t = f x.
Proof.
  revert acc. induction l as [| x l IH]; intros acc; simpl.
  - split; [by left | ]. intros [? | (x & [] & _)]. done.
  - rewrite IH, setAdd_In. split.
    + intros [[-> | ?] | (y & Hy & ->)]; eauto.
    + intros [? | (y & [<- | Hy] & ->)]; eauto.
Qed.

Lemma fold_setAdd_NoDup (f : string -> string) (l : list string)
    (acc : list string) :
  NoDup acc -> NoDup (fold_left (fun set x => setAdd (f x) set) l acc).
Proof.
  revert acc. induction l as [| x l IH]; intros acc Hacc; simpl; [done | ].
  by apply IH, setAdd_NoDup.
Qed.

Lemma constraintTickers_In (set : list string)
    (c : string * option Universe.Lifecycle) (t : string) :
  In t (Universe.constraintTickers set c) <->
  In t set \/
  exists lc, c.2 = Some lc /\ Universe.stage lc = "activated" /\
    (t = Hist.normTicker c.1 \/
     JsString.truthy (Universe.benchmark_proxy lc) = true /\
     t = Hist.normTicker (Universe.benchmark_proxy lc)).
Proof.
  unfold Universe.constraintTickers. destruct c as [k [lc |]]; simpl.
  2: { split; [by left | ]. by intros [? | (lc & ? & _)]. }
  destruct (String.eqb_spec (Universe.stage lc) "activated") as [Hst | Hst].
  2: { split; [by left | ]. intros [? | (lc' & [= <-] & ? & _)]; done. }
  destruct (JsString.truthy (Universe.benchmark_proxy lc)) eqn:Hp.
  - rewrite !setAdd_In. split.
    + intros [-> | [-> | ?]]; [right | right | by left];
        exists lc; auto.
    + intros [? | (lc' & [= <-] & _ & [-> | [_ ->]])]; auto.
  - rewrite setAdd_In. split.
    + intros [-> | ?]; [right | by left]. exists lc; auto.
    + intros [? | (lc' & [= <-] & _ & [-> | [? _]])]; auto. congruence.
Qed.

Lemma constraintTickers_NoDup (set : list string)
    (c : string * option Universe.Lifecycle) :
  NoDup set -> NoDup (Universe.constraintTickers set c).
Proof.
  intros Hs. unfold Universe.constraintTickers.
  destruct c.2 as [lc |]; [ | done].
  destruct (String.eqb _ _); [ | done].
  destruct (JsString.truthy _); by repeat apply setAdd_NoDup.
Qed.

Lemma fold_constraintTickers_In (cs : list (string * option Universe.Lifecycle))
    (set : list string) (t : string) :
  In t (fold_left Universe.constraintTickers cs set) <->
  In t set \/
  exists k lc, In (k, Some lc) cs /\ Universe.stage lc = "activated" /\
    (t = Hist.normTicker k \/
     JsString.truthy (Universe.benchmark_proxy lc) = true /\
     t = Hist.normTicker (Universe.benchmark_proxy lc)).
Proof.
  revert set. induction cs as [| [k0 o0] cs IH]; intros set; simpl.
  - split; [by left | ]. intros [? | (k & lc & [] & _)]. done.
  - rewrite IH, constraintTickers_In. simpl. split.
    + intros [[? | (lc & -> & Hst & Hk)] | (k & lc & Hin & Hk)].
      * by left.
      * right. exists k0, lc. auto.
      * right. exists k, lc. auto.
    + intros [? | (k & lc & [[= -> ->] | Hin] & Hk)].
      * left. by left.
      * left. right. exists lc. auto.
      * right. exists k, lc. auto.
Qed.

Lemma fold_constraintTickers_NoDup
    (cs : list (string * option Universe.Lifecycle)) (set : list string) :
  NoDup set -> NoDup (fold_left Universe.constraintTickers cs set).
Proof.
  revert set. induction cs as [| c cs IH]; intros set Hs; simpl; [done | ].
  by apply IH, constraintTickers_NoDup.
Qed.

Lemma getPolicyRequiredTickers_In (policy : Universe.Policy) (t : string) :
  In t (Universe.getPolicyRequiredTickers_ policy) <->
  JsString.truthy t = true /\
  exists s, policyNames policy s /\ t = Hist.normTicker s.
Proof.
  unfold Universe.getPolicyRequiredTickers_, policyNames. cbv zeta.
  set (b := Universe.baselinesOf policy).
  set (set1 := fold_left (fun set t => setAdd (Hist.normTicker t) set)
                 (Universe.active_benchmarks b) []).
  set (set2 := if JsString.truthy (Universe.corr_anchor_ticker b)
               then setAdd (Hist.normTicker (Universe.corr_anchor_ticker b)) set1
               else set1).
  rewrite filter_In, fold_constraintTickers_In.
  assert (Hset2 : In t set2 <->
            (exists x, In x (Universe.active_benchmarks b) /\
               t = Hist.normTicker x) \/
            JsString.truthy (Universe.corr_anchor_ticker b) = true /\
            t = Hist.normTicker (Universe.corr_anchor_ticker b)).
  { subst set2 set1.
    destruct (JsString.truthy (Universe.corr_anchor_ticker b)) eqn:Ha.
    - rewrite setAdd_In, fold_setAdd_In. simpl. intuition.
    - rewrite fold_setAdd_In. simpl. intuition. congruence. }
  rewrite Hset2. split.
  + intros [[[(x & Hx & ->) | [Ha ->]] | (k & lc & Hin & Hst & Hk)] Ht];
      (split; [done | ]).
    * exists x. auto.
    * eexists. split; [right; left; split; [done | reflexivity] | done].
    * destruct Hk as [-> | [Hp ->]].
      -- exists k. split; [ | done]. right. right. exists k, lc. auto.
      -- eexists. split; [ | reflexivity]. right. right. exists k, lc.
         auto.
  + intros (Ht & s & [Hs | [[Ha ->] | (k & lc & Hin & Hst & Hk)]] & ->);
      (split; [ | done]).
    * left. left. by exists s.
    * left. right. done.
    * right. exists k, lc. split; [done | ]. split; [done | ].
      destruct Hk as [-> | [Hp ->]]; auto.
Qed.

(** X25. The set that [getPolicyRequiredTickers_] returns holds no ticker
    twice and no empty ticker, and its tickers are the active benchmarks,
    the correlation anchor, the tickers whose stage is activated and
    their benchmark proxies, each trimmed and in upper case: a ticker in
    any other stage is not required by the policy. *)
Theorem getPolicyRequiredTickers_spec (policy : Universe.Policy) :
  NoDup (Universe.getPolicyRequiredTickers_ policy) /\
  forall t, In t (Universe.getPolicyRequiredTickers_ policy) <->
    JsString.truthy t = true /\
    exists s, policyNames policy s /\ t = Hist.normTicker s.
Proof.
  split; [ | intros t; apply getPolicyRequiredTickers_In].
  unfold Universe.getPolicyRequiredTickers_. cbv zeta.
  apply NoDup_ListNoDup, List.NoDup_filter, NoDup_ListNoDup.
  apply fold_constraintTickers_NoDup.
  destruct (JsString.truthy _);
    [apply setAdd_NoDup | ]; apply fold_setAdd_NoDup; constructor.
Qed.

(** *** The tickers of a run *)

Lemma policyRequiredOfRun_In (C : Config) (policy : Universe.Policy)
    (t : string) :
  In t (Universe.policyRequiredOfRun C policy) <->
  In t (Universe.getPolicyRequiredTickers_ policy) \/
  exists b, In b (BASELINES C) /\ t = Hist.normTicker b.
Proof. unfold Universe.policyRequiredOfRun. apply fold_setAdd_In. Qed.

Lemma requiredTickersOfRun_In (C : Config) (state : Universe.State)
    (policy : Universe.Policy) (t : string) :
  In t (Universe.requiredTickersOfRun C state policy) <->
  In t (Universe.normalizeInventory_ state) \/
  In t (Universe.getPolicyRequiredTickers_ policy) \/
  exists b, In b (BASELINES C) /\ t = Hist.normTicker b.
Proof.
  unfold Universe.requiredTickersOfRun.
  by rewrite sortBy_In, setOfList_In, in_app_iff, policyRequiredOfRun_In.
Qed.

Lemma requiredTickersOfRun_NoDup (C : Config) (state : Universe.State)
    (policy : Universe.Policy) :
  NoDup (Universe.requiredTickersOfRun C state policy).
Proof.
  unfold Universe.requiredTickersOfRun. apply sortBy_NoDup, setOfList_NoDup.
Qed.

Lemma requiredTickersOfRun_norm (C : Config) (state : Universe.State)
    (policy : Universe.Policy) (t : string) :
  In t (Universe.requiredTickersOfRun C state policy) ->
  Hist.normTicker t = t.
Proof.
  intros [Ht | [Ht | (b & _ & ->)]]%requiredTickersOfRun_In.
  - by apply normalizeInventory_norm in Ht as [? _].
  - apply getPolicyRequiredTickers_In in Ht as (_ & s & _ & ->).
    apply normTicker_idem.
  - apply normTicker_idem.
Qed.

(** X26. The required tickers that [runDailyRoutine] hands to
    [updateHistDatabase_] are in strictly ascending order of code units,
    so none is repeated, and each is trimmed and in upper case; they are
    the tickers of the tracker, the tickers that the policy requires, and
    the baselines of the configuration. *)
Theorem requiredTickersOfRun_spec (C : Config) (state : Universe.State)
    (policy : Universe.Policy) :
  let required := Universe.requiredTickersOfRun C state policy in
  StronglySorted (fun a b => JsString.lt a b = true) required /\
  NoDup required /\
  (forall t, In t required -> Hist.normTicker t = t) /\
  (forall t, In t required <->
     In t (Universe.normalizeInventory_ state) \/
     In t (Universe.getPolicyRequiredTickers_ policy) \/
     exists b, In b (BASELINES C) /\ t = Hist.normTicker b).
Proof.
  cbv zeta.
  split; [unfold Universe.requiredTickersOfRun;
          apply sorted_strict, setOfList_NoDup | ].
  split; [apply requiredTickersOfRun_NoDup | ].
  split; [intros t; apply requiredTickersOfRun_norm | ].
  intros t. apply requiredTickersOfRun_In.
Qed.

(** *** The store as a run updates it *)

(** X27. On the call that [runDailyRoutine] makes, with a current day of the
    years 1 to 9999, the emitted table has at most one row per date and
    ticker, every emitted row is of a required ticker, and at most one
    chunk is fetched per ticker: the required tickers of a run are
    distinct, trimmed and in upper case, as these properties need. *)
Theorem run_store_invariants (C : Config) (W : World) (nToday : Z)
    (state : Universe.State) (policy : Universe.Policy) (startTime : Z)
    (s s' : Hist.Store) (sync : Hist.Sync) :
  inEra nToday ->
  syncOfRun C W nToday state policy startTime s = (Ok sync, s') ->
  let required := Universe.requiredTickersOfRun C state policy in
  exists L,
    Hist.loadHist W required (Hist.histCsv s) = Ok L /\
    NoDup (map (fun r => (dateOf (Hist.columns L) r,
                          tickerOf (Hist.columns L) r))
             (Hist.emitted sync)) /\
    (forall r, In r (Hist.emitted sync) ->
       In (tickerOf (Hist.columns L) r) required) /\
    NoDup (map requestTicker (Hist.fetched sync)).
Proof.
  intros Hn Hrun required. unfold syncOfRun in Hrun. fold required in Hrun.
  pose proof (requiredTickersOfRun_NoDup C state policy) as Hnd.
  pose proof (requiredTickersOfRun_norm C state policy) as Hnorm.
  fold required in Hnd, Hnorm.
  assert (Htoday : JsDate.isYMD (JsDate.formatYMD nToday) = true)
    by by apply isYMD_formatYMD.
  apply updateHistDatabase_inv in Hrun
    as (L & requiredStart & st & live & Hload & Hrs & Hloop & Hlive
        & -> & _).
  exists L. split; [done | ].
  destruct (loadHist_inv _ _ _ _ Hload) as ((Hdt & Hdp & Htp) & Hkept & Hpurged).
  cbn [Hist.emitted Hist.fetched]. unfold loopOf in Hloop.
  set (col := Hist.columns L) in *.
  set (D := fun d : string => JsString.trim d = d).
  assert (Hown : forall t e, In t required -> ownEntry col D t e ->
            keyed col e /\ In (tickerOf col e.2) required).
  { intros t e Ht (d & px & Hd & ->). unfold keyed, dateOf, tickerOf. simpl.
    destruct (priceRow_cells col d t px Hdt Hdp Htp) as [-> ->].
    by rewrite Hd, (Hnorm t Ht). }
  assert (HD : forall n, D (JsDate.formatYMD n)) by apply formatYMD_trim.
  set (mF := Hist.mergeLive col (JsDate.formatYMD nToday) live required
               (Hist.store st)).
  assert (Hkeys : NoDup (objKeys mF)).
  { apply mergeLive_NoDup.
    eapply loop_store_NoDup; [exact Hloop | ]. simpl. apply loadMap_NoDup. }
  assert (Hall : List.Forall
            (fun e => keyed col e /\
                      (JsString.truthy (tickerOf col e.2) = true ->
                       In (tickerOf col e.2) required)) mF).
  { apply (mergeLive_Forall _ D); [by apply isYMD_trim | | ].
    - intros t e Ht He. destruct (Hown t e Ht He). auto.
    - eapply (loop_store_Forall _ _ _ _ _ _ _ D);
        [done | | exact Hloop | ].
      + intros t e Ht He. destruct (Hown t e Ht He). auto.
      + simpl. apply loadMap_Forall. intros r Hr Ht. split; [done | ].
        intros _. by apply Hkept. }
  split; [ | split].
  - unfold Hist.finalRowsOf. apply NoDup_ListNoDup.
    eapply Permutation_NoDup;
      [ apply Permutation_map; symmetry; apply sortBy_Permutation | ].
    apply NoDup_ListNoDup, keyed_values_NoDup; [done | ].
    eapply List.Forall_impl; [ | exact Hall]. by intros e [? _].
  - assert (Hrows : List.Forall
              (fun e : string * row => In (tickerOf col e.2) required) mF).
    { apply (mergeLive_Forall _ D); [by apply isYMD_trim | | ].
      - intros t e Ht He. by destruct (Hown t e Ht He).
      - eapply (loop_store_Forall _ _ _ _ _ _ _ D);
          [done | | exact Hloop | ].
        + intros t e Ht He. by destruct (Hown t e Ht He).
        + simpl. apply loadMap_Forall. intros r Hr Ht. by apply Hkept. }
    intros r Hr. unfold Hist.finalRowsOf in Hr.
    apply sortBy_In in Hr. apply in_map_iff in Hr as (e & <- & He).
    rewrite List.Forall_forall in Hrows. by apply Hrows.
  - destruct (loop_requests_shape _ _ _ _ _ _ _ _ _ _ _ _ Hloop)
      as (l & Hl & Hsub & _).
    simpl in Hl. subst l.
    eapply sublist_NoDup; [exact Hnd | exact Hsub].
Qed.

(** The tracker and the policy of the example, on 2025-01-10. *)
Lemma run_store_invariants_witness :
  exists L,
    Hist.loadHist dailyWorld
      (Universe.requiredTickersOfRun shortCfg demoState demoPolicy)
      (Hist.histCsv abcStore) = Ok L /\
    NoDup (map (fun r => (dateOf (Hist.columns L) r,
                          tickerOf (Hist.columns L) r))
             (Hist.emitted (okOr noSync (fst demoRun)))) /\
    (forall r, In r (Hist.emitted (okOr noSync (fst demoRun))) ->
       In (tickerOf (Hist.columns L) r)
         (Universe.requiredTickersOfRun shortCfg demoState demoPolicy)) /\
    NoDup (map requestTicker (Hist.fetched (okOr noSync (fst demoRun)))).
Proof.
  apply (run_store_invariants shortCfg dailyWorld 20098 demoState demoPolicy
           0 abcStore (snd demoRun) (okOr noSync (fst demoRun))).
  - unfold inEra, dayMin, dayHi. lia.
  - vm_compute. reflexivity.
Defined.

Lemma latestDate_spec (col : Hist.ColumnMap) (rows : table) :
  let dates := map (fun r => Analytics.cellText r (Hist.date col)) rows in
  match Snapshot.latestDate col rows with
  | Some d =>
      JsDate.isYMD d = true /\ In d dates /\
      forall d', In d' dates -> JsDate.isYMD d' = true -> dateLe d' d
  | None => forall d', In d' dates -> JsDate.isYMD d' = false
  end.
Proof.
  intros dates. unfold Snapshot.latestDate, Snapshot.allDatesOf. fold dates.
  assert (Hin : forall k,
            In k (sortBy String.compare
                    (List.filter JsDate.isYMD (setOfList dates)))
            <-> In k dates /\ JsDate.isYMD k = true).
  { intros k. by rewrite sortBy_In, filter_In, setOfList_In. }
  pose proof (sortBy_sorted (List.filter JsDate.isYMD (setOfList dates)))
    as Hs.
  destruct (sortBy String.compare
              (List.filter JsDate.isYMD (setOfList dates)))
    as [| d0 rest] eqn:Hsort.
  - intros d' Hd'. destruct (JsDate.isYMD d') eqn:Hy; [ | done].
    exfalso. by apply (proj2 (Hin d')).
  - assert (Hlast : In (List.last rest d0) (d0 :: rest)).
    { destruct rest as [| r rest']; [by left | ].
      right. by apply last_In. }
    destruct (proj1 (Hin _) Hlast) as [Hl1 Hl2].
    split; [done | ]. split; [done | ].
    intros d' Hd' Hy.
    by apply (sorted_first_last d0 rest d' Hs), (proj2 (Hin d')).
Qed.

Lemma upsert_outcome (W : World) (dateStr : string) (portfolioVal : JsNum.num)
    (benches : list string) (benchPrices : list JsNum.num)
    (chartStartDate : string) (s s' : Hist.Store)
    (r : result Ledger.Recomputed) :
  Ledger.upsertAndRecomputePerformanceLog_ W dateStr portfolioVal benches
    benchPrices chartStartDate s = (r, s') ->
  Hist.histCsv s' = Hist.histCsv s /\
  Hist.scriptProps s' = Hist.scriptProps s /\
  match r with Throw _ => s' = s | Ok _ => True end.
Proof.
  unfold Ledger.upsertAndRecomputePerformanceLog_. eff_unfold.
  destruct (Ledger.recompute _ _ _ _ _ _ _); intros [= <- <-]; by simpl.
Qed.

Lemma updateLedger_outcome (W : World) (policy : Universe.Policy)
    (prices : list (string * JsNum.num)) (asOf : string) (total : JsNum.num)
    (run run' : Snapshot.Run) (r : result unit) :
  Snapshot.updateLedger W policy prices asOf total run = (r, run') ->
  r = Ok tt /\
  Hist.histCsv (Snapshot.files run') = Hist.histCsv (Snapshot.files run) /\
  Hist.scriptProps (Snapshot.files run')
  = Hist.scriptProps (Snapshot.files run) /\
  (Snapshot.alerts run' = Snapshot.alerts run \/
   exists why, Snapshot.alerts run' = Snapshot.alerts run ++ ["LOG: " +:+ why]
               /\ Snapshot.files run' = Snapshot.files run).
Proof.
  unfold Snapshot.updateLedger, Snapshot.pushAlert, modifyState.
  destruct (map Hist.normTicker _) as [| b bs] eqn:Hb.
  { intros [= <- <-]. simpl. repeat split. right.
    by exists "No active_benchmarks in policy; skipped perf-log update.". }
  destruct (forallb _ _).
  - destruct (Ledger.upsertAndRecomputePerformanceLog_ _ _ _ _ _ _ _)
      as [[rec | msg] s'] eqn:Hup;
      destruct (upsert_outcome _ _ _ _ _ _ _ _ _ Hup) as (H1 & H2 & H3);
      intros [= <- <-]; simpl; repeat split; try done.
    + by left.
    + right. exists msg. by rewrite H3.
  - intros [= <- <-]. simpl. repeat split. right.
    by exists ("Skipped perf-log update (missing benchmark price(s) on "
               +:+ asOf +:+ ").").
Qed.

Lemma ghostOf_asOf (C : Config) (getTime : Z -> Z) (reviewDays : Z)
    (rows : table) (col : Hist.ColumnMap) (asOf : string)
    (cs : list (string * option Universe.Lifecycle)) (g : Html.Ghost) :
  In g (flat_map (Snapshot.ghostOf C getTime reviewDays rows col asOf) cs) ->
  Html.asOfDate g = asOf.
Proof.
  rewrite in_flat_map. intros ([t lc] & _ & Hg).
  unfold Snapshot.ghostOf in Hg. simpl in Hg.
  destruct lc as [lc | ]; [ | done].
  destruct (String.eqb _ _); [ | done].
  by destruct Hg as [<- | []].
Qed.

(** X28. [processSnapshot_] writes neither the HIST file nor a script
    property, and when it throws nothing at all has changed.  When it
    returns, either no alert is added, or one alert that begins with LOG is
    added and the files are as they were: an update of the performance
    ledger that throws does not abort the snapshot, its message becomes the
    alert and the ledger file is not written.  With a base row whose
    portfolio value is zero, the run returns its snapshot with the alert
    of the invalid base. *)
Theorem snapshot_contains_ledger_failure (C : Config) (W : World)
    (getTime : Z -> Z) (reviewDays : Z) (policy : Universe.Policy)
    (holdingsCsv : string) (run run' : Snapshot.Run)
    (r : result Snapshot.Snap) :
  Snapshot.processSnapshot_ C W getTime reviewDays policy holdingsCsv run
  = (r, run') ->
  Hist.histCsv (Snapshot.files run') = Hist.histCsv (Snapshot.files run) /\
  Hist.scriptProps (Snapshot.files run')
  = Hist.scriptProps (Snapshot.files run) /\
  match r with
  | Throw _ => run' = run
  | Ok _ =>
      Snapshot.alerts run' = Snapshot.alerts run \/
      exists why,
        Snapshot.alerts run' = Snapshot.alerts run ++ ["LOG: " +:+ why] /\
        Snapshot.files run' = Snapshot.files run
  end.
Proof.
  unfold Snapshot.processSnapshot_. eff_unfold.
  destruct (match parseCsv W _ with [] => _ | header :: _ => _ end)
    as [col | msg]; [ | by intros [= <- <-]].
  destruct (Snapshot.latestDate col _) as [asOf | ]; [ | by intros [= <- <-]].
  destruct (Snapshot.updateLedger _ _ _ _ _ run) as [ru run1] eqn:Hup.
  destruct (updateLedger_outcome _ _ _ _ _ _ _ _ Hup) as (-> & H1 & H2 & H3).
  by intros [= <- <-].
Qed.

Lemma snapshot_contains_ledger_failure_witness :
  (Hist.histCsv (Snapshot.files (snd snapRun)) = Hist.histCsv snapStore /\
   Hist.scriptProps (Snapshot.files (snd snapRun))
   = Hist.scriptProps snapStore /\
   match fst snapRun with
   | Throw _ =>
       snd snapRun
       = {| Snapshot.files := snapStore; Snapshot.alerts := ["first"] |}
   | Ok _ =>
       Snapshot.alerts (snd snapRun) = ["first"] \/
       exists why,
         Snapshot.alerts (snd snapRun) = ["first"] ++ ["LOG: " +:+ why] /\
         Snapshot.files (snd snapRun) = snapStore
   end) /\
  (exists snap, fst snapRun = Ok snap) /\
  Snapshot.alerts (snd snapRun)
  = ["first"; "LOG: Perf log base portfolio value invalid."].
Proof.
  split.
  - apply (snapshot_contains_ledger_failure shortCfg quietWorld (steadyZone 0)
             30 snapPolicy snapHoldings
             {| Snapshot.files := snapStore; Snapshot.alerts := ["first"] |}).
    vm_compute. reflexivity.
  - split; [eexists | ]; vm_compute; reflexivity.
Defined.

(** X29. With a header that has the three columns, [processSnapshot_]
    returns exactly when some row has a date cell of the form yyyy-MM-dd.
    The as-of date is then such a cell, no such cell is after it, and every
    ghost carries it; otherwise the error says that the HIST has no valid
    date rows. *)
Theorem snapshot_as_of_latest (C : Config) (W : World) (getTime : Z -> Z)
    (reviewDays : Z) (policy : Universe.Policy) (holdingsCsv : string)
    (run : Snapshot.Run) (header : row) (rows : table)
    (col : Hist.ColumnMap) :
  parseCsv W (stripBomTrim (Hist.histCsv (Snapshot.files run)))
  = header :: rows ->
  Hist.buildColumnMap_ header = Ok col ->
  let dates := map (fun r => Analytics.cellText r (Hist.date col)) rows in
  match fst (Snapshot.processSnapshot_ C W getTime reviewDays policy
               holdingsCsv run) with
  | Ok snap =>
      JsDate.isYMD (Snapshot.asOfDate snap) = true /\
      In (Snapshot.asOfDate snap) dates /\
      (forall d, In d dates -> JsDate.isYMD d = true ->
                 dateLe d (Snapshot.asOfDate snap)) /\
      forall g, In g (Snapshot.ghosts snap) ->
                Html.asOfDate g = Snapshot.asOfDate snap
  | Throw msg =>
      msg = "HIST has no valid date rows." /\
      forall d, In d dates -> JsDate.isYMD d = false
  end.
Proof.
  intros Hparse Hcol dates.
  unfold Snapshot.processSnapshot_. eff_unfold.
  rewrite Hparse, Hcol. cbn [tl].
  pose proof (latestDate_spec col rows) as Hlast. cbv zeta in Hlast.
  fold dates in Hlast.
  destruct (Snapshot.latestDate col rows) as [asOf | ]; [ | by simpl].
  destruct (Snapshot.updateLedger _ _ _ _ _ run) as [ru run1] eqn:Hup.
  destruct (updateLedger_outcome _ _ _ _ _ _ _ _ Hup) as (-> & _).
  cbn [fst Snapshot.asOfDate Snapshot.ghosts].
  destruct Hlast as (H1 & H2 & H3). repeat split; try done.
  intros g Hg. by eapply ghostOf_asOf.
Qed.

Lemma snapshot_as_of_latest_witness :
  match fst snapRun with
  | Ok snap =>
      JsDate.isYMD (Snapshot.asOfDate snap) = true /\
      In (Snapshot.asOfDate snap)
        ["2025-01-08"; "2025-01-08"; "2025-01-09"; "2025-01-09"] /\
      (forall d,
         In d ["2025-01-08"; "2025-01-08"; "2025-01-09"; "2025-01-09"] ->
         JsDate.isYMD d = true -> dateLe d (Snapshot.asOfDate snap)) /\
      forall g, In g (Snapshot.ghosts snap) ->
                Html.asOfDate g = Snapshot.asOfDate snap
  | Throw msg =>
      msg = "HIST has no valid date rows." /\
      forall d,
        In d ["2025-01-08"; "2025-01-08"; "2025-01-09"; "2025-01-09"] ->
        JsDate.isYMD d = false
  end.
Proof.
  apply (snapshot_as_of_latest shortCfg quietWorld (steadyZone 0) 30
           snapPolicy snapHoldings
           {| Snapshot.files := snapStore; Snapshot.alerts := ["first"] |}
           ["date"; "ticker"; "price"]
           [["2025-01-08"; "NEWT"; "110.00"]; ["2025-01-08"; "VTI"; "55.00"];
            ["2025-01-09"; "NEWT"; "121.00"]; ["2025-01-09"; "VTI"; "55.00"]]
           {| Hist.date := 0; Hist.ticker := 1; Hist.price := 2;
              Hist.width := 0 |}).
  - vm_compute. reflexivity.
  - vm_compute. reflexivity.
Defined.

(** X30. For two days of the years 100 to 9999 written as yyyy-MM-dd,
    [diffDaysYMD_] gives the number of calendar days between them when the
    later local midnight is not displaced backwards against the earlier
    one, and one day less when it is displaced backwards by less than a
    day, as over a change to summer time; with a text that is not of the
    form yyyy-MM-dd on either side it gives null.  From 2025-03-01 to
    2025-03-15 in a zone that changes on 2025-03-09 it gives 13, so the
    status is still ONBOARDING. *)
Theorem diffDaysYMD_counts (getTime : Z -> Z) (a b shift : Z) :
  inRange a -> inRange b ->
  getTime b - getTime a = 86400000 * (b - a) + shift ->
  -86400000 < shift < 86400000 ->
  Snapshot.diffDaysYMD_ getTime (JsDate.formatYMD b) (JsDate.formatYMD a)
  = Some (if shift <? 0 then b - a - 1 else b - a) /\
  forall s, JsDate.isYMD s = false ->
    Snapshot.diffDaysYMD_ getTime s (JsDate.formatYMD a) = None /\
    Snapshot.diffDaysYMD_ getTime (JsDate.formatYMD b) s = None.
Proof.
  intros Ha Hb Hdiff Hshift. split.
  - unfold Snapshot.diffDaysYMD_.
    rewrite !isYMD_formatYMD by by apply inRange_inEra.
    rewrite !formatYMD_roundtrip by done.
    cbn [negb]. f_equal. rewrite Hdiff.
    destruct (Z.ltb_spec shift 0).
    + replace (86400000 * (b - a) + shift)
        with ((b - a - 1) * 86400000 + (shift + 86400000)) by lia.
      rewrite Z.div_add_l by lia. rewrite Z.div_small by lia. lia.
    + replace (86400000 * (b - a) + shift)
        with ((b - a) * 86400000 + shift) by lia.
      rewrite Z.div_add_l by lia. rewrite Z.div_small by lia. lia.
  - intros s Hs. unfold Snapshot.diffDaysYMD_. rewrite Hs.
    split; [done | ].
    by rewrite isYMD_formatYMD by by apply inRange_inEra.
Qed.

Lemma diffDaysYMD_counts_witness :
  Snapshot.diffDaysYMD_ springZone "2025-03-15" "2025-03-01" = Some 13 /\
  Snapshot.statusOf 30
    (Snapshot.diffDaysYMD_ springZone "2025-03-15" "2025-03-01")
  = Snapshot.signNew +:+ " ONBOARDING".
Proof.
  assert (H : Snapshot.diffDaysYMD_ springZone "2025-03-15" "2025-03-01"
              = Some 13).
  { refine (proj1 (diffDaysYMD_counts springZone 20148 20162 (-3600000)
                     _ _ _ _)).
    - unfold inRange, dayLo, dayHi. lia.
    - unfold inRange, dayLo, dayHi. lia.
    - vm_compute. reflexivity.
    - lia. }
  split; [exact H | ]. rewrite H. vm_compute. reflexivity.
Defined.
